(** * Ticket intake workflow engine of the RA bot: a shallow embedding

    The development follows [regular_bot.py] and [jira_client.py]:
    Python strings are sequences of Unicode code points, the [Ticket]
    dataclass is a record, the per-session draft dictionary is a record
    of its keys, and the handlers are functions from the draft and the
    answers of the external collaborators to the new draft and the list
    of calls they issue. *)

From Stdlib Require Import ZArith NArith List Bool Lia String Ascii DecimalString.
From stdpp Require Import base decidable option list gmap.

Local Open Scope Z_scope.

(** ** Python strings *)

(** A [str] is a sequence of code points. *)
Abbreviation pystr := (list N).

Fixpoint bytes_of (s : string) : list N :=
  match s with
  | EmptyString => []
  | String a s' => N_of_ascii a :: bytes_of s'
  end.

(** Decoder of the UTF-8 bytes of a literal of this file. *)
Fixpoint utf8_decode (bs : list N) : pystr :=
  match bs with
  | [] => []
  | b :: r =>
      if (b <? 128)%N then b :: utf8_decode r
      else if (b <? 224)%N then
        match r with
        | b1 :: r1 => ((b - 192) * 64 + (b1 - 128))%N :: utf8_decode r1
        | _ => []
        end
      else if (b <? 240)%N then
        match r with
        | b1 :: b2 :: r2 =>
            ((b - 224) * 4096 + (b1 - 128) * 64 + (b2 - 128))%N :: utf8_decode r2
        | _ => []
        end
      else
        match r with
        | b1 :: b2 :: b3 :: r3 =>
            ((b - 240) * 262144 + (b1 - 128) * 4096 + (b2 - 128) * 64 + (b3 - 128))%N
              :: utf8_decode r3
        | _ => []
        end
  end.

(** [u "text"] is the Python literal ["text"]. *)
Definition u (s : string) : pystr := utf8_decode (bytes_of s).
Arguments u _%_string : simpl never.

(** The tables of the Python runtime the program relies on. *)
Class PyUnicode := {
  py_upper : N → pystr;      (* [str.upper], code point by code point *)
  py_isalnum : N → bool;     (* [str.isalnum] of a one-character string *)
  py_isspace : N → bool;     (* what [str.strip] removes *)
  re_digit : N → bool        (* [\d] of a [str] pattern *)
}.

(** [x or y] on optional strings: [None] and [""] are falsy. *)
Definition truthy (o : option pystr) : bool :=
  match o with
  | Some (_ :: _) => true
  | _ => false
  end.

Definition or_str (o : option pystr) (dflt : pystr) : pystr :=
  match o with
  | Some (c :: s) => c :: s
  | _ => dflt
  end.

(** [list.index]: position of the first occurrence. *)
Fixpoint py_index (x : pystr) (l : list pystr) : option nat :=
  match l with
  | [] => None
  | y :: l' => if decide (y = x) then Some O else S <$> py_index x l'
  end.

(** [list.insert(i, x)] for [0 <= i]. *)
Definition py_insert (i : nat) (x : pystr) (l : list pystr) : list pystr :=
  take i l ++ x :: drop i l.

(** [s.startswith(p)] *)
Fixpoint startswith (p s : pystr) : bool :=
  match p, s with
  | [], _ => true
  | a :: p', b :: s' => (a =? b)%N && startswith p' s'
  | _ :: _, [] => false
  end.

(** The text before and after the first [sep], if there is one. *)
Fixpoint break_at (sep : N) (s : pystr) : option (pystr * pystr) :=
  match s with
  | [] => None
  | c :: s' =>
      if (c =? sep)%N then Some ([], s')
      else
        match break_at sep s' with
        | Some (pre, post) => Some (c :: pre, post)
        | None => None
        end
  end.

(** [s.split(sep, maxsplit)] for a one-character [sep]. *)
Fixpoint py_split (sep : N) (maxsplit : nat) (s : pystr) : list pystr :=
  match maxsplit with
  | O => [s]
  | S n =>
      match break_at sep s with
      | Some (pre, post) => pre :: py_split sep n post
      | None => [s]
      end
  end.

(** [s.split(sep)]: a string has fewer separators than characters. *)
Definition py_split_all (sep : N) (s : pystr) : list pystr :=
  py_split sep (length s) s.

Definition bar : N := 124.     (* "|" *)

Fixpoint lstrip `{PyUnicode} (s : pystr) : pystr :=
  match s with
  | c :: s' => if py_isspace c then lstrip s' else s
  | [] => []
  end.

(** [s.strip()] *)
Definition strip `{PyUnicode} (s : pystr) : pystr :=
  rev (lstrip (rev (lstrip s))).

(** [sep.join(parts)] *)
Fixpoint join (sep : pystr) (parts : list pystr) : pystr :=
  match parts with
  | [] => []
  | [x] => x
  | x :: rest => x ++ sep ++ join sep rest
  end.

(** [html.escape(s)], quotes included. *)
Definition html_escape_char (c : N) : pystr :=
  if (c =? 38)%N then u "&amp;"
  else if (c =? 60)%N then u "&lt;"
  else if (c =? 62)%N then u "&gt;"
  else if (c =? 34)%N then u "&quot;"
  else if (c =? 39)%N then u "&#x27;"
  else [c].

Definition _html_escape (s : pystr) : pystr := flat_map html_escape_char s.

(** [str(n)] of an [int]. *)
Definition str_of_int (n : Z) : pystr := u (NilZero.string_of_int (Z.to_int n)).

(** [d.get(k)] of a dictionary literal. *)
Fixpoint dict_get {A : Type} (d : list (pystr * A)) (k : pystr) : option A :=
  match d with
  | [] => None
  | (k', v) :: d' => if decide (k' = k) then Some v else dict_get d' k
  end.

(** ** Texts

    The leaves of [TEXTS] the engine uses; a text with a placeholder is a
    function of what [str.format] fills in. *)

Definition nl : pystr := [10%N].

Definition T_progress_creating_issue : pystr := u "⏳ Ожидайте создания заявки и таска в Jira...".
Definition T_progress_closing_issue : pystr := u "⏳ Закрываем заявку и таск в Jira...".
Definition T_buttons_back : pystr := u "⬅ Назад".
Definition T_buttons_skip : pystr := u "🚫 Не указывать".
Definition T_buttons_dont_know : pystr := u "Неизвестно".
Definition T_buttons_yes : pystr := u "Да".
Definition T_buttons_no : pystr := u "Нет".
Definition T_buttons_done : pystr := u "Готово".
Definition T_buttons_edit : pystr := u "✍️ Внести изменения".
Definition T_buttons_create_issue : pystr := u "✅ Создать заявку".
Definition T_buttons_call_ra : pystr := u "🛟 Вызвать RA".
Definition T_buttons_close_all : pystr := u "🛑 Закрыть заявку".
Definition T_buttons_open_chat : pystr := u "💬 Перейти в чат".
Definition T_common_jira_create_failed : pystr := u "⚠️ Не удалось создать задачу в Jira.".
Definition T_common_help_needed : pystr := u "Требуется Ваша помощь".
Definition T_common_issue_closed : pystr := u "✅ Заявка и таск в Jira закрыты".
Definition T_common_preview_label : pystr := u "<b><i>Проверьте заявку перед созданием</i></b>" ++ nl.
Definition T_headings_ra_form : pystr := u "<b>Вводные данные для работы RA:</b>".
Definition T_errors_plate_invalid : pystr := u "❌ Неверный формат госномера ВАТС ❌".
Definition T_errors_plate_ref_invalid : pystr := u "❌ Неверный формат госномера ПП ❌".
Definition T_errors_empty_text : pystr := u "❌ Пустой ввод ❌".
Definition T_messages_need_main_before_ra : pystr := u "Сначала создайте основную задачу (нет родителя для RA).".
Definition T_messages_dtp_vehicles_hint : pystr := u "<i>Используйте кнопки +/− и затем «Готово»</i>".
Definition T_messages_incident_source_other_prompt : pystr := u "Введите источник происшествия в свободной форме:".
Definition T_jira_no_transitions : pystr := u "Нет доступных переходов для закрытия.".
Definition T_jira_need_main_issue : pystr := u "⚠️ Основная задача ещё не создана.".
Definition T_dispatch_button_text : pystr := u "📞 Вызвать диспетчера".
Definition T_dispatch_help_message : pystr := u "Требуется вмешательство диспетчера".
Definition T_dispatch_delay_notice : pystr := u "<b>⚠️ Возможна задержка ТС в пути ⚠️</b>" ++ nl ++ nl ++ u "<i>— Описание проблемы —</i>".
Definition T_dispatch_ra_notice : pystr := u "<b>Был вызван RA</b>" ++ nl.
Definition T_dispatch_sent : pystr := u "Запрос отправлен диспетчеру.".
Definition T_dispatch_missing_chat : pystr := u "Чат для диспетчера не настроен.".
Definition T_form_edit_title : pystr := u "Выберите пункт для изменения:".
Definition T_back_to_summary : pystr := u "⬅ Назад к итогу".
Definition T_buttons_vehicle_plus (label : pystr) : pystr := u "+ " ++ label.
Definition T_buttons_vehicle_minus (label : pystr) : pystr := u "− " ++ label.
Definition T_common_ticket_title (id : pystr) : pystr := u "Заявка #" ++ id.
Definition T_messages_ra_subject (ticket_id : pystr) : pystr := u "Заявка #" ++ ticket_id ++ u " — RA".
Definition T_vehicles : list (pystr * pystr) :=
  [(u "light", u "Легковой");
   (u "bus", u "Автобус");
   (u "truck", u "Грузовой");
   (u "moto", u "Мото")].
Definition T_primary_block_labels : list (pystr * pystr) :=
  [(u "incident_type", u "Тип происшествия");
   (u "incident_source", u "Откуда узнали о происшествии");
   (u "brand", u "Тип ТС");
   (u "plate_vats", u "Госномер ВАТС");
   (u "plate_ref", u "Госномер ПП");
   (u "location", u "Место происшествия");
   (u "incident_time", u "Дата и время ДТП");
   (u "incident_time_break", u "Время инцидента");
   (u "dtp_type", u "Тип ДТП");
   (u "dtp_vehicles", u "ТС, попавшие в ДТП");
   (u "dtp_damage", u "Повреждения");
   (u "obstacle_on_road", u "ВАТС создает помехи на трассе");
   (u "break_symptoms", u "Симптомы");
   (u "problem_desc", u "Описание проблемы");
   (u "notes", u "Примечания")].
Definition T_ra_summary_labels : list (pystr * pystr) :=
  [(u "ra_need_dtp_formalization", u "Требуется оформление/урегулирование ДТП");
   (u "ra_need_diagnosis", u "Требуется осмотр/диагностика");
   (u "ra_need_repair", u "Требуется ремонт");
   (u "ra_need_evacuation", u "Требуется эвакуация");
   (u "ra_called_112", u "Был ли вызов 112")].
Definition T_questions : list (pystr * pystr) :=
  [(u "incident_type", u "Выберите тип происшествия:");
   (u "incident_source", u "Откуда узнали о происшествии?");
   (u "dtp_type", u "Выберите тип ДТП:");
   (u "brand", u "Выберите тип ВАТС:");
   (u "dtp_vehicles", u "Типы и количество ТС, попавших в ДТП:");
   (u "dtp_damage_text", u "Опишите наличие и степень повреждений ВАТС/прицепа");
   (u "obstacle_on_road", u "Создаёт ли ВАТС помехи на трассе?");
   (u "break_symptoms", u "Опишите симптомы неисправности:");
   (u "plate_vats", u "Введите госномер ВАТС " ++ nl ++ u "(1 буква + 3 цифры + 2 буквы + 2/3 цифры региона)");
   (u "plate_ref", u "Введите госномер рефа/пп " ++ nl ++ u "(2 буквы + 4 цифры + 2/3 цифры региона)");
   (u "location", u "Укажите местоположение ВАТС (координаты/ориентиры)");
   (u "problem_desc", u "Напишите подробности проблемы");
   (u "notes", u "Особые отметки, примечание");
   (u "ra_need_dtp_formalization", u "Требуется оформление ДТП?");
   (u "ra_need_diagnosis", u "Требуется осмотр/диагностика?");
   (u "ra_need_repair", u "Требуется ремонт?");
   (u "ra_need_evacuation", u "Требуется эвакуация?");
   (u "ra_called_112", u "Был звонок 112?")].
Definition T_choices_incident_type : list (pystr * pystr) :=
  [(u "DTP", u "ДТП");
   (u "BREAK", u "Поломка")].
Definition T_choices_incident_source : list (pystr * pystr) :=
  [(u "DRIVER_CALL", u "Звонок от водителя");
   (u "TELEOPS_REQUEST", u "Запрос в Телеопс");
   (u "EXTERNAL_CALL", u "Звонок по внешнему номеру");
   (u "OTHER", u "Другое")].
Definition T_choices_dtp_type : list (pystr * pystr) :=
  [(u "COLLISION", u "Cтолкновение");
   (u "ROLLOVER", u "Опрокидывание");
   (u "RUNOVER", u "Наезд")].
Definition T_choices_brand : list (pystr * pystr) :=
  [(u "KIA_CEED", u "Kia Ceed");
   (u "SITRAK", u "Sitrak")].
Definition T_jira_preferred_close_statuses : list pystr :=
  [u "Done"; u "Closed"; u "Resolve"; u "Resolved"; u "Закрыто"; u "Закрыть"; u "Готово"; u "Выполнено"].

(** ** The ticket *)

Record Ticket := mkTicket {
  ticket_id : pystr;
  user_id : Z;
  username : option pystr;
  created_at : pystr;
  incident_type : option pystr;
  incident_source : option pystr;
  dtp_type : option pystr;
  incident_time : option pystr;
  brand : option pystr;
  plate_vats : option pystr;
  plate_ref : option pystr;
  dtp_vehicles : gmap (list N) Z;
  location : option pystr;
  dtp_damage_text : option pystr;
  obstacle_on_road : option pystr;
  break_symptoms : option pystr;
  problem_desc : option pystr;
  notes : option pystr;
  jira_main : option pystr;
  ra_need_dtp_formalization : option pystr;
  ra_need_diagnosis : option pystr;
  ra_need_repair : option pystr;
  ra_need_evacuation : option pystr;
  ra_called_112 : option pystr;
  ra_chat_id : option Z
}.

(** Assignment to one attribute of a ticket. *)

Definition with_ticket_id (v : pystr) (t : Ticket) : Ticket :=
  mkTicket v (user_id t) (username t) (created_at t) (incident_type t)
    (incident_source t) (dtp_type t) (incident_time t) (brand t) (plate_vats t)
    (plate_ref t) (dtp_vehicles t) (location t) (dtp_damage_text t) (obstacle_on_road t)
    (break_symptoms t) (problem_desc t) (notes t) (jira_main t)
    (ra_need_dtp_formalization t) (ra_need_diagnosis t) (ra_need_repair t)
    (ra_need_evacuation t) (ra_called_112 t) (ra_chat_id t).

Definition with_username (v : option pystr) (t : Ticket) : Ticket :=
  mkTicket (ticket_id t) (user_id t) v (created_at t) (incident_type t)
    (incident_source t) (dtp_type t) (incident_time t) (brand t) (plate_vats t)
    (plate_ref t) (dtp_vehicles t) (location t) (dtp_damage_text t) (obstacle_on_road t)
    (break_symptoms t) (problem_desc t) (notes t) (jira_main t)
    (ra_need_dtp_formalization t) (ra_need_diagnosis t) (ra_need_repair t)
    (ra_need_evacuation t) (ra_called_112 t) (ra_chat_id t).

Definition with_created_at (v : pystr) (t : Ticket) : Ticket :=
  mkTicket (ticket_id t) (user_id t) (username t) v (incident_type t)
    (incident_source t) (dtp_type t) (incident_time t) (brand t) (plate_vats t)
    (plate_ref t) (dtp_vehicles t) (location t) (dtp_damage_text t) (obstacle_on_road t)
    (break_symptoms t) (problem_desc t) (notes t) (jira_main t)
    (ra_need_dtp_formalization t) (ra_need_diagnosis t) (ra_need_repair t)
    (ra_need_evacuation t) (ra_called_112 t) (ra_chat_id t).

Definition with_incident_type (v : option pystr) (t : Ticket) : Ticket :=
  mkTicket (ticket_id t) (user_id t) (username t) (created_at t) v (incident_source t)
    (dtp_type t) (incident_time t) (brand t) (plate_vats t) (plate_ref t)
    (dtp_vehicles t) (location t) (dtp_damage_text t) (obstacle_on_road t)
    (break_symptoms t) (problem_desc t) (notes t) (jira_main t)
    (ra_need_dtp_formalization t) (ra_need_diagnosis t) (ra_need_repair t)
    (ra_need_evacuation t) (ra_called_112 t) (ra_chat_id t).

Definition with_incident_source (v : option pystr) (t : Ticket) : Ticket :=
  mkTicket (ticket_id t) (user_id t) (username t) (created_at t) (incident_type t) v
    (dtp_type t) (incident_time t) (brand t) (plate_vats t) (plate_ref t)
    (dtp_vehicles t) (location t) (dtp_damage_text t) (obstacle_on_road t)
    (break_symptoms t) (problem_desc t) (notes t) (jira_main t)
    (ra_need_dtp_formalization t) (ra_need_diagnosis t) (ra_need_repair t)
    (ra_need_evacuation t) (ra_called_112 t) (ra_chat_id t).

Definition with_dtp_type (v : option pystr) (t : Ticket) : Ticket :=
  mkTicket (ticket_id t) (user_id t) (username t) (created_at t) (incident_type t)
    (incident_source t) v (incident_time t) (brand t) (plate_vats t) (plate_ref t)
    (dtp_vehicles t) (location t) (dtp_damage_text t) (obstacle_on_road t)
    (break_symptoms t) (problem_desc t) (notes t) (jira_main t)
    (ra_need_dtp_formalization t) (ra_need_diagnosis t) (ra_need_repair t)
    (ra_need_evacuation t) (ra_called_112 t) (ra_chat_id t).

Definition with_incident_time (v : option pystr) (t : Ticket) : Ticket :=
  mkTicket (ticket_id t) (user_id t) (username t) (created_at t) (incident_type t)
    (incident_source t) (dtp_type t) v (brand t) (plate_vats t) (plate_ref t)
    (dtp_vehicles t) (location t) (dtp_damage_text t) (obstacle_on_road t)
    (break_symptoms t) (problem_desc t) (notes t) (jira_main t)
    (ra_need_dtp_formalization t) (ra_need_diagnosis t) (ra_need_repair t)
    (ra_need_evacuation t) (ra_called_112 t) (ra_chat_id t).

Definition with_brand (v : option pystr) (t : Ticket) : Ticket :=
  mkTicket (ticket_id t) (user_id t) (username t) (created_at t) (incident_type t)
    (incident_source t) (dtp_type t) (incident_time t) v (plate_vats t) (plate_ref t)
    (dtp_vehicles t) (location t) (dtp_damage_text t) (obstacle_on_road t)
    (break_symptoms t) (problem_desc t) (notes t) (jira_main t)
    (ra_need_dtp_formalization t) (ra_need_diagnosis t) (ra_need_repair t)
    (ra_need_evacuation t) (ra_called_112 t) (ra_chat_id t).

Definition with_plate_vats (v : option pystr) (t : Ticket) : Ticket :=
  mkTicket (ticket_id t) (user_id t) (username t) (created_at t) (incident_type t)
    (incident_source t) (dtp_type t) (incident_time t) (brand t) v (plate_ref t)
    (dtp_vehicles t) (location t) (dtp_damage_text t) (obstacle_on_road t)
    (break_symptoms t) (problem_desc t) (notes t) (jira_main t)
    (ra_need_dtp_formalization t) (ra_need_diagnosis t) (ra_need_repair t)
    (ra_need_evacuation t) (ra_called_112 t) (ra_chat_id t).

Definition with_plate_ref (v : option pystr) (t : Ticket) : Ticket :=
  mkTicket (ticket_id t) (user_id t) (username t) (created_at t) (incident_type t)
    (incident_source t) (dtp_type t) (incident_time t) (brand t) (plate_vats t) v
    (dtp_vehicles t) (location t) (dtp_damage_text t) (obstacle_on_road t)
    (break_symptoms t) (problem_desc t) (notes t) (jira_main t)
    (ra_need_dtp_formalization t) (ra_need_diagnosis t) (ra_need_repair t)
    (ra_need_evacuation t) (ra_called_112 t) (ra_chat_id t).

Definition with_dtp_vehicles (v : gmap (list N) Z) (t : Ticket) : Ticket :=
  mkTicket (ticket_id t) (user_id t) (username t) (created_at t) (incident_type t)
    (incident_source t) (dtp_type t) (incident_time t) (brand t) (plate_vats t)
    (plate_ref t) v (location t) (dtp_damage_text t) (obstacle_on_road t)
    (break_symptoms t) (problem_desc t) (notes t) (jira_main t)
    (ra_need_dtp_formalization t) (ra_need_diagnosis t) (ra_need_repair t)
    (ra_need_evacuation t) (ra_called_112 t) (ra_chat_id t).

Definition with_location (v : option pystr) (t : Ticket) : Ticket :=
  mkTicket (ticket_id t) (user_id t) (username t) (created_at t) (incident_type t)
    (incident_source t) (dtp_type t) (incident_time t) (brand t) (plate_vats t)
    (plate_ref t) (dtp_vehicles t) v (dtp_damage_text t) (obstacle_on_road t)
    (break_symptoms t) (problem_desc t) (notes t) (jira_main t)
    (ra_need_dtp_formalization t) (ra_need_diagnosis t) (ra_need_repair t)
    (ra_need_evacuation t) (ra_called_112 t) (ra_chat_id t).

Definition with_dtp_damage_text (v : option pystr) (t : Ticket) : Ticket :=
  mkTicket (ticket_id t) (user_id t) (username t) (created_at t) (incident_type t)
    (incident_source t) (dtp_type t) (incident_time t) (brand t) (plate_vats t)
    (plate_ref t) (dtp_vehicles t) (location t) v (obstacle_on_road t)
    (break_symptoms t) (problem_desc t) (notes t) (jira_main t)
    (ra_need_dtp_formalization t) (ra_need_diagnosis t) (ra_need_repair t)
    (ra_need_evacuation t) (ra_called_112 t) (ra_chat_id t).

Definition with_obstacle_on_road (v : option pystr) (t : Ticket) : Ticket :=
  mkTicket (ticket_id t) (user_id t) (username t) (created_at t) (incident_type t)
    (incident_source t) (dtp_type t) (incident_time t) (brand t) (plate_vats t)
    (plate_ref t) (dtp_vehicles t) (location t) (dtp_damage_text t) v (break_symptoms t)
    (problem_desc t) (notes t) (jira_main t) (ra_need_dtp_formalization t)
    (ra_need_diagnosis t) (ra_need_repair t) (ra_need_evacuation t) (ra_called_112 t)
    (ra_chat_id t).

Definition with_break_symptoms (v : option pystr) (t : Ticket) : Ticket :=
  mkTicket (ticket_id t) (user_id t) (username t) (created_at t) (incident_type t)
    (incident_source t) (dtp_type t) (incident_time t) (brand t) (plate_vats t)
    (plate_ref t) (dtp_vehicles t) (location t) (dtp_damage_text t) (obstacle_on_road t)
    v (problem_desc t) (notes t) (jira_main t) (ra_need_dtp_formalization t)
    (ra_need_diagnosis t) (ra_need_repair t) (ra_need_evacuation t) (ra_called_112 t)
    (ra_chat_id t).

Definition with_problem_desc (v : option pystr) (t : Ticket) : Ticket :=
  mkTicket (ticket_id t) (user_id t) (username t) (created_at t) (incident_type t)
    (incident_source t) (dtp_type t) (incident_time t) (brand t) (plate_vats t)
    (plate_ref t) (dtp_vehicles t) (location t) (dtp_damage_text t) (obstacle_on_road t)
    (break_symptoms t) v (notes t) (jira_main t) (ra_need_dtp_formalization t)
    (ra_need_diagnosis t) (ra_need_repair t) (ra_need_evacuation t) (ra_called_112 t)
    (ra_chat_id t).

Definition with_notes (v : option pystr) (t : Ticket) : Ticket :=
  mkTicket (ticket_id t) (user_id t) (username t) (created_at t) (incident_type t)
    (incident_source t) (dtp_type t) (incident_time t) (brand t) (plate_vats t)
    (plate_ref t) (dtp_vehicles t) (location t) (dtp_damage_text t) (obstacle_on_road t)
    (break_symptoms t) (problem_desc t) v (jira_main t) (ra_need_dtp_formalization t)
    (ra_need_diagnosis t) (ra_need_repair t) (ra_need_evacuation t) (ra_called_112 t)
    (ra_chat_id t).

Definition with_jira_main (v : option pystr) (t : Ticket) : Ticket :=
  mkTicket (ticket_id t) (user_id t) (username t) (created_at t) (incident_type t)
    (incident_source t) (dtp_type t) (incident_time t) (brand t) (plate_vats t)
    (plate_ref t) (dtp_vehicles t) (location t) (dtp_damage_text t) (obstacle_on_road t)
    (break_symptoms t) (problem_desc t) (notes t) v (ra_need_dtp_formalization t)
    (ra_need_diagnosis t) (ra_need_repair t) (ra_need_evacuation t) (ra_called_112 t)
    (ra_chat_id t).

Definition with_ra_need_dtp_formalization (v : option pystr) (t : Ticket) : Ticket :=
  mkTicket (ticket_id t) (user_id t) (username t) (created_at t) (incident_type t)
    (incident_source t) (dtp_type t) (incident_time t) (brand t) (plate_vats t)
    (plate_ref t) (dtp_vehicles t) (location t) (dtp_damage_text t) (obstacle_on_road t)
    (break_symptoms t) (problem_desc t) (notes t) (jira_main t) v (ra_need_diagnosis t)
    (ra_need_repair t) (ra_need_evacuation t) (ra_called_112 t) (ra_chat_id t).

Definition with_ra_need_diagnosis (v : option pystr) (t : Ticket) : Ticket :=
  mkTicket (ticket_id t) (user_id t) (username t) (created_at t) (incident_type t)
    (incident_source t) (dtp_type t) (incident_time t) (brand t) (plate_vats t)
    (plate_ref t) (dtp_vehicles t) (location t) (dtp_damage_text t) (obstacle_on_road t)
    (break_symptoms t) (problem_desc t) (notes t) (jira_main t)
    (ra_need_dtp_formalization t) v (ra_need_repair t) (ra_need_evacuation t)
    (ra_called_112 t) (ra_chat_id t).

Definition with_ra_need_repair (v : option pystr) (t : Ticket) : Ticket :=
  mkTicket (ticket_id t) (user_id t) (username t) (created_at t) (incident_type t)
    (incident_source t) (dtp_type t) (incident_time t) (brand t) (plate_vats t)
    (plate_ref t) (dtp_vehicles t) (location t) (dtp_damage_text t) (obstacle_on_road t)
    (break_symptoms t) (problem_desc t) (notes t) (jira_main t)
    (ra_need_dtp_formalization t) (ra_need_diagnosis t) v (ra_need_evacuation t)
    (ra_called_112 t) (ra_chat_id t).

Definition with_ra_need_evacuation (v : option pystr) (t : Ticket) : Ticket :=
  mkTicket (ticket_id t) (user_id t) (username t) (created_at t) (incident_type t)
    (incident_source t) (dtp_type t) (incident_time t) (brand t) (plate_vats t)
    (plate_ref t) (dtp_vehicles t) (location t) (dtp_damage_text t) (obstacle_on_road t)
    (break_symptoms t) (problem_desc t) (notes t) (jira_main t)
    (ra_need_dtp_formalization t) (ra_need_diagnosis t) (ra_need_repair t) v
    (ra_called_112 t) (ra_chat_id t).

Definition with_ra_called_112 (v : option pystr) (t : Ticket) : Ticket :=
  mkTicket (ticket_id t) (user_id t) (username t) (created_at t) (incident_type t)
    (incident_source t) (dtp_type t) (incident_time t) (brand t) (plate_vats t)
    (plate_ref t) (dtp_vehicles t) (location t) (dtp_damage_text t) (obstacle_on_road t)
    (break_symptoms t) (problem_desc t) (notes t) (jira_main t)
    (ra_need_dtp_formalization t) (ra_need_diagnosis t) (ra_need_repair t)
    (ra_need_evacuation t) v (ra_chat_id t).

Definition with_ra_chat_id (v : option Z) (t : Ticket) : Ticket :=
  mkTicket (ticket_id t) (user_id t) (username t) (created_at t) (incident_type t)
    (incident_source t) (dtp_type t) (incident_time t) (brand t) (plate_vats t)
    (plate_ref t) (dtp_vehicles t) (location t) (dtp_damage_text t) (obstacle_on_road t)
    (break_symptoms t) (problem_desc t) (notes t) (jira_main t)
    (ra_need_dtp_formalization t) (ra_need_diagnosis t) (ra_need_repair t)
    (ra_need_evacuation t) (ra_called_112 t) v.

Definition with_ticket_id_opt (val : option pystr) (t : Ticket) : option Ticket :=
  match val with Some v => Some (with_ticket_id v t) | None => None end.

Definition with_created_at_opt (val : option pystr) (t : Ticket) : option Ticket :=
  match val with Some v => Some (with_created_at v t) | None => None end.



(** [setattr(ticket, key, val)] for [val] a string or [None].  The
    result is [None] when the assignment would leave the types the
    dataclass declares ([id] and [created_at] hold a string, [user_id] and
    [ra_chat_id] no string); a name that is no field of the dataclass
    leaves every field as it is. *)
Definition setattr (t : Ticket) (key : pystr) (val : option pystr) : option Ticket :=

  if decide (key = u "username") then Some (with_username val t)
  else if decide (key = u "incident_type") then Some (with_incident_type val t)
  else if decide (key = u "incident_source") then Some (with_incident_source val t)
  else if decide (key = u "dtp_type") then Some (with_dtp_type val t)
  else if decide (key = u "incident_time") then Some (with_incident_time val t)
  else if decide (key = u "brand") then Some (with_brand val t)
  else if decide (key = u "plate_vats") then Some (with_plate_vats val t)
  else if decide (key = u "plate_ref") then Some (with_plate_ref val t)
  else if decide (key = u "location") then Some (with_location val t)
  else if decide (key = u "dtp_damage_text") then Some (with_dtp_damage_text val t)
  else if decide (key = u "obstacle_on_road") then Some (with_obstacle_on_road val t)
  else if decide (key = u "break_symptoms") then Some (with_break_symptoms val t)
  else if decide (key = u "problem_desc") then Some (with_problem_desc val t)
  else if decide (key = u "notes") then Some (with_notes val t)
  else if decide (key = u "jira_main") then Some (with_jira_main val t)
  else if decide (key = u "ra_need_dtp_formalization") then Some (with_ra_need_dtp_formalization val t)
  else if decide (key = u "ra_need_diagnosis") then Some (with_ra_need_diagnosis val t)
  else if decide (key = u "ra_need_repair") then Some (with_ra_need_repair val t)
  else if decide (key = u "ra_need_evacuation") then Some (with_ra_need_evacuation val t)
  else if decide (key = u "ra_called_112") then Some (with_ra_called_112 val t)
  else if decide (key = u "id") then with_ticket_id_opt val t
  else if decide (key = u "created_at") then with_created_at_opt val t
  else if decide (key = u "user_id") then None
  else if decide (key = u "ra_chat_id") then
    match val with None => Some (with_ra_chat_id None t) | Some _ => None end
  else if decide (key = u "dtp_vehicles") then None
  else Some t.


(** [getattr(ticket, key)] of an attribute that holds a string or [None]. *)
Definition getattr (t : Ticket) (key : pystr) : option (option pystr) :=
  if decide (key = u "username") then Some (username t)
  else if decide (key = u "incident_type") then Some (incident_type t)
  else if decide (key = u "incident_source") then Some (incident_source t)
  else if decide (key = u "dtp_type") then Some (dtp_type t)
  else if decide (key = u "incident_time") then Some (incident_time t)
  else if decide (key = u "brand") then Some (brand t)
  else if decide (key = u "plate_vats") then Some (plate_vats t)
  else if decide (key = u "plate_ref") then Some (plate_ref t)
  else if decide (key = u "location") then Some (location t)
  else if decide (key = u "dtp_damage_text") then Some (dtp_damage_text t)
  else if decide (key = u "obstacle_on_road") then Some (obstacle_on_road t)
  else if decide (key = u "break_symptoms") then Some (break_symptoms t)
  else if decide (key = u "problem_desc") then Some (problem_desc t)
  else if decide (key = u "notes") then Some (notes t)
  else if decide (key = u "jira_main") then Some (jira_main t)
  else if decide (key = u "ra_need_dtp_formalization") then Some (ra_need_dtp_formalization t)
  else if decide (key = u "ra_need_diagnosis") then Some (ra_need_diagnosis t)
  else if decide (key = u "ra_need_repair") then Some (ra_need_repair t)
  else if decide (key = u "ra_need_evacuation") then Some (ra_need_evacuation t)
  else if decide (key = u "ra_called_112") then Some (ra_called_112 t)
  else None.

Definition set_field_local (t : Ticket) (key : pystr) (val : option pystr) : option Ticket :=
  if decide (key = u "dtp_vehicles") then
    match val with
    | None => Some (with_dtp_vehicles ∅ t)
    | Some _ => None
    end
  else setattr t key val.

(** ** Step catalog *)

(** [ticket and ticket.incident_type == "DTP"] *)
Definition is_dtp_opt (ticket : option Ticket) : bool :=
  match ticket with
  | Some t => bool_decide (incident_type t = Some (u "DTP"))
  | None => false
  end.

(** [ticket and ticket.brand == "SITRAK"] *)
Definition is_sitrak_opt (ticket : option Ticket) : bool :=
  match ticket with
  | Some t => bool_decide (brand t = Some (u "SITRAK"))
  | None => false
  end.

Definition _maybe_add_plate_ref (ticket : option Ticket) (seq : list pystr) : list pystr :=
  if is_sitrak_opt ticket then
    let insert_after :=
      match py_index (u "plate_vats") seq with
      | Some i => S i
      | None => length seq
      end in
    py_insert insert_after (u "plate_ref") seq
  else seq.

Definition _steps_for_primary (ticket : option Ticket) : list pystr :=
  if is_dtp_opt ticket then
    _maybe_add_plate_ref ticket
      [u "incident_type"; u "incident_source"; u "dtp_type"; u "brand"; u "plate_vats";
       u "dtp_vehicles"; u "location"; u "dtp_damage_text"; u "problem_desc";
       u "obstacle_on_road"; u "notes"]
  else
    _maybe_add_plate_ref ticket
      [u "incident_type"; u "incident_source"; u "brand"; u "plate_vats"; u "location";
       u "break_symptoms"; u "problem_desc"; u "obstacle_on_road"; u "notes"].

Definition _steps_for_ra (ticket : option Ticket) : list pystr :=
  if is_dtp_opt ticket then
    [u "ra_need_dtp_formalization"; u "ra_need_diagnosis"; u "ra_need_repair";
     u "ra_need_evacuation"; u "ra_called_112"]
  else
    [u "ra_need_diagnosis"; u "ra_need_repair"; u "ra_need_evacuation"].

(** ** Plate validation *)

Definition SERIES_CYR : pystr := u "АВЕКМНОРСТУХ".

(** [str.maketrans] table: Latin look-alike to Cyrillic series letter. *)
Definition LAT_TO_CYR : list (N * N) :=
  combine (u "ABEKMHOPCTYX") (u "АВЕКМНОРСТУХ").

Fixpoint table_get (tbl : list (N * N)) (c : N) : option N :=
  match tbl with
  | [] => None
  | (a, b) :: tbl' => if (a =? c)%N then Some b else table_get tbl' c
  end.

(** [s.translate(tbl)] *)
Definition translate (tbl : list (N * N)) (s : pystr) : pystr :=
  map (fun c => default c (table_get tbl c)) s.

(** The fragment of [re] the plate patterns are written in: an anchored
    sequence of groups, each one character class under a bounded greedy
    repetition. *)
Inductive CharClass :=
| InSet (s : pystr)     (* [...] *)
| Digit.                (* \d *)

Record Group := mkGroup { g_class : CharClass; g_min : nat; g_max : nat }.

Definition class_mem `{PyUnicode} (c : CharClass) (x : N) : bool :=
  match c with
  | InSet s => bool_decide (x ∈ s)
  | Digit => re_digit x
  end.

(** [$]: the end of the string, or just before a newline that ends it. *)
Definition at_end (s : pystr) : bool :=
  match s with
  | [] => true
  | [c] => (c =? 10)%N
  | _ => false
  end.

Fixpoint span_len (p : N → bool) (s : pystr) : nat :=
  match s with
  | c :: s' => if p c then S (span_len p s') else O
  | [] => O
  end.

(** Greedy repetition with backtracking: [n] characters first, then
    fewer, never fewer than [lo]; [k] matches the rest of the pattern. *)
Fixpoint try_counts (k : pystr → option (list pystr)) (s : pystr) (lo n : nat)
  : option (list pystr) :=
  if (n <? lo)%nat then None
  else
    match k (drop n s) with
    | Some gs => Some (take n s :: gs)
    | None =>
        match n with
        | O => None
        | S n' => try_counts k s lo n'
        end
    end.

(** [rx.match(s)] for [rx = ^ g1 ... gn $]; the result is [m.groups()]. *)
Fixpoint re_match `{PyUnicode} (p : list Group) (s : pystr) : option (list pystr) :=
  match p with
  | [] => if at_end s then Some [] else None
  | g :: p' =>
      try_counts (re_match p') s (g_min g)
        (Nat.min (g_max g) (span_len (class_mem (g_class g)) s))
  end.

Definition PLATE_RE_34 : list Group :=
  [mkGroup (InSet SERIES_CYR) 1 1; mkGroup Digit 3 4;
   mkGroup (InSet SERIES_CYR) 2 2; mkGroup Digit 2 3].

Definition PLATE_RE_3 : list Group :=
  [mkGroup (InSet SERIES_CYR) 1 1; mkGroup Digit 3 3;
   mkGroup (InSet SERIES_CYR) 2 2; mkGroup Digit 2 3].

Definition REF_COMPACT_RE : list Group :=
  [mkGroup (InSet SERIES_CYR) 2 2; mkGroup Digit 4 4; mkGroup Digit 2 3].

(** [text.upper()] *)
Definition upper `{PyUnicode} (s : pystr) : pystr := flat_map py_upper s.

(** ["".join(ch for ch in text.upper() if ch.isalnum()).translate(LAT_TO_CYR)] *)
Definition plate_chars `{PyUnicode} (text : pystr) : pystr :=
  translate LAT_TO_CYR (List.filter py_isalnum (upper text)).

Definition normalize_vats_plate `{PyUnicode} (text : pystr) (brand : option pystr)
  : option pystr :=
  match text with
  | [] => None
  | _ =>
      let s := plate_chars text in
      let rx := if bool_decide (brand = Some (u "KIA_CEED")) then PLATE_RE_3
                else PLATE_RE_34 in
      match re_match rx s with
      | Some [l1; d; l2; reg] => Some (l1 ++ d ++ l2 ++ reg)
      | _ => None
      end
  end.

Definition normalize_ref_plate `{PyUnicode} (text : pystr) : option pystr :=
  match text with
  | [] => None
  | _ =>
      match re_match REF_COMPACT_RE (plate_chars text) with
      | Some [letters2; d4; reg] => Some (letters2 ++ d4 ++ reg)
      | _ => None
      end
  end.

Definition T_common_empty : pystr := u "—".

Definition format_vats_display `{PyUnicode} (compact : option pystr) : pystr :=
  match compact with
  | None | Some [] => T_common_empty
  | Some compact =>
      let m := match re_match PLATE_RE_34 compact with
               | Some gs => Some gs
               | None => re_match PLATE_RE_3 compact
               end in
      match m with
      | Some [l1; d; l2; reg] => l1 ++ d ++ l2 ++ u " " ++ reg
      | _ => compact
      end
  end.

Definition format_ref_display `{PyUnicode} (compact : option pystr) : pystr :=
  match compact with
  | None | Some [] => T_common_empty
  | Some compact =>
      match re_match REF_COMPACT_RE compact with
      | Some [letters2; d4; reg] => letters2 ++ d4 ++ u " " ++ reg
      | _ => compact
      end
  end.

(** ** Tables of the questionnaire *)

Definition ALL_KNOWN_KEYS : list pystr :=
  [u "incident_type"; u "incident_source"; u "dtp_type"; u "incident_time"; u "brand";
   u "plate_vats"; u "plate_ref"; u "dtp_vehicles"; u "location";
   u "dtp_damage_text"; u "obstacle_on_road"; u "break_symptoms";
   u "problem_desc"; u "notes";
   u "ra_need_dtp_formalization";
   u "ra_need_diagnosis"; u "ra_need_repair"; u "ra_need_evacuation"; u "ra_called_112"].

Inductive Kind := KChoice | KPlate | KPlateRef | KCounter | KText.

Definition STEP_INPUT_KIND : list (pystr * Kind) :=
  [(u "incident_type", KChoice);
   (u "incident_source", KChoice);
   (u "dtp_type", KChoice);
   (u "brand", KChoice);
   (u "plate_vats", KPlate);
   (u "plate_ref", KPlateRef);
   (u "dtp_vehicles", KCounter);
   (u "location", KText);
   (u "dtp_damage_text", KText);
   (u "obstacle_on_road", KChoice);
   (u "break_symptoms", KText);
   (u "problem_desc", KText);
   (u "notes", KText);
   (u "ra_need_dtp_formalization", KChoice);
   (u "ra_need_diagnosis", KChoice);
   (u "ra_need_repair", KChoice);
   (u "ra_need_evacuation", KChoice);
   (u "ra_called_112", KChoice)].

Definition is_text (kind : Kind) : bool :=
  match kind with KText => true | _ => false end.

Definition NO_SKIP_FIELDS : list pystr := [].

Definition INCIDENT_SOURCE_CUSTOM_VALUE : pystr := u "__CUSTOM_INCIDENT_SOURCE__".

Definition yes_no : list (pystr * pystr) :=
  [(T_buttons_yes, u "YES"); (T_buttons_no, u "NO")].

(** [T[...][key]] of a table of texts. *)
Definition tx (d : list (pystr * pystr)) (key : string) : pystr :=
  default [] (dict_get d (u key)).
Arguments tx _ _%_string.

(** Button text and value of every enumerated field. *)
Definition CHOICE_OPTIONS : list (pystr * list (pystr * pystr)) :=
  [(u "incident_type",
     [(tx T_choices_incident_type "DTP", u "DTP");
      (tx T_choices_incident_type "BREAK", u "BREAK")]);
   (u "incident_source",
     [(tx T_choices_incident_source "DRIVER_CALL", u "DRIVER_CALL");
      (tx T_choices_incident_source "TELEOPS_REQUEST", u "TELEOPS_REQUEST");
      (tx T_choices_incident_source "EXTERNAL_CALL", u "EXTERNAL_CALL");
      (tx T_choices_incident_source "OTHER", INCIDENT_SOURCE_CUSTOM_VALUE)]);
   (u "dtp_type",
     [(tx T_choices_dtp_type "COLLISION", u "COLLISION");
      (tx T_choices_dtp_type "ROLLOVER", u "ROLLOVER");
      (tx T_choices_dtp_type "RUNOVER", u "RUNOVER")]);
   (u "brand",
     [(tx T_choices_brand "KIA_CEED", u "KIA_CEED");
      (tx T_choices_brand "SITRAK", u "SITRAK")]);
   (u "obstacle_on_road",
     [(T_buttons_yes, u "YES"); (T_buttons_no, u "NO"); (T_buttons_dont_know, u "UNKNOWN")]);
   (u "ra_need_dtp_formalization", yes_no);
   (u "ra_need_diagnosis", yes_no);
   (u "ra_need_repair", yes_no);
   (u "ra_need_evacuation", yes_no);
   (u "ra_called_112", yes_no)].

Definition _allow_skip_field (key : pystr) : bool :=
  negb (bool_decide (key ∈ NO_SKIP_FIELDS)).

Definition HUMANIZE_VALUE : list (pystr * list (pystr * pystr)) :=
  [(u "incident_type", T_choices_incident_type);
   (u "incident_source", T_choices_incident_source);
   (u "dtp_type", T_choices_dtp_type);
   (u "brand", T_choices_brand);
   (u "yn", [(u "YES", T_buttons_yes); (u "NO", T_buttons_no)]);
   (u "ynu", [(u "YES", T_buttons_yes); (u "NO", T_buttons_no);
              (u "UNKNOWN", T_buttons_dont_know)])].

(** ** The draft of a session *)

Inductive Mode := PRIMARY_MODE | RA_MODE.

(** The draft dictionary, one field per key; a key that is absent reads
    as what [draft.get] gives for it. *)
Record Draft := mkDraft {
  ticket : option Ticket;
  step_idx : Z;
  editing : bool;
  mode : Mode;
  _incident_source_custom_input : bool
}.

Definition with_ticket (t : Ticket) (d : Draft) : Draft :=
  mkDraft (Some t) (step_idx d) (editing d) (mode d) (_incident_source_custom_input d).

Definition with_step_idx (i : Z) (d : Draft) : Draft :=
  mkDraft (ticket d) i (editing d) (mode d) (_incident_source_custom_input d).

Definition with_editing (b : bool) (d : Draft) : Draft :=
  mkDraft (ticket d) (step_idx d) b (mode d) (_incident_source_custom_input d).

Definition with_mode (m : Mode) (d : Draft) : Draft :=
  mkDraft (ticket d) (step_idx d) (editing d) m (_incident_source_custom_input d).

Definition _set_incident_source_custom_mode (d : Draft) (enabled : bool) : Draft :=
  mkDraft (ticket d) (step_idx d) (editing d) (mode d) enabled.

Definition _is_incident_source_custom_mode (d : Draft) : bool :=
  _incident_source_custom_input d.

Definition is_primary (d : Draft) : bool :=
  match mode d with PRIMARY_MODE => true | RA_MODE => false end.

Definition is_ra (d : Draft) : bool :=
  match mode d with PRIMARY_MODE => false | RA_MODE => true end.

Definition active_steps (d : Draft) : list pystr :=
  match mode d with
  | PRIMARY_MODE => _steps_for_primary (ticket d)
  | RA_MODE => _steps_for_ra (ticket d)
  end.

Definition len (l : list pystr) : Z := Z.of_nat (length l).

(** [steps[idx]] for an index in range. *)
Definition item (l : list pystr) (idx : Z) : pystr := nth (Z.to_nat idx) l [].

(** Clamps the cursor, stores it, and gives the key under it. *)
Definition current_step_key (d : Draft) : pystr * Draft :=
  let idx := step_idx d in
  let steps := active_steps d in
  let idx := Z.max 0 (if len steps <=? idx then len steps - 1 else idx) in
  (item steps idx, with_step_idx idx d).

Definition set_step_idx (d : Draft) (idx : Z) : Draft :=
  with_step_idx (Z.max 0 (Z.min idx (len (active_steps d) - 1))) d.

Definition goto_next_step (d : Draft) : Draft :=
  with_step_idx (Z.min (step_idx d + 1) (len (active_steps d) - 1)) d.

Definition goto_prev_step (d : Draft) : Draft :=
  with_step_idx (Z.max (step_idx d - 1) 0) d.

Definition is_last_step (d : Draft) : bool :=
  len (active_steps d) - 1 <=? step_idx d.

(** ** Keyboards and rendering *)

Inductive Button :=
| CallbackButton (text callback_data : pystr)
| UrlButton (text url : pystr).

(** An [InlineKeyboardMarkup]: rows of buttons. *)
Abbreviation Markup := (list (list Button)).

Definition question_text_for (step_key : pystr) : option pystr :=
  dict_get T_questions step_key.

Definition kb_after_main_created (t : Ticket) : Markup :=
  [[CallbackButton T_buttons_call_ra (u "act|ra|" ++ ticket_id t)];
   [CallbackButton T_buttons_close_all (u "act|close|" ++ ticket_id t)]].

(** [if ticket.ra_chat_id]: neither [None] nor 0. *)
Definition truthy_int (o : option Z) : bool :=
  match o with
  | Some z => negb (z =? 0)
  | None => false
  end.

Definition kb_after_ra (t : Ticket) (invite_link : option pystr) : Markup :=
  [[CallbackButton T_buttons_close_all (u "act|close|" ++ ticket_id t)]]
  ++ (if truthy_int (ra_chat_id t)
      then [[CallbackButton T_dispatch_button_text (u "dispatch|" ++ ticket_id t)]] else [])
  ++ (match invite_link with
      | Some (c :: l) => [[UrlButton T_buttons_open_chat (c :: l)]]
      | _ => []
      end).

Definition kb_choice (step_key : pystr) : Markup :=
  map (fun '(text, val) => [CallbackButton text (u "set|" ++ step_key ++ u "|" ++ val)])
      (default [] (dict_get CHOICE_OPTIONS step_key))
  ++ (if decide (step_key = u "incident_type") then []
      else
        (if _allow_skip_field step_key
         then [[CallbackButton T_buttons_skip (u "nav|skip|" ++ step_key)]] else [])
        ++ [[CallbackButton T_buttons_back (u "nav|back|" ++ step_key)]]).

Definition kb_nav (cur_key : pystr) (back : bool) (skip : option bool) : Markup :=
  let show_skip := match skip with None => _allow_skip_field cur_key | Some b => b end in
  (if show_skip then [[CallbackButton T_buttons_skip (u "nav|skip|" ++ cur_key)]] else [])
  ++ (if back then [[CallbackButton T_buttons_back (u "nav|back|" ++ cur_key)]] else []).

Definition kb_summary (ticket_id : pystr) : Markup :=
  [[CallbackButton T_buttons_edit (u "summary|edit")];
   [CallbackButton T_buttons_create_issue (u "summary|create")]].

Definition human (val : option pystr) (key : pystr) : pystr :=
  match val with
  | None | Some [] => T_common_empty
  | Some val => default val (dict_get (default [] (dict_get HUMANIZE_VALUE key)) val)
  end.

Definition VEHICLE_ORDER : list pystr := [u "light"; u "bus"; u "truck"; u "moto"].

(** [v.get(k, 0)] *)
Definition veh_get (v : gmap (list N) Z) (k : pystr) : Z := default 0 (v !! k).

Definition _veh_summary_line (v : gmap (list N) Z) : pystr :=
  let parts :=
    flat_map (fun k =>
      let cnt := veh_get v k in
      if 0 <? cnt
      then [default [] (dict_get T_vehicles k) ++ u "×" ++ str_of_int cnt]
      else []) VEHICLE_ORDER in
  match parts with
  | [] => T_common_empty
  | _ => join (u ", ") parts
  end.

Definition kb_veh_counter (v : gmap (list N) Z) : Markup :=
  map (fun key =>
         let name := default [] (dict_get T_vehicles key) in
         [CallbackButton (T_buttons_vehicle_minus name) (u "veh|minus|" ++ key);
          CallbackButton (T_buttons_vehicle_plus name) (u "veh|plus|" ++ key)])
      VEHICLE_ORDER
  ++ [[CallbackButton T_buttons_done (u "veh|done")];
      [CallbackButton T_buttons_skip (u "nav|skip|dtp_vehicles")];
      [CallbackButton T_buttons_back (u "nav|back|dtp_vehicles")]].

Definition _veh_counts_text (v : gmap (list N) Z) : pystr :=
  join nl
    (map (fun k => default [] (dict_get T_vehicles k) ++ u ": <b>"
                   ++ str_of_int (veh_get v k) ++ u "</b>")
         VEHICLE_ORDER).

Definition _veh_step_text (v : gmap (list N) Z) : pystr :=
  tx T_questions "dtp_vehicles" ++ nl ++ nl ++ T_messages_dtp_vehicles_hint
  ++ nl ++ nl ++ _veh_counts_text v.

Definition _human_ynu_for_summary (val : option pystr) : pystr :=
  match val with
  | None => T_common_empty
  | Some val =>
      default T_common_empty (dict_get (default [] (dict_get HUMANIZE_VALUE (u "ynu"))) val)
  end.

Definition _safe_user_html (text : option pystr) : pystr :=
  match text with
  | None | Some [] => T_common_empty
  | Some text => _html_escape text
  end.

(** One line of the primary block: [_append] of [render_primary_block]. *)
Definition block_line (label_text value : pystr) (condition : bool) : list pystr :=
  if condition then
    [label_text ++ u ": <b>" ++ (match value with [] => T_common_empty | _ => value end)
     ++ u "</b>"]
  else [].

Definition lbl (key : string) : pystr := tx T_primary_block_labels key.
Arguments lbl _%_string.

Definition primary_block_lines `{PyUnicode} (t : Ticket) : list pystr :=
  let is_dtp := bool_decide (incident_type t = Some (u "DTP")) in
  block_line (lbl "incident_type") (human (incident_type t) (u "incident_type")) true
  ++ block_line (lbl "incident_source") (human (incident_source t) (u "incident_source")) true
  ++ block_line (if is_dtp then lbl "incident_time" else lbl "incident_time_break")
       (or_str (incident_time t) T_common_empty) true
  ++ block_line (lbl "dtp_type") (human (dtp_type t) (u "dtp_type")) is_dtp
  ++ block_line (lbl "brand") (human (brand t) (u "brand")) true
  ++ block_line (lbl "plate_vats") (format_vats_display (plate_vats t)) true
  ++ block_line (lbl "plate_ref") (format_ref_display (plate_ref t))
       (bool_decide (brand t = Some (u "SITRAK")))
  ++ block_line (lbl "location") (_safe_user_html (location t)) true
  ++ block_line (lbl "dtp_vehicles") (_veh_summary_line (dtp_vehicles t)) is_dtp
  ++ block_line (lbl "dtp_damage") (_safe_user_html (dtp_damage_text t)) is_dtp
  ++ block_line (lbl "obstacle_on_road") (human (obstacle_on_road t) (u "ynu")) true
  ++ block_line (lbl "break_symptoms") (_safe_user_html (break_symptoms t)) (negb is_dtp)
  ++ block_line (lbl "problem_desc") (_safe_user_html (problem_desc t)) true
  ++ block_line (lbl "notes") (_safe_user_html (notes t)) true.

Definition render_primary_block `{PyUnicode} (t : Ticket) : pystr :=
  join nl (primary_block_lines t).

Definition render_preview_block `{PyUnicode} (t : Ticket) : pystr :=
  T_common_preview_label ++ nl ++ render_primary_block t.

Definition compose_primary_block `{PyUnicode} (t : Ticket) : pystr :=
  render_primary_block t.

Definition labels (key : string) : pystr := tx T_ra_summary_labels key.
Arguments labels _%_string.

Definition compose_ra_block (t : Ticket) : pystr :=
  let is_dtp := bool_decide (incident_type t = Some (u "DTP")) in
  let line (label : pystr) (val : option pystr) : pystr :=
    label ++ u ": <b>" ++ _human_ynu_for_summary val ++ u "</b>" in
  join nl
    ([T_headings_ra_form]
     ++ (if is_dtp
         then [line (labels "ra_need_dtp_formalization") (ra_need_dtp_formalization t)]
         else [])
     ++ [line (labels "ra_need_diagnosis") (ra_need_diagnosis t);
         line (labels "ra_need_repair") (ra_need_repair t);
         line (labels "ra_need_evacuation") (ra_need_evacuation t)]
     ++ (if is_dtp then [line (labels "ra_called_112") (ra_called_112 t)] else [])).

(** The two header lines several messages start with. *)
Definition header_lines (t : Ticket) : list pystr :=
  [u "<b>" ++ T_common_ticket_title (ticket_id t) ++ u "</b>";
   u "Таск в Jira: <b>" ++ or_str (jira_main t) T_common_empty ++ u "</b>"].

Definition render_after_main `{PyUnicode} (t : Ticket) : pystr :=
  join nl (header_lines t) ++ nl ++ nl ++ compose_primary_block t.

Definition render_after_ra `{PyUnicode} (t : Ticket) : pystr :=
  join nl (header_lines t ++ [u "RA: <b>без сабтаска в Jira</b>"])
  ++ nl ++ nl ++ join (nl ++ nl) [compose_primary_block t; compose_ra_block t].

(** [now] is what [current_request_time()] gives. *)
Definition format_ra_chat_title (now : pystr) (t : Ticket) : pystr :=
  u "[Заявка #" ++ ticket_id t ++ u "] | [" ++ human (brand t) (u "brand") ++ u "] | "
  ++ or_str (incident_time t) now.

Definition render_jira_summary `{PyUnicode} (t : Ticket) : pystr :=
  let itype :=
    match incident_type t with
    | None => []
    | Some v => default v (dict_get (default [] (dict_get HUMANIZE_VALUE (u "incident_type"))) v)
    end in
  let br :=
    match brand t with
    | None => []
    | Some v => default v (dict_get (default [] (dict_get HUMANIZE_VALUE (u "brand"))) v)
    end in
  let plate := format_vats_display (plate_vats t) in
  let base := u "[" ++ (match itype with [] => u "-" | _ => itype end) ++ u "] "
              ++ (match br with [] => u "-" | _ => br end) in
  if negb (bool_decide (plate = [])) && negb (bool_decide (plate = T_common_empty))
  then base ++ u " — " ++ plate
  else base.

(** ** Tracker gateway: closing an issue *)

(** A transition as the tracker lists it; every key may be missing. *)
Record TransitionTo := mkTransitionTo { to_name : option pystr }.

Record Transition := mkTransition {
  tr_id : option pystr;
  tr_name : option pystr;
  tr_to : option TransitionTo
}.

(** [(tr.get("to") or {}).get("name")] *)
Definition tr_to_name (tr : Transition) : option pystr :=
  match tr_to tr with
  | Some o => to_name o
  | None => None
  end.

(** What a close operation does after it has read the transitions: it
    returns an error without a further call, or it calls
    [jira_do_transition] with the chosen id and returns its answer. *)
Inductive CloseStep :=
| CloseError (err : pystr)
| CloseTransition (transition_id : pystr).

(** The [for] loop of [close_issue_by_best_transition]: [best] when the
    loop ends. *)
Fixpoint best_loop `{PyUnicode} (prefs : list pystr) (transitions : list Transition)
  : option pystr :=
  match transitions with
  | [] => None
  | tr :: rest =>
      let name := strip (or_str (tr_name tr) []) in
      let to := strip (or_str (tr_to_name tr) []) in
      if bool_decide (name ∈ prefs) || bool_decide (to ∈ prefs) then tr_id tr
      else best_loop prefs rest
  end.

(** [answer] is what [jira_get_transitions] returned. *)
Definition close_issue_by_best_transition `{PyUnicode}
  (answer : option (list Transition) * option pystr) : CloseStep :=
  let prefs := T_jira_preferred_close_statuses in
  match answer with
  | (None, err) => CloseError (or_str err (u "no transitions"))
  | (Some transitions, _) =>
      let best := best_loop prefs transitions in
      let best :=
        if truthy best then best
        else
          match last transitions with
          | Some tr => tr_id tr
          | None => best
          end in
      match best with
      | Some (c :: i) => CloseTransition (c :: i)
      | _ => CloseError T_jira_no_transitions
      end
  end.

Module jira_client.

(** The loop of [jira_close_issue]. *)
Fixpoint best_loop `{PyUnicode} (prefs : list pystr) (transitions : list Transition)
  : option pystr :=
  match transitions with
  | [] => None
  | tr :: rest =>
      let name := strip (or_str (tr_name tr) []) in
      let to_name := strip (or_str (tr_to_name tr) []) in
      if bool_decide (name ∈ prefs) || bool_decide (to_name ∈ prefs) then tr_id tr
      else best_loop prefs rest
  end.

(** [answer] is what this module's [jira_get_transitions] returned: a
    list, empty on failure, and an error. *)
Definition jira_close_issue `{PyUnicode}
  (answer : list Transition * option pystr) : CloseStep :=
  let '(transitions, err) := answer in
  match err with
  | Some (c :: e) => CloseError (c :: e)
  | _ =>
      let prefs := T_jira_preferred_close_statuses in
      let best := best_loop prefs transitions in
      let best :=
        if truthy best then best
        else
          match last transitions with
          | Some tr => tr_id tr
          | None => best
          end in
      match best with
      | Some (c :: i) => CloseTransition (c :: i)
      | _ => CloseError T_jira_no_transitions
      end
  end.

End jira_client.

(** ** The outside of the engine *)

(** Notification channels, read once at start-up. *)
Class Config := {
  RA_NOTIFY_CHAT_ID : Z;
  DISPATCH_ALERT_CHAT_ID : Z
}.

(** What the transport hands to a handler. *)
Record Update := mkUpdate {
  upd_private : bool;                       (* a chat, of type private *)
  upd_chat_id : Z;
  upd_user : option (Z * option pystr)      (* id and username *)
}.

(** What the collaborators answer during one handler run. *)
Record Env := mkEnv {
  env_short_id : pystr;                                   (* [short_id()] *)
  env_utc_now : pystr;                                    (* [iso(utc_now())] *)
  env_request_time : pystr;                               (* [current_request_time()] *)
  env_jira_create : option pystr * option pystr;          (* key, error *)
  env_jira_transitions : option (list Transition) * option pystr;
  env_jira_do_transition : option pystr;                  (* error *)
  env_create_chat : option pystr * option pystr * option Z;   (* link, error, chat id *)
  env_invite_link : pystr + pystr;                        (* link, or the TelegramError *)
  env_send_error : Z → option pystr                       (* TelegramError of a send *)
}.

(** The calls a handler issues, in order. *)
Inductive Effect :=
| AnswerQuery
| EditMessage (text : pystr) (reply_markup : option Markup)
| SendMessage (chat_id : Z) (text : pystr) (reply_markup : option Markup)
| RemoveDispatchButton (ticket_id : pystr)
| JiraCreate (summary description : pystr)
| JiraGetTransitions (issue_key : pystr)
| JiraDoTransition (issue_key transition_id : pystr)
| CreateChat (subject : pystr)
| CreateChatInviteLink (chat_id : Z)
| SetChatTitle (chat_id : Z) (title : pystr)
| SetChatPermissions (chat_id : Z)
| Raise (exception : pystr).

(** A handler run: the draft it leaves and the calls it made; [None]
    when an assignment left the declared types of the ticket. *)
Abbreviation Outcome := (option (Draft * list Effect)).

Definition eqs (a b : pystr) : bool := bool_decide (a = b).

(** ** Drafts and prompts *)

Definition start_new_draft (upd : Update) (env : Env) (d : Draft) : Draft :=
  let '(uid, uname) := default (0, None) (upd_user upd) in
  mkDraft
    (Some (mkTicket (env_short_id env) uid uname (env_utc_now env)
             None None None (Some (env_request_time env)) None None None ∅
             None None None None None None None None None None None None None))
    0 false PRIMARY_MODE false.

(** Text and keyboard of the question of a step. *)
Definition step_prompt (t : Ticket) (key : pystr) : option (pystr * Markup) :=
  match dict_get STEP_INPUT_KIND key with
  | None => None
  | Some KCounter => Some (_veh_step_text (dtp_vehicles t), kb_veh_counter (dtp_vehicles t))
  | Some KChoice => q ← question_text_for key; Some (q, kb_choice key)
  | Some _ => q ← question_text_for key; Some (q, kb_nav key true None)
  end.

Definition edit_prompt (t : Ticket) (key : pystr) : list Effect :=
  match step_prompt t key with
  | Some (text, kb) => [EditMessage text (Some kb)]
  | None => [Raise (u "KeyError")]
  end.

Definition send_prompt (chat_id : Z) (t : Ticket) (key : pystr) : list Effect :=
  match step_prompt t key with
  | Some (text, kb) => [SendMessage chat_id text (Some kb)]
  | None => [Raise (u "KeyError")]
  end.

Definition edit_preview `{PyUnicode} (t : Ticket) : Effect :=
  EditMessage (render_preview_block t) (Some (kb_summary (ticket_id t))).

Definition send_preview `{PyUnicode} (chat_id : Z) (t : Ticket) : Effect :=
  SendMessage chat_id (render_preview_block t) (Some (kb_summary (ticket_id t))).

Definition cmd_start (upd : Update) (env : Env) (d : Draft) : Draft * list Effect :=
  if negb (upd_private upd) then (d, [])
  else
    (start_new_draft upd env d,
     [SendMessage (upd_chat_id upd) (tx T_questions "incident_type")
        (Some (kb_choice (u "incident_type")))]).

(** ** Completion of the RA questions *)

Definition notify_help_chat `{Config} (invite_link : option pystr) : list Effect :=
  if RA_NOTIFY_CHAT_ID =? 0 then []
  else
    match invite_link with
    | Some (c :: l) =>
        [SendMessage RA_NOTIFY_CHAT_ID T_common_help_needed
           (Some [[UrlButton T_buttons_open_chat (c :: l)]])]
    | _ => [SendMessage RA_NOTIFY_CHAT_ID T_common_help_needed None]
    end.

Definition lock_ra_chat_messages (t : Ticket) : list Effect :=
  match ra_chat_id t with
  | Some c => if c =? 0 then [] else [SetChatPermissions c]
  | None => []
  end.

(** [None] is the answer [False]: nothing was done. *)
Definition finish_ra_flow_if_needed `{PyUnicode} `{Config}
  (env : Env) (d : Draft) (t : Ticket) : option (Draft * list Effect) :=
  if negb (is_ra d) || negb (is_last_step d) then None
  else
    let d := with_step_idx 0 (with_mode PRIMARY_MODE d) in
    let subject := T_messages_ra_subject (ticket_id t) in
    let '(link, err, chat_id) := env_create_chat env in
    let created_chat_id := if truthy_int chat_id then chat_id else None in
    let t := match created_chat_id with
             | Some c => with_ra_chat_id (Some c) t
             | None => t
             end in
    let invite_link :=
      match created_chat_id, env_invite_link env with
      | Some _, inl l => Some l
      | _, _ => None
      end in
    let in_chat :=
      match created_chat_id with
      | Some c =>
          [CreateChatInviteLink c;
           SetChatTitle c (format_ra_chat_title (env_request_time env) t);
           SendMessage c (render_after_ra t) None]
      | None => []
      end in
    let notice :=
      if DISPATCH_ALERT_CHAT_ID =? 0 then []
      else
        [SendMessage DISPATCH_ALERT_CHAT_ID
           (T_dispatch_ra_notice ++ nl ++ join nl (header_lines t) ++ nl ++ nl
            ++ compose_ra_block t) None] in
    Some (with_ticket t d,
          [CreateChat subject] ++ in_chat ++ notify_help_chat invite_link
          ++ [EditMessage (render_after_ra t) (Some (kb_after_ra t invite_link))]
          ++ notice).

(** ** Handlers *)

(** What [on_text] does once the answer is stored. *)
Definition after_text_answer `{PyUnicode} (upd : Update) (d : Draft) (t : Ticket)
  : Draft * list Effect :=
  let chat_id := upd_chat_id upd in
  if editing d && is_primary d then
    (with_editing false d, [send_preview chat_id t])
  else if is_last_step d then
    (d, if is_primary d then [send_preview chat_id t] else [])
  else
    let d := goto_next_step d in
    let '(next_key, d) := current_step_key d in
    (d, send_prompt chat_id t next_key).

Definition on_text `{PyUnicode} (upd : Update) (env : Env) (msg_text : pystr) (d : Draft)
  : Outcome :=
  if negb (upd_private upd) then Some (d, [])
  else
    match ticket d with
    | None => Some (cmd_start upd env d)
    | Some t =>
        let chat_id := upd_chat_id upd in
        let '(key, d) := current_step_key d in
        let text := strip msg_text in
        let custom_incident_source :=
          eqs key (u "incident_source") && _is_incident_source_custom_mode d in
        match dict_get STEP_INPUT_KIND key with
        | None => Some (d, [Raise (u "KeyError")])
        | Some KPlate =>
            match normalize_vats_plate text (brand t) with
            | Some (c :: n) =>
                t ← set_field_local t key (Some (c :: n));
                let d := with_ticket t d in
                let jump :=
                  if eqs key (u "plate_vats") && editing d && is_primary d
                     && bool_decide (brand t = Some (u "SITRAK")) && negb (truthy (plate_ref t))
                  then py_index (u "plate_ref") (active_steps d)
                  else None in
                match jump with
                | Some i =>
                    Some (set_step_idx d (Z.of_nat i),
                          [SendMessage chat_id (tx T_questions "plate_ref")
                             (Some (kb_nav (u "plate_ref") true (Some false)))])
                | None => Some (after_text_answer upd d t)
                end
            | _ =>
                Some (d, [SendMessage chat_id T_errors_plate_invalid
                            (Some (kb_nav key true None))])
            end
        | Some KPlateRef =>
            match normalize_ref_plate text with
            | Some (c :: n) =>
                t ← set_field_local t key (Some (c :: n));
                Some (after_text_answer upd (with_ticket t d) t)
            | _ =>
                Some (d, [SendMessage chat_id T_errors_plate_ref_invalid
                            (Some (kb_nav key true None))])
            end
        | Some kind =>
            if is_text kind || custom_incident_source then
              match text with
              | [] =>
                  Some (d, [SendMessage chat_id T_errors_empty_text
                              (Some (kb_nav key true None))])
              | _ =>
                  t ← set_field_local t key (Some text);
                  let d := with_ticket t d in
                  let d := if custom_incident_source
                           then _set_incident_source_custom_mode d false else d in
                  Some (after_text_answer upd d t)
              end
            else Some (d, [])
        end
    end.

(** The [veh|] tokens. *)
Definition on_veh `{PyUnicode} (data : pystr) (d : Draft) (t : Ticket) : Draft * list Effect :=
  match take 3 (py_split_all bar data ++ [[]; []]) with
  | [_; action; kind] =>
      if eqs action (u "plus") || eqs action (u "minus") then
        let cur := veh_get (dtp_vehicles t) kind in
        let v := <[kind := Z.max 0 (cur + (if eqs action (u "plus") then 1 else -1))]>
                   (dtp_vehicles t) in
        let t := with_dtp_vehicles v t in
        (with_ticket t d,
         [EditMessage (_veh_step_text (dtp_vehicles t)) (Some (kb_veh_counter (dtp_vehicles t)))])
      else if eqs action (u "done") then
        if editing d && is_primary d then
          (with_editing false d, [edit_preview t])
        else if is_last_step d && is_primary d then
          (d, [edit_preview t])
        else
          let d := goto_next_step d in
          let '(next_key, d) := current_step_key d in
          (d, edit_prompt t next_key)
      else (d, [])
  | _ => (d, [])
  end.

(** What [skip] stores: the [if]/[else] that opens the skip block. *)
Definition skip_assign (t : Ticket) (cur_key : pystr) : option Ticket :=
  if eqs cur_key (u "dtp_vehicles") then Some (with_dtp_vehicles ∅ t)
  else set_field_local t cur_key None.

(** The [nav|] tokens. *)
Definition on_nav `{PyUnicode} `{Config} (env : Env) (data : pystr) (d : Draft) (t : Ticket)
  : Outcome :=
  let parts := py_split_all bar data in
  let action := nth 1 parts [] in
  let '(cur_key, d) :=
    match parts with
    | _ :: _ :: k :: _ => (k, d)
    | _ => current_step_key d
    end in
  if eqs action (u "back") then
    if editing d && is_primary d then
      Some (with_editing false d, [edit_preview t])
    else
      let d := if eqs cur_key (u "incident_source")
               then _set_incident_source_custom_mode d false else d in
      let d :=
        match py_index cur_key (active_steps d) with
        | Some i => set_step_idx d (Z.max 0 (Z.of_nat i - 1))
        | None => goto_prev_step d
        end in
      let '(next_key, d) := current_step_key d in
      Some (d, edit_prompt t next_key)
  else if eqs action (u "skip") then
    t ← skip_assign t cur_key;
    let d := with_ticket t d in
    let d := if eqs cur_key (u "incident_source")
             then _set_incident_source_custom_mode d false else d in
    match finish_ra_flow_if_needed env d t with
    | Some r => Some r
    | None =>
        if editing d || is_last_step d then Some (d, [edit_preview t])
        else
          let d := goto_next_step d in
          let '(next_key, d) := current_step_key d in
          Some (d, edit_prompt t next_key)
    end
  else Some (d, []).

(** The [set|] tokens, once split into field and value. *)
Definition on_set_field `{PyUnicode} `{Config} (env : Env) (field_key value : pystr)
  (d : Draft) (t : Ticket) : Outcome :=
  if negb (bool_decide (field_key ∈ ALL_KNOWN_KEYS)) then Some (d, [])
  else if eqs field_key (u "incident_source") && eqs value INCIDENT_SOURCE_CUSTOM_VALUE then
    Some (_set_incident_source_custom_mode d true,
          [EditMessage T_messages_incident_source_other_prompt
             (Some (kb_nav field_key true None))])
  else
    let d := if eqs field_key (u "incident_source")
             then _set_incident_source_custom_mode d false else d in
    let prev_brand := if eqs field_key (u "brand") then brand t else None in
    t ← set_field_local t field_key (Some value);
    let brand_changed :=
      eqs field_key (u "brand")
      && match prev_brand with
         | Some p => negb (eqs p value)
         | None => false
         end in
    let t := if brand_changed then with_plate_ref None (with_plate_vats None t) else t in
    let d := with_ticket t d in
    let jump :=
      if negb brand_changed && editing d && is_primary d
         && eqs field_key (u "brand") && eqs value (u "SITRAK")
         && negb (truthy (plate_ref t))
      then py_index (u "plate_ref") (active_steps d)
      else None in
    match jump with
    | Some i =>
        Some (set_step_idx d (Z.of_nat i),
              [EditMessage (tx T_questions "plate_ref")
                 (Some (kb_nav (u "plate_ref") true (Some false)))])
    | None =>
        if brand_changed then
          match py_index (u "plate_vats") (active_steps d) with
          | Some i =>
              Some (set_step_idx d (Z.of_nat i),
                    [EditMessage (tx T_questions "plate_vats")
                       (Some (kb_nav (u "plate_vats") true None))])
          | None => Some (d, [])
          end
        else
          let d :=
            if eqs field_key (u "incident_type") || eqs field_key (u "brand") then
              let steps := active_steps d in
              let '(cur, d) := current_step_key d in
              if bool_decide (cur ∈ steps) then d else set_step_idx d 0
            else d in
          let '(cur, d) := current_step_key d in
          let was_current := eqs cur field_key in
          let was_last := was_current && is_last_step d in
          if editing d && is_primary d then
            Some (with_editing false d, [edit_preview t])
          else if was_last && is_primary d then
            Some (d, [edit_preview t])
          else
            match (if was_last then finish_ra_flow_if_needed env d t else None) with
            | Some r => Some r
            | None =>
                let d := if was_current then goto_next_step d else d in
                let '(next_key, d) := current_step_key d in
                Some (d, edit_prompt t next_key)
            end
    end.

(** The [set|] tokens. *)
Definition on_set `{PyUnicode} `{Config} (env : Env) (data : pystr) (d : Draft) (t : Ticket)
  : Outcome :=
  match py_split bar 2 data with
  | [_; field_key; value] => on_set_field env field_key value d t
  | _ => Some (d, [Raise (u "ValueError")])
  end.

(** The [edit|field|] tokens. *)
Definition on_edit_field (data : pystr) (d : Draft) (t : Ticket) : Draft * list Effect :=
  match py_split bar 2 data with
  | [_; _; field_key] =>
      if negb (bool_decide (field_key ∈ active_steps d)) then (d, [])
      else
        let d := with_mode PRIMARY_MODE (with_editing true d) in
        match py_index field_key (active_steps d) with
        | Some i => (set_step_idx d (Z.of_nat i), edit_prompt t field_key)
        | None => (d, [Raise (u "ValueError")])
        end
  | _ => (d, [Raise (u "ValueError")])
  end.

Definition warning (err : pystr) : pystr := u "⚠️ " ++ _html_escape err.

(** The [dispatch|] tokens. *)
Definition on_dispatch `{Config} (upd : Update) (env : Env) (data : pystr) (t : Ticket)
  : list Effect :=
  match py_split bar 1 data with
  | [_; t_id] =>
      if negb (eqs t_id (ticket_id t)) then []
      else
        match (if DISPATCH_ALERT_CHAT_ID =? 0 then None else ra_chat_id t) with
        | None | Some 0 => [EditMessage T_dispatch_missing_chat None]
        | Some chat =>
            let failed (e : pystr) :=
              [EditMessage (warning e) None; RemoveDispatchButton (ticket_id t)] in
            [CreateChatInviteLink chat]
            ++ match env_invite_link env with
               | inr e => failed e
               | inl link =>
                   [SendMessage DISPATCH_ALERT_CHAT_ID T_dispatch_help_message
                      (Some [[UrlButton T_buttons_open_chat link]])]
                   ++ match env_send_error env DISPATCH_ALERT_CHAT_ID with
                      | Some e => failed e
                      | None =>
                          [SendMessage (upd_chat_id upd) T_dispatch_sent None]
                          ++ match env_send_error env (upd_chat_id upd) with
                             | Some e => failed e
                             | None => [RemoveDispatchButton (ticket_id t)]
                             end
                      end
               end
        end
  | _ => [Raise (u "ValueError")]
  end.

(** [summary|create] *)
Definition on_create `{PyUnicode} `{Config} (env : Env) (d : Draft) (t : Ticket)
  : Draft * list Effect :=
  let calls :=
    [EditMessage T_progress_creating_issue None;
     JiraCreate (render_jira_summary t) (compose_primary_block t)] in
  match env_jira_create env with
  | (Some (c :: k), _) =>
      let t := with_jira_main (Some (c :: k)) t in
      (with_ticket t d,
       calls
       ++ [EditMessage (render_after_main t) (Some (kb_after_main_created t))]
       ++ (if DISPATCH_ALERT_CHAT_ID =? 0 then []
           else
             [SendMessage DISPATCH_ALERT_CHAT_ID
                (T_dispatch_delay_notice ++ nl ++ join nl (header_lines t) ++ nl ++ nl
                 ++ render_primary_block t) None]))
  | (_, jira_err) =>
      (d, calls
          ++ [EditMessage (warning (or_str jira_err T_common_jira_create_failed))
                (Some (kb_summary (ticket_id t)))])
  end.

(** The [act|] tokens. *)
Definition on_act `{PyUnicode} (env : Env) (data : pystr) (d : Draft) (t : Ticket)
  : Draft * list Effect :=
  match py_split bar 2 data with
  | [_; action; t_id] =>
      if negb (eqs t_id (ticket_id t)) then (d, [])
      else if eqs action (u "ra") then
        if negb (truthy (jira_main t)) then
          (d, [EditMessage T_messages_need_main_before_ra (Some (kb_after_main_created t))])
        else
          let d := with_step_idx 0 (with_mode RA_MODE d) in
          let '(first_key, d) := current_step_key d in
          (d, match question_text_for first_key with
              | Some q => [EditMessage q (Some (kb_choice first_key))]
              | None => [Raise (u "KeyError")]
              end)
      else if eqs action (u "close") then
        match jira_main t with
        | Some (c :: key) =>
            let key := c :: key in
            let '(calls, err) :=
              match close_issue_by_best_transition (env_jira_transitions env) with
              | CloseError e => ([JiraGetTransitions key], Some e)
              | CloseTransition i =>
                  ([JiraGetTransitions key; JiraDoTransition key i],
                   env_jira_do_transition env)
              end in
            (d, [EditMessage T_progress_closing_issue None] ++ calls
                ++ match err with
                   | Some (c :: e) => [EditMessage (_html_escape (c :: e)) None]
                   | _ => lock_ra_chat_messages t ++ [EditMessage T_common_issue_closed None]
                   end)
        | _ =>
            (d, [EditMessage T_progress_closing_issue None;
                 EditMessage T_jira_need_main_issue None])
        end
      else (d, [])
  | _ => (d, [Raise (u "ValueError")])
  end.

Definition kb_edit_field_list (d : Draft) : Markup :=
  map (fun key => [CallbackButton (default [] (question_text_for key))
                     (u "edit|field|" ++ key)])
      (active_steps d)
  ++ [[CallbackButton T_back_to_summary (u "edit|cancel")]].

(** The prefixes [on_callback] tests exclude one another, so a block
    that ends without [return] reaches the end of the handler. *)
Definition on_callback `{PyUnicode} `{Config} (upd : Update) (env : Env) (data : pystr)
  (d : Draft) : Outcome :=
  if negb (upd_private upd) then Some (d, [])
  else
    '(d, calls) ←
      match ticket d with
      | None => Some (cmd_start upd env d)
      | Some t =>
          if startswith (u "veh|") data then Some (on_veh data d t)
          else if startswith (u "nav|") data then on_nav env data d t
          else if startswith (u "set|") data then on_set env data d t
          else if eqs data (u "summary|edit") then
            Some (d, [EditMessage T_form_edit_title (Some (kb_edit_field_list d))])
          else if eqs data (u "edit|cancel") then Some (d, [edit_preview t])
          else if startswith (u "edit|field|") data then Some (on_edit_field data d t)
          else if startswith (u "dispatch|") data then Some (d, on_dispatch upd env data t)
          else if eqs data (u "summary|create") then Some (on_create env d t)
          else if startswith (u "act|") data then Some (on_act env data d t)
          else Some (d, [])
      end;
    Some (d, AnswerQuery :: calls).

(** ** Sessions *)



(** [get_draft] on a fresh session. *)
Definition new_draft : Draft := mkDraft None 0 false PRIMARY_MODE false.


(** The draft after a run of callback tokens, all in one chat. *)
Fixpoint run_callbacks `{PyUnicode} `{Config} (upd : Update) (env : Env)
  (tokens : list pystr) (d : Draft) : option Draft :=
  match tokens with
  | [] => Some d
  | data :: rest =>
      '(d, _) ← on_callback upd env data d;
      run_callbacks upd env rest d
  end.

Definition draft_after (o : Outcome) : option Draft := fst <$> o.

Definition ticket_after (o : Outcome) : option Ticket := o ≫= λ r, ticket (fst r).

(** ** The claims' own words

    Predicates that say what the specification says, to compare the
    code with. *)

(** A word a group accepts: every character in the class, as many of
    them as the repetition allows. *)
Definition in_group `{PyUnicode} (g : Group) (w : pystr) : Prop :=
  Forall (λ x, class_mem (g_class g) x = true) w
  ∧ (g_min g ≤ length w ≤ g_max g)%nat.

Definition series_letter (c : N) : Prop := c ∈ SERIES_CYR.

Definition digit `{PyUnicode} (c : N) : Prop := re_digit c = true.

(** Exactly three digits for a Kia Ceed, three or four otherwise. *)
Definition digit_count_ok (brand : option pystr) (n : nat) : Prop :=
  if bool_decide (brand = Some (u "KIA_CEED")) then n = 3%nat
  else n = 3%nat ∨ n = 4%nat.

(** The pattern [normalize_vats_plate] picks for a brand. *)
Definition vats_pattern (brand : option pystr) : list Group :=
  if bool_decide (brand = Some (u "KIA_CEED")) then PLATE_RE_3 else PLATE_RE_34.

(** One series letter, the digit block, two series letters, a region
    code of two or three digits. *)
Definition vats_plate_parts `{PyUnicode} (brand : option pystr) (l1 d l2 reg : pystr)
  : Prop :=
  length l1 = 1%nat ∧ Forall series_letter l1
  ∧ Forall digit d ∧ digit_count_ok brand (length d)
  ∧ length l2 = 2%nat ∧ Forall series_letter l2
  ∧ Forall digit reg ∧ (length reg = 2%nat ∨ length reg = 3%nat).

Definition vats_plate_shape `{PyUnicode} (brand : option pystr) (s : pystr) : Prop :=
  ∃ l1 d l2 reg, s = l1 ++ d ++ l2 ++ reg ∧ vats_plate_parts brand l1 d l2 reg.

(** A transition whose name, or whose target status name, is one of the
    preferred close labels; a missing name reads as the empty text and
    surrounding white space is not counted. *)
Definition preferred `{PyUnicode} (tr : Transition) : Prop :=
  strip (or_str (tr_name tr) []) ∈ T_jira_preferred_close_statuses
  ∨ strip (or_str (tr_to_name tr) []) ∈ T_jira_preferred_close_statuses.

(** A value that is there and not empty. *)
Definition nonempty (o : option pystr) : option pystr :=
  match o with
  | Some (c :: s) => Some (c :: s)
  | _ => None
  end.

(** The value a text message answers the step under the cursor with:
    the normalized plate for a plate step, the stripped text for a text
    step or for the incident source in free-text mode; [None] when the
    message is rejected or the step takes no text. *)
Definition text_answer `{PyUnicode} (d : Draft) (t : Ticket) (msg_text : pystr)
  : option pystr :=
  let key := fst (current_step_key d) in
  match dict_get STEP_INPUT_KIND key with
  | Some KPlate => nonempty (normalize_vats_plate (strip msg_text) (brand t))
  | Some KPlateRef => nonempty (normalize_ref_plate (strip msg_text))
  | Some kind =>
      if is_text kind || (eqs key (u "incident_source") && _incident_source_custom_input d)
      then nonempty (Some (strip msg_text))
      else None
  | None => None
  end.

(** A set of a field changes the brand: the field is the brand, which
    had a value, another one. *)
Definition brand_changes (t : Ticket) (field_key value : pystr) : bool :=
  eqs field_key (u "brand")
  && match brand t with
     | Some p => negb (eqs p value)
     | None => false
     end.

(** The ticket still lacks the secondary plate its brand asks for. *)
Definition lacks_plate_ref (t : Ticket) : bool :=
  bool_decide (brand t = Some (u "SITRAK")) && negb (truthy (plate_ref t)).





(** ** Sample values *)

Definition sample_config : Config :=
  {| RA_NOTIFY_CHAT_ID := 0; DISPATCH_ALERT_CHAT_ID := 0 |}.

Definition sample_update : Update := mkUpdate true 1001 (Some (1001, None)).

Definition sample_env : Env :=
  mkEnv (u "k3x9q2ab") (u "2026-01-15T07:30:00+00:00") (u "15.01.2026 10:30")
    (None, None) (Some [], None) None (None, None, Some 4242) (inl (u "https://t.me/+abc"))
    (λ _, None).

(** A ticket of a breakdown with nothing else answered. *)
Definition sample_ticket : Ticket :=
  mkTicket (u "k3x9q2ab") 1001 None (u "2026-01-15T07:30:00+00:00")
    (Some (u "BREAK")) None None (Some (u "15.01.2026 10:30")) None None None ∅
    None None None None None None None None None None None None None.

(** ** A table for evaluation

    The runtime tables restricted to Basic Latin and the Russian
    alphabet, the code points the program's own texts and the plates are
    written in; it serves to run the definitions on concrete inputs. *)

Definition latin_cyrillic_upper (c : N) : pystr :=
  if ((97 <=? c) && (c <=? 122))%N then [(c - 32)%N]
  else if ((1072 <=? c) && (c <=? 1103))%N then [(c - 32)%N]
  else if (c =? 1105)%N then [1025%N]
  else [c].

Definition latin_cyrillic_isalnum (c : N) : bool :=
  (((48 <=? c) && (c <=? 57)) || ((65 <=? c) && (c <=? 90)) || ((97 <=? c) && (c <=? 122))
   || ((1040 <=? c) && (c <=? 1103)) || (c =? 1025) || (c =? 1105))%N.

Definition latin_isspace (c : N) : bool :=
  (((9 <=? c) && (c <=? 13)) || ((28 <=? c) && (c <=? 32)) || (c =? 133) || (c =? 160))%N.

Definition ascii_digit (c : N) : bool := ((48 <=? c) && (c <=? 57))%N.

Definition latin_cyrillic : PyUnicode :=
  {| py_upper := latin_cyrillic_upper; py_isalnum := latin_cyrillic_isalnum;
     py_isspace := latin_isspace; re_digit := ascii_digit |}.

(** ** Further predicates of the statements *)

(** Two series letters, four digits, a region code of two or three
    digits. *)
Definition ref_plate_shape `{PyUnicode} (s : pystr) : Prop :=
  ∃ letters2 d4 reg,
    s = letters2 ++ d4 ++ reg
    ∧ length letters2 = 2%nat ∧ Forall series_letter letters2
    ∧ length d4 = 4%nat ∧ Forall digit d4
    ∧ Forall digit reg ∧ (length reg = 2%nat ∨ length reg = 3%nat).

(** What reading a plate back needs of the runtime tables: a newline is
    not alphanumeric; the upper case of a space has no alphanumeric
    character; a series letter is its own upper case, alphanumeric and no
    digit; a digit is its own upper case and alphanumeric; no Latin key of
    the translation table is a digit. *)
Definition plate_tables_ok `{PyUnicode} : Prop :=
  py_isalnum 10 = false
  ∧ Forall (λ c, py_isalnum c = false) (py_upper 32)
  ∧ Forall (λ c, py_upper c = [c] ∧ py_isalnum c = true ∧ re_digit c = false) SERIES_CYR
  ∧ (∀ c, re_digit c = true → py_upper c = [c] ∧ py_isalnum c = true)
  ∧ Forall (λ c, re_digit c = false) (map fst LAT_TO_CYR).

(** A character the cleaning keeps as it is. *)
Definition plate_fixed `{PyUnicode} (c : N) : Prop :=
  py_upper c = [c] ∧ py_isalnum c = true ∧ table_get LAT_TO_CYR c = None.

(** The characters [html.escape] replaces: [&], [<], [>] and the two
    quotes. *)
Definition html_special : list N := [38; 60; 62; 34; 39]%N.

(** The close of the tracker issue goes through: a transition is chosen
    and the tracker reports no error for it. *)
Definition close_succeeds `{PyUnicode} (env : Env) : Prop :=
  ∃ i, close_issue_by_best_transition (env_jira_transitions env) = CloseTransition i
       ∧ truthy (env_jira_do_transition env) = false.

(** The first question of the RA list. *)
Definition first_ra_step (t : Ticket) : pystr :=
  if bool_decide (incident_type t = Some (u "DTP"))
  then u "ra_need_dtp_formalization" else u "ra_need_diagnosis".

(** The token of the button that answers [key] with [value]. *)
Definition set_token (key value : pystr) : pystr := u "set|" ++ key ++ u "|" ++ value.

(** ** The dispatch button of a message *)

(** [button.callback_data]; a button of another sort has none. *)
Definition callback_data (b : Button) : option pystr :=
  match b with
  | CallbackButton _ data => Some data
  | UrlButton _ _ => None
  end.

Definition is_dispatch_button (ticket_id : pystr) (b : Button) : bool :=
  bool_decide (callback_data b = Some (u "dispatch|" ++ ticket_id)).

Definition nonempty_row (row : list Button) : bool :=
  match row with [] => false | _ => true end.

(** [remove_dispatch_button]: [markup] is the keyboard of the message of
    the query, if it has one. The result is the keyboard that
    [safe_edit_reply_markup] is called with, or [None] when the function
    returns without that call. *)
Definition remove_dispatch_button (markup : option Markup) (ticket_id : pystr)
  : option (option Markup) :=
  match markup with
  | None | Some [] => None
  | Some rows =>
      let new_rows :=
        List.filter nonempty_row
          (map (List.filter (λ b, negb (is_dispatch_button ticket_id b))) rows) in
      let removed := existsb (existsb (is_dispatch_button ticket_id)) rows in
      if negb removed then None
      else Some (match new_rows with [] => None | _ => Some new_rows end)
  end.

(** The buttons of a keyboard, row after row. *)
Definition buttons_of (markup : option Markup) : list Button :=
  concat (default [] markup).

(** ** The keyboards of the engine *)

(** The keyboards the engine builds: of a question for a step of the
    questionnaire, of the preview, of the list of fields to edit, and
    under the summaries. *)
Inductive engine_keyboard : Markup → Prop :=
| ek_choice key : key ∈ map fst STEP_INPUT_KIND → engine_keyboard (kb_choice key)
| ek_nav key back skip :
    key ∈ map fst STEP_INPUT_KIND → engine_keyboard (kb_nav key back skip)
| ek_counter v : engine_keyboard (kb_veh_counter v)
| ek_summary ticket_id : engine_keyboard (kb_summary ticket_id)
| ek_edit_field_list d : engine_keyboard (kb_edit_field_list d)
| ek_after_main t : engine_keyboard (kb_after_main_created t)
| ek_after_ra t invite_link : engine_keyboard (kb_after_ra t invite_link).

(** A token that stores nothing outside the declared types of the
    ticket: no skip of [id], [created_at] or [user_id], no set of the
    vehicle counts. *)
Definition token_typed (data : pystr) : bool :=
  negb (startswith (u "nav|") data
        && bool_decide (nth 2 (py_split_all bar data) []
                        ∈ [u "id"; u "created_at"; u "user_id"]))
  && negb (startswith (u "set|") data
           && bool_decide (nth 1 (py_split bar 2 data) [] = u "dtp_vehicles")).

Definition button_typed (b : Button) : bool :=
  match callback_data b with
  | Some data => token_typed data
  | None => true
  end.

(** ** Configuration from the environment *)

(** [os.getenv] *)
Abbreviation Environ := (pystr → option pystr).

(** [int(val)] of a string; [None] stands for [ValueError]. *)
Class PyInt := { py_int : pystr → option Z }.

Fixpoint _env_int `{PyUnicode} `{PyInt} (getenv : Environ) (names : list pystr) (dflt : Z)
  : Z :=
  match names with
  | [] => dflt
  | name :: names' =>
      match getenv name with
      | None => _env_int getenv names' dflt
      | Some val =>
          match strip val with
          | [] => _env_int getenv names' dflt
          | val =>
              match py_int val with
              | Some n => n
              | None => _env_int getenv names' dflt
              end
          end
      end
  end.

Definition flag_truthy : list pystr := [u "1"; u "true"; u "True"; u "yes"; u "on"].

Definition flag_falsy : list pystr := [u "0"; u "false"; u "False"; u "no"; u "off"].

Fixpoint _env_flag `{PyUnicode} (getenv : Environ) (names : list pystr) (dflt : bool)
  : bool :=
  match names with
  | [] => dflt
  | name :: names' =>
      match getenv name with
      | None => _env_flag getenv names' dflt
      | Some val =>
          match strip val with
          | [] => _env_flag getenv names' dflt
          | val =>
              if bool_decide (val ∈ flag_truthy) then true
              else if bool_decide (val ∈ flag_falsy) then false
              else _env_flag getenv names' dflt
          end
      end
  end.

(** The two chat ids the engine reads at start-up. *)
Definition config_of_environ `{PyUnicode} `{PyInt} (getenv : Environ) : Config :=
  {| RA_NOTIFY_CHAT_ID := _env_int getenv [u "RA_NOTIFY_CHAT_ID"; u "DISPATCH_CHAT_ID"] 0;
     DISPATCH_ALERT_CHAT_ID := _env_int getenv [u "DISPATCH_ALERT_CHAT_ID"] 0 |}.

Definition USERBOT_ENABLED `{PyUnicode} (getenv : Environ) : bool :=
  _env_flag getenv [u "USERBOT_ENABLED"; u "USE_USERBOT"] false.

(** What a variable says: the number in it, if it is set and its text
    without surrounding white space is a number. *)
Definition env_int_value `{PyUnicode} `{PyInt} (getenv : Environ) (name : pystr)
  : option Z :=
  val ← getenv name; py_int (strip val).

(** The flag in a variable, if it is set to one of the ten words. *)
Definition env_flag_value `{PyUnicode} (getenv : Environ) (name : pystr) : option bool :=
  val ← getenv name;
  if bool_decide (strip val ∈ flag_truthy) then Some true
  else if bool_decide (strip val ∈ flag_falsy) then Some false
  else None.

(** An [int] that reads decimal ASCII digits, for evaluation. *)
Fixpoint ascii_decimal (acc : Z) (s : pystr) : option Z :=
  match s with
  | [] => Some acc
  | c :: s' =>
      if ascii_digit c then ascii_decimal (10 * acc + Z.of_N (c - 48)) s' else None
  end.

Definition ascii_int : PyInt :=
  {| py_int := λ s,
       match s with
       | [] => None
       | 45%N :: (c :: r) => Z.opp <$> ascii_decimal 0 (c :: r)
       | _ => ascii_decimal 0 s
       end |}.

(** ** The fields of the tracker issue *)

(** The line boundaries of [str.splitlines]. *)
Definition is_line_boundary (c : N) : bool :=
  bool_decide (c ∈ [10; 11; 12; 13; 28; 29; 30; 133; 8232; 8233]%N).

(** [str.splitlines] with the line read so far, last character first;
    a carriage return and the line feed after it are one boundary. *)
Fixpoint splitlines_from (cur : pystr) (s : pystr) : list pystr :=
  match s with
  | [] => match cur with [] => [] | _ => [rev cur] end
  | c :: s' =>
      if is_line_boundary c then
        rev cur ::
          (if (c =? 13)%N then
             match s' with
             | c' :: s'' => if (c' =? 10)%N then splitlines_from [] s''
                            else splitlines_from [] s'
             | [] => splitlines_from [] s'
             end
           else splitlines_from [] s')
      else splitlines_from (c :: cur) s'
  end.

Definition splitlines (s : pystr) : list pystr := splitlines_from [] s.

(** A text node, a paragraph and a document of the tracker's document
    format. *)
Record AdfText := mkAdfText { adf_text : pystr }.

Record AdfParagraph := mkAdfParagraph { par_content : list AdfText }.

Record AdfDoc := mkAdfDoc { doc_version : Z; doc_content : list AdfParagraph }.

Definition _adf_text_node (text : pystr) : AdfText := mkAdfText text.

Definition _adf_doc_from_plain (text : option pystr) : option AdfDoc :=
  match text with
  | None | Some [] => None
  | Some text =>
      let lines := match splitlines text with [] => [text] | l => l end in
      Some (mkAdfDoc 1 (map (λ ln, mkAdfParagraph [_adf_text_node ln]) lines))
  end.

(** The settings of the tracker, read once at start-up. *)
Class JiraSettings := {
  JIRA_PROJECT_KEY : pystr;
  JIRA_ISSUE_TYPE_MAIN_ID : pystr;
  JIRA_ISSUE_TYPE_MAIN : pystr
}.

Inductive IssueType :=
| IssueTypeId (id : pystr)
| IssueTypeName (name : pystr).

Record IssueFields := mkIssueFields {
  fields_project_key : pystr;
  fields_summary : pystr;
  fields_labels : list pystr;
  fields_description : option AdfDoc;
  fields_issuetype : IssueType
}.

Definition build_fields_main `{PyUnicode} `{JiraSettings} (t : Ticket) : IssueFields :=
  mkIssueFields JIRA_PROJECT_KEY (render_jira_summary t) [u "ptb"; u "auto-ticket"]
    (_adf_doc_from_plain (Some (compose_primary_block t)))
    (match JIRA_ISSUE_TYPE_MAIN_ID with
     | [] => IssueTypeName JIRA_ISSUE_TYPE_MAIN
     | id => IssueTypeId id
     end).

(** The texts of the paragraphs of a document. *)
Definition doc_lines (doc : AdfDoc) : list pystr :=
  flat_map (λ p, map adf_text (par_content p)) (doc_content doc).

Definition sample_jira : JiraSettings :=
  {| JIRA_PROJECT_KEY := u "RA"; JIRA_ISSUE_TYPE_MAIN_ID := [];
     JIRA_ISSUE_TYPE_MAIN := u "Task" |}.

(** ** The answer of the chat factory *)

(** [str.isdigit] of a one-character string. *)
Class PyDigit := { py_isdigit : N → bool }.

(** What the factory may give back: an [int], a [str], a [dict] with
    string keys, or something else. *)
Inductive Node :=
| NInt (n : Z)
| NStr (s : pystr)
| NDict (items : list (pystr * Node))
| NOther.

(** [text.isdigit()]: not empty, digits only. *)
Definition isdigit `{PyDigit} (s : pystr) : bool :=
  match s with
  | [] => false
  | _ => forallb py_isdigit s
  end.

(** The [str] branch of [_extract_chat_id]. *)
Definition chat_id_of_text `{PyUnicode} `{PyInt} `{PyDigit} (node : pystr) : option Z :=
  let text := strip node in
  if startswith (u "http") text then None
  else if startswith (u "-") text && isdigit (drop 1 text) then py_int text
  else if isdigit text then py_int text
  else None.

Definition chat_id_keys : list pystr := [u "chat_id"; u "chatId"; u "chatid"; u "id"].

Definition chat_wrapper_keys : list pystr := [u "chat"; u "result"; u "data"].

Fixpoint _extract_chat_id `{PyUnicode} `{PyInt} `{PyDigit} (node : Node) : option Z :=
  match node with
  | NInt n => Some n
  | NStr s => chat_id_of_text s
  | NDict items =>
      (* [key in node] and [_extract_chat_id(node[key])] *)
      let nested :=
        fix nested (l : list (pystr * Node)) (key : pystr) : option (option Z) :=
          match l with
          | [] => None
          | (k, v) :: l' =>
              if decide (k = key) then Some (_extract_chat_id v) else nested l' key
          end in
      let search :=
        fix search (keys : list pystr) : option Z :=
          match keys with
          | [] => None
          | key :: keys' =>
              match nested items key with
              | Some (Some n) => Some n
              | _ => search keys'
              end
          end in
      match search chat_id_keys with
      | Some n => Some n
      | None => search chat_wrapper_keys
      end
  | NOther => None
  end.

(** How the call of the factory ended: there is no factory, the call
    raised, or it returned. *)
Inductive FactoryAnswer :=
| NoFactory
| FactoryError (e : pystr)
| FactoryResult (res : Node).

(** [try_create_chat_via_userbot] after the call: link, error and chat
    id. *)
Definition try_create_chat_via_userbot `{PyUnicode} `{PyInt} `{PyDigit}
  (answer : FactoryAnswer) : option pystr * option pystr * option Z :=
  match answer with
  | NoFactory => (None, Some (u "userbot disabled"), None)
  | FactoryError e => (None, Some (u "userbot create_chat error: " ++ e), None)
  | FactoryResult res =>
      let chat_id := _extract_chat_id res in
      match res with
      | NStr s => if startswith (u "http") s then (Some s, None, chat_id)
                  else (None, None, chat_id)
      | _ => (None, None, chat_id)
      end
  end.

Definition ascii_isdigit : PyDigit := {| py_isdigit := ascii_digit |}.


(** * Properties *)

Example series_code_points :
  SERIES_CYR = [1040; 1042; 1045; 1050; 1052; 1053; 1054; 1056; 1057; 1058; 1059; 1061]%N.
Proof. reflexivity. Qed.

Example normalize_mixed_case :
  @normalize_vats_plate latin_cyrillic (u "a 123 bc-77") None = Some (u "А123ВС77").
Proof. vm_compute. reflexivity. Qed.

Example normalize_kia_four_digits :
  @normalize_vats_plate latin_cyrillic (u "a1234bc77") (Some (u "KIA_CEED")) = None.
Proof. vm_compute. reflexivity. Qed.

Example display_spaced :
  @format_vats_display latin_cyrillic (Some (u "А1234ВС777")) = u "А1234ВС 777".
Proof. vm_compute. reflexivity. Qed.

(** ** Step catalog *)

Lemma is_sitrak_opt_spec (ticket : option Ticket) :
  is_sitrak_opt ticket = true ↔ ∃ t, ticket = Some t ∧ brand t = Some (u "SITRAK").
Proof.
  destruct ticket as [t|]; simpl.
  - rewrite bool_decide_eq_true. split.
    + intros Hb. exists t. split; [reflexivity | exact Hb].
    + intros (t' & Ht & Hb). injection Ht as <-. exact Hb.
  - split; [discriminate | intros (t' & Ht & _); discriminate].
Qed.

(** C1. The primary step list is a function of the pair (collision or
    not, brand SITRAK or not) alone; it holds [plate_ref] exactly when the
    ticket's brand is SITRAK; and then [plate_ref] comes right after
    [plate_vats], whatever the branch, and nowhere else. *)
Theorem steps_for_primary_catalog :
  (∀ a b : option Ticket,
      is_dtp_opt a = is_dtp_opt b → is_sitrak_opt a = is_sitrak_opt b →
      _steps_for_primary a = _steps_for_primary b)
  ∧ (∀ ticket : option Ticket,
      u "plate_ref" ∈ _steps_for_primary ticket
      ↔ ∃ t, ticket = Some t ∧ brand t = Some (u "SITRAK"))
  ∧ (∀ (ticket : option Ticket) (t : Ticket),
      ticket = Some t → brand t = Some (u "SITRAK") →
      ∃ pre post,
        _steps_for_primary ticket = pre ++ [u "plate_vats"; u "plate_ref"] ++ post
        ∧ u "plate_ref" ∉ pre ++ post).
Proof.
  split; [|split].
  - intros a b Hd Hs. unfold _steps_for_primary, _maybe_add_plate_ref.
    rewrite Hd, Hs. reflexivity.
  - intros ticket. rewrite <- is_sitrak_opt_spec.
    unfold _steps_for_primary, _maybe_add_plate_ref.
    assert (Hdec : ∀ l : list pystr,
               bool_decide (u "plate_ref" ∈ l) = true → u "plate_ref" ∈ l)
      by (intros l; apply bool_decide_eq_true_1).
    assert (Hndec : ∀ l : list pystr,
               bool_decide (u "plate_ref" ∈ l) = false → u "plate_ref" ∈ l → false = true)
      by (intros l Hf Hin; apply bool_decide_eq_false_1 in Hf; destruct (Hf Hin)).
    destruct (is_dtp_opt ticket), (is_sitrak_opt ticket); split;
      first [ intros _; reflexivity
            | intros Hs; discriminate Hs
            | intros _; apply Hdec; vm_compute; reflexivity
            | apply Hndec; vm_compute; reflexivity ].
  - intros ticket t Ht Hb.
    assert (Hs : is_sitrak_opt ticket = true).
    { apply is_sitrak_opt_spec. exists t. split; assumption. }
    unfold _steps_for_primary, _maybe_add_plate_ref. rewrite Hs.
    destruct (is_dtp_opt ticket).
    + exists [u "incident_type"; u "incident_source"; u "dtp_type"; u "brand"],
        [u "dtp_vehicles"; u "location"; u "dtp_damage_text"; u "problem_desc";
         u "obstacle_on_road"; u "notes"].
      split; [vm_compute; reflexivity |].
      apply (bool_decide_eq_false_1 (u "plate_ref" ∈ _)). vm_compute. reflexivity.
    + exists [u "incident_type"; u "incident_source"; u "brand"],
        [u "location"; u "break_symptoms"; u "problem_desc"; u "obstacle_on_road";
         u "notes"].
      split; [vm_compute; reflexivity |].
      apply (bool_decide_eq_false_1 (u "plate_ref" ∈ _)). vm_compute. reflexivity.
Qed.

(** ** The pattern matcher *)

Section Matcher.
Context `{PyUnicode}.

Lemma try_counts_Some k s lo n r :
  try_counts k s lo n = Some r →
  ∃ m gs, (lo ≤ m ≤ n)%nat ∧ k (drop m s) = Some gs ∧ r = take m s :: gs.
Proof.
  induction n as [|n IH]; simpl.
  - destruct (0 <? lo)%nat eqn:Hlo; [discriminate|].
    apply Nat.ltb_ge in Hlo.
    destruct (k (drop 0 s)) as [gs|] eqn:Hk; [|discriminate].
    intros [= <-]. exists 0%nat, gs. repeat split; [lia | lia | exact Hk].
  - destruct (S n <? lo)%nat eqn:Hlo; [discriminate|].
    apply Nat.ltb_ge in Hlo.
    destruct (k (drop (S n) s)) as [gs|] eqn:Hk.
    + intros [= <-]. exists (S n), gs. repeat split; [lia | lia | exact Hk].
    + intros Hr. destruct (IH Hr) as (m & gs & Hm & Hkm & ->).
      exists m, gs. repeat split; [lia | lia | exact Hkm].
Qed.

Lemma try_counts_None k s lo n :
  try_counts k s lo n = None →
  ∀ m, (lo ≤ m ≤ n)%nat → k (drop m s) = None.
Proof.
  induction n as [|n IH]; simpl.
  - destruct (0 <? lo)%nat eqn:Hlo.
    + apply Nat.ltb_lt in Hlo. intros _ m Hm. lia.
    + destruct (k (drop 0 s)) eqn:Hk; [discriminate|].
      intros _ m Hm. assert (m = 0)%nat as -> by lia. exact Hk.
  - destruct (S n <? lo)%nat eqn:Hlo.
    + apply Nat.ltb_lt in Hlo. intros _ m Hm. lia.
    + destruct (k (drop (S n) s)) eqn:Hk; [discriminate|].
      intros Hr m Hm. destruct (decide (m = S n)) as [->|Hne]; [exact Hk|].
      apply (IH Hr). lia.
Qed.

Lemma span_len_le p s : (span_len p s ≤ length s)%nat.
Proof. induction s as [|c s IH]; simpl; [lia|]. destruct (p c); simpl; lia. Qed.

Lemma span_len_take p s m :
  (m ≤ span_len p s)%nat → Forall (λ x, p x = true) (take m s) ∧ length (take m s) = m.
Proof.
  revert m. induction s as [|c s IH]; intros m Hm; simpl in Hm.
  - assert (m = 0)%nat as -> by lia. split; [constructor | reflexivity].
  - destruct m as [|m]; [split; [constructor | reflexivity]|].
    destruct (p c) eqn:Hc; [|lia].
    destruct (IH m ltac:(lia)) as [Hall Hlen].
    split; [constructor; assumption | simpl; rewrite Hlen; reflexivity].
Qed.

Lemma span_len_app p w rest :
  Forall (λ x, p x = true) w → (length w ≤ span_len p (w ++ rest))%nat.
Proof.
  induction 1 as [|c w Hc _ IH]; simpl; [lia|]. rewrite Hc. lia.
Qed.

(** What a match delivers: one word per group, followed in the subject
    by nothing, or by the newline that [$] tolerates. *)
Lemma re_match_sound p s ws :
  re_match p s = Some ws →
  Forall2 in_group p ws ∧ ∃ tail, s = concat ws ++ tail ∧ at_end tail = true.
Proof.
  revert s ws. induction p as [|g p IH]; intros s ws; simpl.
  - destruct (at_end s) eqn:He; [|discriminate].
    intros [= <-]. split; [constructor|]. exists s. split; [reflexivity | exact He].
  - intros Hm. apply try_counts_Some in Hm as (m & gs & Hm & Hk & ->).
    destruct (IH _ _ Hk) as (Hgs & tail & Hs & Het).
    destruct (span_len_take (class_mem (g_class g)) s m ltac:(lia)) as [Hall Hlen].
    split.
    + constructor; [|exact Hgs]. split; [exact Hall | rewrite Hlen; lia].
    + exists tail. split; [|exact Het].
      simpl. rewrite <- (assoc_L (++)), <- Hs. symmetry. apply take_drop.
Qed.

(** Backtracking is complete: a subject that splits into words of the
    groups is matched. *)
Lemma re_match_complete p ws tail :
  Forall2 in_group p ws → at_end tail = true →
  is_Some (re_match p (concat ws ++ tail)).
Proof.
  intros Hws Het. induction Hws as [|g w p ws [Hall Hlen] _ IH]; simpl.
  - rewrite Het. eexists; reflexivity.
  - destruct (try_counts (re_match p) ((w ++ concat ws) ++ tail) (g_min g)
                (Nat.min (g_max g)
                   (span_len (class_mem (g_class g)) ((w ++ concat ws) ++ tail))))
      as [r|] eqn:Ht; [eexists; reflexivity|].
    exfalso.
    pose proof (span_len_app (class_mem (g_class g)) w (concat ws ++ tail) Hall) as Hsp.
    rewrite (assoc_L (++)) in Hsp.
    pose proof (try_counts_None _ _ _ _ Ht (length w) ltac:(lia)) as Hnone.
    rewrite <- (assoc_L (++)), drop_app_length in Hnone.
    destruct IH as [r Hr]. rewrite Hr in Hnone. discriminate.
Qed.

End Matcher.

(** ** Plate normalization *)

Section Plates.
Context `{PyUnicode}.

Lemma in_series_group lo hi w :
  in_group (mkGroup (InSet SERIES_CYR) lo hi) w
  ↔ Forall series_letter w ∧ (lo ≤ length w ≤ hi)%nat.
Proof.
  unfold in_group, series_letter; simpl.
  split; intros [Hall Hlen]; (split; [|exact Hlen]);
    (eapply Forall_impl; [exact Hall|]); intros x; simpl;
    rewrite bool_decide_eq_true; tauto.
Qed.

Lemma vats_groups_parts brand l1 d l2 reg :
  Forall2 in_group (vats_pattern brand) [l1; d; l2; reg]
  ↔ vats_plate_parts brand l1 d l2 reg.
Proof.
  unfold vats_pattern, vats_plate_parts, digit_count_ok, PLATE_RE_3, PLATE_RE_34.
  destruct (bool_decide (brand = Some (u "KIA_CEED"))).
  all: split.
  all: try (intros Hf;
       apply Forall2_cons_1 in Hf as [H1 Hf]; apply Forall2_cons_1 in Hf as [H2 Hf];
       apply Forall2_cons_1 in Hf as [H3 Hf]; apply Forall2_cons_1 in Hf as [H4 _];
       apply in_series_group in H1 as [? ?]; apply in_series_group in H3 as [? ?];
       destruct H2 as [? ?], H4 as [? ?]; simpl in *;
       repeat split; try assumption; lia).
  all: intros (? & ? & ? & ? & ? & ? & ? & ?);
       repeat (apply Forall2_cons; split); try apply Forall2_nil_2;
       try (apply in_series_group; split; [assumption | simpl; lia]);
       (split; [assumption | simpl; lia]).
Qed.

Lemma vats_groups_four brand ws :
  Forall2 in_group (vats_pattern brand) ws → ∃ l1 d l2 reg, ws = [l1; d; l2; reg].
Proof.
  intros Hf. apply Forall2_length in Hf.
  assert (length ws = 4%nat) as Hlen.
  { rewrite <- Hf. unfold vats_pattern.
    destruct (bool_decide (brand = Some (u "KIA_CEED"))); reflexivity. }
  destruct ws as [|l1 [|d [|l2 [|reg [|? ?]]]]]; try discriminate Hlen.
  exists l1, d, l2, reg. reflexivity.
Qed.

Lemma at_end_cases tail : at_end tail = true → tail = [] ∨ tail = [10%N].
Proof.
  destruct tail as [|c [|? ?]]; simpl; [left; reflexivity | | discriminate].
  intros Hc. apply N.eqb_eq in Hc as ->. right. reflexivity.
Qed.

Lemma table_get_range tbl c b : table_get tbl c = Some b → b ∈ map snd tbl.
Proof.
  induction tbl as [|[a b'] tbl IH]; simpl; [discriminate|].
  destruct (a =? c)%N.
  - intros [= <-]. apply list_elem_of_here.
  - intros Hg. apply list_elem_of_further, IH, Hg.
Qed.

Lemma plate_chars_no_newline text :
  py_isalnum 10 = false → 10%N ∉ plate_chars text.
Proof.
  intros Hnl Hin. unfold plate_chars, translate in Hin.
  apply list_elem_of_fmap in Hin as (c & Hc & Hin).
  apply list_elem_of_In, filter_In in Hin as [_ Halnum].
  destruct (table_get LAT_TO_CYR c) as [b|] eqn:Hg; simpl in Hc.
  - apply table_get_range in Hg. subst b. revert Hg.
    apply (bool_decide_eq_false_1 (10%N ∈ map snd LAT_TO_CYR)). vm_compute. reflexivity.
  - subst c. rewrite Hnl in Halnum. discriminate.
Qed.

(** The text a successful match is made of. *)
Lemma vats_match_inv brand s ws :
  re_match (vats_pattern brand) s = Some ws →
  ∃ l1 d l2 reg tail,
    ws = [l1; d; l2; reg] ∧ vats_plate_parts brand l1 d l2 reg
    ∧ s = (l1 ++ d ++ l2 ++ reg) ++ tail ∧ (tail = [] ∨ tail = [10%N]).
Proof.
  intros Hm. apply re_match_sound in Hm as (Hf & tail & Hs & Het).
  destruct (vats_groups_four _ _ Hf) as (l1 & d & l2 & reg & ->).
  exists l1, d, l2, reg, tail. split; [reflexivity|].
  split; [apply vats_groups_parts, Hf|].
  split; [|apply at_end_cases, Het].
  rewrite Hs. simpl. rewrite app_nil_r, !(assoc_L (++)). reflexivity.
Qed.

Lemma vats_match_shape brand s :
  vats_plate_shape brand s → is_Some (re_match (vats_pattern brand) s).
Proof.
  intros (l1 & d & l2 & reg & -> & Hp).
  apply vats_groups_parts in Hp.
  pose proof (re_match_complete _ _ [] Hp eq_refl) as Hm.
  simpl in Hm. rewrite !app_nil_r in Hm. exact Hm.
Qed.

Lemma normalize_vats_plate_unfold text brand :
  normalize_vats_plate text brand =
    match text with
    | [] => None
    | _ =>
        match re_match (vats_pattern brand) (plate_chars text) with
        | Some [l1; d; l2; reg] => Some (l1 ++ d ++ l2 ++ reg)
        | _ => None
        end
    end.
Proof. reflexivity. Qed.

Lemma normalize_vats_plate_Some text brand r :
  py_isalnum 10 = false →
  normalize_vats_plate text brand = Some r
  ↔ text ≠ [] ∧ r = plate_chars text ∧ vats_plate_shape brand r.
Proof.
  intros Hnl. rewrite normalize_vats_plate_unfold. split.
  - destruct text as [|c0 text0]; [discriminate|].
    set (text := c0 :: text0).
    destruct (re_match (vats_pattern brand) (plate_chars text)) as [ws|] eqn:Hm;
      [|discriminate].
    destruct (vats_match_inv _ _ _ Hm) as (l1 & d & l2 & reg & tail & -> & Hp & Hs & Ht).
    intros [= <-]. split; [discriminate|].
    assert (tail = []) as ->.
    { destruct Ht as [->| ->]; [reflexivity|]. exfalso.
      apply (plate_chars_no_newline text Hnl). rewrite Hs.
      apply elem_of_app. right. apply list_elem_of_here. }
    rewrite app_nil_r in Hs. split; [symmetry; exact Hs|].
    exists l1, d, l2, reg. split; [reflexivity | exact Hp].
  - intros (Hne & -> & Hshape).
    destruct text as [|c0 text0]; [destruct Hne; reflexivity|].
    set (text := c0 :: text0) in *.
    destruct (vats_match_shape _ _ Hshape) as [ws Hm]. rewrite Hm.
    destruct (vats_match_inv _ _ _ Hm) as (l1 & d & l2 & reg & tail & -> & Hp & Hs & Ht).
    assert (tail = []) as ->.
    { destruct Ht as [->| ->]; [reflexivity|]. exfalso.
      apply (plate_chars_no_newline text Hnl). rewrite Hs.
      apply elem_of_app. right. apply list_elem_of_here. }
    rewrite app_nil_r in Hs. rewrite Hs. reflexivity.
Qed.

End Plates.

Section PlateDisplay.
Context `{PyUnicode}.

Lemma digit_count_ok_any brand n : digit_count_ok brand n → digit_count_ok None n.
Proof.
  unfold digit_count_ok.
  destruct (bool_decide (brand = Some (u "KIA_CEED"))); simpl; [left; assumption | tauto].
Qed.

Lemma vats_plate_shape_any brand s : vats_plate_shape brand s → vats_plate_shape None s.
Proof.
  intros (l1 & d & l2 & reg & -> & H1 & H2 & H3 & H4 & Hrest).
  exists l1, d, l2, reg. split; [reflexivity|].
  repeat split; try assumption; try apply Hrest.
  eapply digit_count_ok_any, H4.
Qed.

Lemma last_digit (s reg : pystr) :
  Forall digit reg → (2 ≤ length reg)%nat → ∃ c, last (s ++ reg) = Some c ∧ digit c.
Proof.
  intros Hd Hlen. destruct (last reg) as [c|] eqn:Hl.
  - exists c. split.
    + destruct reg as [|x reg]; [discriminate Hl|].
      rewrite last_app_cons. rewrite last_cons in Hl.
      rewrite last_cons.
      destruct (last reg); [|]; congruence.
    + eapply Forall_forall in Hd; [exact Hd|]. apply last_Some_elem_of, Hl.
  - apply last_None in Hl. subst reg. simpl in Hlen. lia.
Qed.

(** Display formatting of a compact plate of the right shape. *)
Lemma format_vats_display_shape brand r :
  re_digit 10 = false → vats_plate_shape brand r →
  ∃ body reg,
    r = body ++ reg ∧ Forall digit reg ∧ (length reg = 2%nat ∨ length reg = 3%nat)
    ∧ format_vats_display (Some r) = body ++ u " " ++ reg.
Proof.
  intros Hnl Hshape.
  pose proof (vats_plate_shape_any _ _ Hshape) as Hany.
  destruct (vats_match_shape _ _ Hany) as [ws Hm].
  destruct (vats_match_inv _ _ _ Hm) as (l1 & d & l2 & reg & tail & -> & Hp & Hs & Ht).
  assert (tail = []) as ->.
  { destruct Ht as [->| ->]; [reflexivity|]. exfalso.
    destruct Hshape as (a & b & c & reg0 & Hr & _ & _ & _ & _ & _ & _ & Hd0 & Hl0).
    destruct (last_digit (a ++ b ++ c) reg0 Hd0 ltac:(lia)) as (x & Hlast & Hx).
    rewrite <- !(assoc_L (++)) in Hlast. rewrite <- Hr, Hs in Hlast.
    rewrite last_snoc in Hlast. injection Hlast as <-.
    unfold digit in Hx. congruence. }
  rewrite app_nil_r in Hs.
  destruct Hp as (Hl1 & _ & _ & _ & _ & _ & Hdreg & Hlreg).
  exists (l1 ++ d ++ l2), reg.
  split; [rewrite Hs, <- !(assoc_L (++)); reflexivity|].
  split; [exact Hdreg|]. split; [exact Hlreg|].
  unfold format_vats_display.
  destruct r as [|c0 r0].
  { destruct l1; [discriminate Hl1 | discriminate Hs]. }
  change (vats_pattern None) with PLATE_RE_34 in Hm. rewrite Hm.
  rewrite <- !(assoc_L (++)). reflexivity.
Qed.



End PlateDisplay.




(** ** Closing an issue *)

Section Close.
Context `{PyUnicode}.

Lemma preferred_test (tr : Transition) :
  bool_decide (strip (or_str (tr_name tr) []) ∈ T_jira_preferred_close_statuses)
  || bool_decide (strip (or_str (tr_to_name tr) []) ∈ T_jira_preferred_close_statuses)
  = true ↔ preferred tr.
Proof.
  unfold preferred. rewrite orb_true_iff, !bool_decide_eq_true. reflexivity.
Qed.

Lemma best_loop_first pre tr post :
  Forall (λ x, ¬ preferred x) pre → preferred tr →
  best_loop T_jira_preferred_close_statuses (pre ++ tr :: post) = tr_id tr.
Proof.
  intros Hpre Htr. induction Hpre as [|x pre Hx _ IH]; simpl.
  - apply preferred_test in Htr. rewrite Htr. reflexivity.
  - destruct (bool_decide _ || bool_decide _) eqn:Hb; [|exact IH].
    apply preferred_test in Hb. destruct (Hx Hb).
Qed.

Lemma best_loop_none transitions :
  Forall (λ x, ¬ preferred x) transitions →
  best_loop T_jira_preferred_close_statuses transitions = None.
Proof.
  induction 1 as [|x l Hx _ IH]; simpl; [reflexivity|].
  destruct (bool_decide _ || bool_decide _) eqn:Hb; [|exact IH].
  apply preferred_test in Hb. destruct (Hx Hb).
Qed.

Lemma best_loop_agree prefs transitions :
  jira_client.best_loop prefs transitions = best_loop prefs transitions.
Proof.
  induction transitions as [|tr rest IH]; simpl; [reflexivity|].
  rewrite IH. reflexivity.
Qed.

End Close.

(** C10. Given the same list of transitions, the close operation of
    [regular_bot] and the one of [jira_client] take the same step: the same
    transition id, or the same error when none can be chosen. *)
Theorem close_implementations_agree `{PyUnicode} (transitions : list Transition)
  (err : option pystr) :
  jira_client.best_loop T_jira_preferred_close_statuses transitions
    = best_loop T_jira_preferred_close_statuses transitions
  ∧ jira_client.jira_close_issue (transitions, None)
    = close_issue_by_best_transition (Some transitions, err).
Proof.
  split; [apply best_loop_agree|].
  unfold jira_client.jira_close_issue, close_issue_by_best_transition.
  rewrite best_loop_agree. reflexivity.
Qed.

(** ** Routing of callback tokens *)

Lemma eqs_refl (a : pystr) : eqs a a = true.
Proof. unfold eqs. apply bool_decide_eq_true. reflexivity. Qed.

Lemma eqs_true (a b : pystr) : eqs a b = true ↔ a = b.
Proof. unfold eqs. apply bool_decide_eq_true. Qed.

Lemma eqs_false (a b : pystr) : eqs a b = false ↔ a ≠ b.
Proof. unfold eqs. apply bool_decide_eq_false. Qed.

Lemma break_at_None sep (s : pystr) : sep ∉ s → break_at sep s = None.
Proof.
  induction s as [|c s IH]; [reflexivity|]. intros Hn.
  apply not_elem_of_cons in Hn as [Hc Hs]. simpl.
  destruct (c =? sep)%N eqn:He; [apply N.eqb_eq in He; congruence|].
  rewrite (IH Hs). reflexivity.
Qed.

Lemma break_at_app sep (k v : pystr) :
  sep ∉ k → break_at sep (k ++ sep :: v) = Some (k, v).
Proof.
  induction k as [|c k IH]; intros Hn; simpl.
  - rewrite N.eqb_refl. reflexivity.
  - apply not_elem_of_cons in Hn as [Hc Hk].
    destruct (c =? sep)%N eqn:He; [apply N.eqb_eq in He; congruence|].
    rewrite (IH Hk). reflexivity.
Qed.

Lemma py_split_no_sep sep n (s : pystr) : sep ∉ s → py_split sep n s = [s].
Proof. intros Hn. destruct n; simpl; [reflexivity|]. rewrite break_at_None; done. Qed.

Section Routing.
Context `{PyUnicode} `{Config}.

Lemma on_callback_veh upd env x d t :
  upd_private upd = true → ticket d = Some t →
  on_callback upd env (u "veh|" ++ x) d
  = Some (fst (on_veh (u "veh|" ++ x) d t), AnswerQuery :: snd (on_veh (u "veh|" ++ x) d t)).
Proof.
  intros Hp Ht. unfold on_callback. rewrite Hp, Ht. simpl negb. cbv iota.
  change (startswith (u "veh|") (u "veh|" ++ x)) with true. cbv iota.
  destruct (on_veh (u "veh|" ++ x) d t). reflexivity.
Qed.

Lemma on_callback_nav upd env x d t :
  upd_private upd = true → ticket d = Some t →
  on_callback upd env (u "nav|" ++ x) d
  = '(d', calls) ← on_nav env (u "nav|" ++ x) d t; Some (d', AnswerQuery :: calls).
Proof.
  intros Hp Ht. unfold on_callback. rewrite Hp, Ht. simpl negb. cbv iota.
  change (startswith (u "veh|") (u "nav|" ++ x)) with false.
  change (startswith (u "nav|") (u "nav|" ++ x)) with true. reflexivity.
Qed.

Lemma on_callback_set upd env x d t :
  upd_private upd = true → ticket d = Some t →
  on_callback upd env (u "set|" ++ x) d
  = '(d', calls) ← on_set env (u "set|" ++ x) d t; Some (d', AnswerQuery :: calls).
Proof.
  intros Hp Ht. unfold on_callback. rewrite Hp, Ht. simpl negb. cbv iota.
  change (startswith (u "veh|") (u "set|" ++ x)) with false.
  change (startswith (u "nav|") (u "set|" ++ x)) with false.
  change (startswith (u "set|") (u "set|" ++ x)) with true. reflexivity.
Qed.

Lemma on_callback_act upd env x d t :
  upd_private upd = true → ticket d = Some t →
  on_callback upd env (u "act|" ++ x) d
  = Some (fst (on_act env (u "act|" ++ x) d t),
          AnswerQuery :: snd (on_act env (u "act|" ++ x) d t)).
Proof.
  intros Hp Ht. unfold on_callback. rewrite Hp, Ht. simpl negb. cbv iota.
  change (startswith (u "veh|") (u "act|" ++ x)) with false.
  change (startswith (u "nav|") (u "act|" ++ x)) with false.
  change (startswith (u "set|") (u "act|" ++ x)) with false.
  change (eqs (u "act|" ++ x) (u "summary|edit")) with false.
  change (eqs (u "act|" ++ x) (u "edit|cancel")) with false.
  change (startswith (u "edit|field|") (u "act|" ++ x)) with false.
  change (startswith (u "dispatch|") (u "act|" ++ x)) with false.
  change (eqs (u "act|" ++ x) (u "summary|create")) with false.
  change (startswith (u "act|") (u "act|" ++ x)) with true.
  cbv iota. destruct (on_act env (u "act|" ++ x) d t). reflexivity.
Qed.

Lemma split_act_ra x : py_split bar 2 (u "act|ra|" ++ x) = [u "act"; u "ra"; x].
Proof. reflexivity. Qed.

Lemma split_act_close x : py_split bar 2 (u "act|close|" ++ x) = [u "act"; u "close"; x].
Proof. reflexivity. Qed.

End Routing.

(** ** Entering the RA questions *)

(** C2. The action "enter the RA questions" on a ticket whose tracker
    issue key is unset ([None] or empty) is answered with the fixed
    message and the keyboard of the created-issue view; the draft (ticket,
    cursor, mode, editing flag, free-text flag) is returned as it was, and
    the only calls are the acknowledgement of the query and that message:
    no gateway is called. *)
Theorem enter_ra_without_issue_rejected `{PyUnicode} `{Config}
  (upd : Update) (env : Env) (d : Draft) (t : Ticket) :
  upd_private upd = true → ticket d = Some t → truthy (jira_main t) = false →
  on_callback upd env (u "act|ra|" ++ ticket_id t) d
  = Some (d, [AnswerQuery;
              EditMessage T_messages_need_main_before_ra (Some (kb_after_main_created t))]).
Proof.
  intros Hp Ht Hj.
  change (u "act|ra|" ++ ticket_id t) with (u "act|" ++ (u "ra|" ++ ticket_id t)).
  rewrite (on_callback_act _ _ _ _ t Hp Ht).
  change (u "act|" ++ (u "ra|" ++ ticket_id t)) with (u "act|ra|" ++ ticket_id t).
  unfold on_act. rewrite split_act_ra, eqs_refl. simpl negb. cbv iota.
  change (eqs (u "ra") (u "ra")) with true. cbv iota.
  rewrite Hj. reflexivity.
Qed.

Lemma enter_ra_without_issue_rejected_witness :
  @on_callback latin_cyrillic sample_config sample_update sample_env
    (u "act|ra|k3x9q2ab") (mkDraft (Some sample_ticket) 8 false PRIMARY_MODE false)
  = Some (mkDraft (Some sample_ticket) 8 false PRIMARY_MODE false,
          [AnswerQuery;
           EditMessage T_messages_need_main_before_ra
             (Some (kb_after_main_created sample_ticket))]).
Proof.
  exact (@enter_ra_without_issue_rejected latin_cyrillic sample_config sample_update
           sample_env (mkDraft (Some sample_ticket) 8 false PRIMARY_MODE false)
           sample_ticket eq_refl eq_refl eq_refl).
Defined.

(** ** The vehicle counter *)

Section Counter.
Context `{PyUnicode} `{Config}.

Lemma split_veh_plus kind :
  bar ∉ kind →
  take 3 (py_split_all bar (u "veh|plus|" ++ kind) ++ [[]; []]) = [u "veh"; u "plus"; kind].
Proof.
  intros Hk.
  change (py_split_all bar (u "veh|plus|" ++ kind))
    with (u "veh" :: u "plus" :: py_split bar (7 + length kind) kind).
  rewrite py_split_no_sep by exact Hk. reflexivity.
Qed.

Lemma split_veh_minus kind :
  bar ∉ kind →
  take 3 (py_split_all bar (u "veh|minus|" ++ kind) ++ [[]; []]) = [u "veh"; u "minus"; kind].
Proof.
  intros Hk.
  change (py_split_all bar (u "veh|minus|" ++ kind))
    with (u "veh" :: u "minus" :: py_split bar (8 + length kind) kind).
  rewrite py_split_no_sep by exact Hk. reflexivity.
Qed.

(** What [+] does to the draft. *)
Lemma on_callback_veh_plus upd env d t kind :
  upd_private upd = true → ticket d = Some t → bar ∉ kind →
  draft_after (on_callback upd env (u "veh|plus|" ++ kind) d)
  = Some (with_ticket
            (with_dtp_vehicles
               (<[kind := Z.max 0 (veh_get (dtp_vehicles t) kind + 1)]> (dtp_vehicles t)) t)
            d).
Proof.
  intros Hp Ht Hk.
  change (u "veh|plus|" ++ kind) with (u "veh|" ++ (u "plus|" ++ kind)).
  rewrite (on_callback_veh _ _ _ _ t Hp Ht).
  change (u "veh|" ++ (u "plus|" ++ kind)) with (u "veh|plus|" ++ kind).
  unfold on_veh. rewrite (split_veh_plus _ Hk).
  change (eqs (u "plus") (u "plus")) with true. reflexivity.
Qed.

(** What [-] does to the draft. *)
Lemma on_callback_veh_minus upd env d t kind :
  upd_private upd = true → ticket d = Some t → bar ∉ kind →
  draft_after (on_callback upd env (u "veh|minus|" ++ kind) d)
  = Some (with_ticket
            (with_dtp_vehicles
               (<[kind := Z.max 0 (veh_get (dtp_vehicles t) kind + -1)]> (dtp_vehicles t)) t)
            d).
Proof.
  intros Hp Ht Hk.
  change (u "veh|minus|" ++ kind) with (u "veh|" ++ (u "minus|" ++ kind)).
  rewrite (on_callback_veh _ _ _ _ t Hp Ht).
  change (u "veh|" ++ (u "minus|" ++ kind)) with (u "veh|minus|" ++ kind).
  unfold on_veh. rewrite (split_veh_minus _ Hk).
  change (eqs (u "minus") (u "plus")) with false.
  change (eqs (u "minus") (u "minus")) with true. reflexivity.
Qed.

Lemma veh_get_insert (v : gmap (list N) Z) k z : veh_get (<[k := z]> v) k = z.
Proof. unfold veh_get. rewrite lookup_insert_eq. reflexivity. Qed.

Lemma run_callbacks_cons upd env data rest d d' :
  draft_after (on_callback upd env data d) = Some d' →
  run_callbacks upd env (data :: rest) d = run_callbacks upd env rest d'.
Proof.
  simpl. destruct (on_callback upd env data d) as [[d1 calls]|]; [|discriminate].
  intros [= <-]. reflexivity.
Qed.

End Counter.

(** C7. For a ticket whose count of a class is not negative, [+] on the
    class makes the count one more and [-] one less, but not less than 0;
    no other class changes. From the empty mapping three [+] and one [-]
    on one class leave it at 2. *)
Theorem vehicle_counter `{PyUnicode} `{Config}
  (upd : Update) (env : Env) (d : Draft) (t : Ticket) (kind : pystr) :
  upd_private upd = true → ticket d = Some t → bar ∉ kind →
  0 ≤ veh_get (dtp_vehicles t) kind →
  (∃ t', ticket_after (on_callback upd env (u "veh|plus|" ++ kind) d) = Some t'
         ∧ veh_get (dtp_vehicles t') kind = veh_get (dtp_vehicles t) kind + 1
         ∧ ∀ k, k ≠ kind → dtp_vehicles t' !! k = dtp_vehicles t !! k)
  ∧ (∃ t', ticket_after (on_callback upd env (u "veh|minus|" ++ kind) d) = Some t'
           ∧ veh_get (dtp_vehicles t') kind = Z.max 0 (veh_get (dtp_vehicles t) kind - 1)
           ∧ 0 ≤ veh_get (dtp_vehicles t') kind
           ∧ ∀ k, k ≠ kind → dtp_vehicles t' !! k = dtp_vehicles t !! k)
  ∧ (dtp_vehicles t = ∅ →
     ∃ d' t', run_callbacks upd env
                [u "veh|plus|" ++ kind; u "veh|plus|" ++ kind; u "veh|plus|" ++ kind;
                 u "veh|minus|" ++ kind] d = Some d'
              ∧ ticket d' = Some t' ∧ veh_get (dtp_vehicles t') kind = 2).
Proof.
  intros Hp Ht Hk Hcur.
  pose proof (on_callback_veh_plus upd env d t kind Hp Ht Hk) as Hplus.
  pose proof (on_callback_veh_minus upd env d t kind Hp Ht Hk) as Hminus.
  split; [|split].
  - eexists. split.
    + unfold ticket_after. unfold draft_after in Hplus.
      destruct (on_callback upd env (u "veh|plus|" ++ kind) d) as [[d1 c1]|];
        [|discriminate Hplus].
      simpl in Hplus. injection Hplus as ->. reflexivity.
    + simpl. rewrite veh_get_insert. split; [lia|].
      intros k Hne. rewrite lookup_insert_ne by congruence. reflexivity.
  - eexists. split.
    + unfold ticket_after. unfold draft_after in Hminus.
      destruct (on_callback upd env (u "veh|minus|" ++ kind) d) as [[d1 c1]|];
        [|discriminate Hminus].
      simpl in Hminus. injection Hminus as ->. reflexivity.
    + simpl. rewrite veh_get_insert. split; [f_equal; lia|]. split; [lia|].
      intros k Hne. rewrite lookup_insert_ne by congruence. reflexivity.
  - intros Hempty.
    assert (Hstep : ∀ d0 t0, ticket d0 = Some t0 →
              ∃ t1, draft_after (on_callback upd env (u "veh|plus|" ++ kind) d0)
                    = Some (with_ticket t1 d0)
                    ∧ veh_get (dtp_vehicles t1) kind
                      = Z.max 0 (veh_get (dtp_vehicles t0) kind + 1)).
    { intros d0 t0 Ht0. eexists. split.
      - apply (on_callback_veh_plus upd env d0 t0 kind Hp Ht0 Hk).
      - simpl. apply veh_get_insert. }
    destruct (Hstep d t Ht) as (t1 & Hd1 & Hv1).
    destruct (Hstep (with_ticket t1 d) t1 eq_refl) as (t2 & Hd2 & Hv2).
    destruct (Hstep (with_ticket t2 (with_ticket t1 d)) t2 eq_refl) as (t3 & Hd3 & Hv3).
    set (d3 := with_ticket t3 (with_ticket t2 (with_ticket t1 d))) in *.
    pose proof (on_callback_veh_minus upd env d3 t3 kind Hp eq_refl Hk) as Hd4.
    rewrite (run_callbacks_cons _ _ _ _ _ _ Hd1), (run_callbacks_cons _ _ _ _ _ _ Hd2),
      (run_callbacks_cons _ _ _ _ _ _ Hd3), (run_callbacks_cons _ _ _ _ _ _ Hd4).
    eexists. eexists. split; [reflexivity|]. split; [reflexivity|].
    simpl. rewrite veh_get_insert, Hv3, Hv2, Hv1.
    unfold veh_get at 1. rewrite Hempty, lookup_empty. simpl. reflexivity.
Qed.

Lemma vehicle_counter_witness :
  ∃ d' t',
    @run_callbacks latin_cyrillic sample_config sample_update sample_env
      [u "veh|plus|truck"; u "veh|plus|truck"; u "veh|plus|truck"; u "veh|minus|truck"]
      (mkDraft (Some sample_ticket) 4 false PRIMARY_MODE false) = Some d'
    ∧ ticket d' = Some t' ∧ veh_get (dtp_vehicles t') (u "truck") = 2.
Proof.
  refine (proj2 (proj2
    (@vehicle_counter latin_cyrillic sample_config sample_update sample_env
       (mkDraft (Some sample_ticket) 4 false PRIMARY_MODE false) sample_ticket (u "truck")
       eq_refl eq_refl _ _)) eq_refl).
  - apply (bool_decide_eq_false_1 (bar ∈ u "truck")). vm_compute. reflexivity.
  - vm_compute. discriminate.
Defined.

Section CloseSelection.
Context `{PyUnicode} `{Config}.

Lemma close_first pre tr post err i :
  Forall (λ x, ¬ preferred x) pre → preferred tr → tr_id tr = Some i → i ≠ [] →
  close_issue_by_best_transition (Some (pre ++ tr :: post), err) = CloseTransition i.
Proof.
  intros Hpre Htr Hid Hi. unfold close_issue_by_best_transition.
  rewrite (best_loop_first _ _ _ Hpre Htr), Hid.
  destruct i as [|c i]; [destruct Hi; reflexivity|]. reflexivity.
Qed.

Lemma close_last transitions tr err i :
  Forall (λ x, ¬ preferred x) transitions → last transitions = Some tr →
  tr_id tr = Some i → i ≠ [] →
  close_issue_by_best_transition (Some transitions, err) = CloseTransition i.
Proof.
  intros Hnone Hlast Hid Hi. unfold close_issue_by_best_transition.
  rewrite (best_loop_none _ Hnone), Hlast, Hid. simpl.
  destruct i as [|c i]; [destruct Hi; reflexivity|]. reflexivity.
Qed.

Lemma close_empty err :
  close_issue_by_best_transition (Some [], err) = CloseError T_jira_no_transitions.
Proof. reflexivity. Qed.

Lemma on_callback_close_empty upd env d t key :
  upd_private upd = true → ticket d = Some t → jira_main t = Some key → key ≠ [] →
  fst (env_jira_transitions env) = Some [] →
  on_callback upd env (u "act|close|" ++ ticket_id t) d
  = Some (d, [AnswerQuery; EditMessage T_progress_closing_issue None;
              JiraGetTransitions key;
              EditMessage (_html_escape T_jira_no_transitions) None]).
Proof.
  intros Hp Ht Hj Hk Htr.
  change (u "act|close|" ++ ticket_id t) with (u "act|" ++ (u "close|" ++ ticket_id t)).
  rewrite (on_callback_act _ _ _ _ t Hp Ht).
  change (u "act|" ++ (u "close|" ++ ticket_id t)) with (u "act|close|" ++ ticket_id t).
  unfold on_act. rewrite split_act_close, eqs_refl. simpl negb. cbv iota.
  change (eqs (u "close") (u "ra")) with false.
  change (eqs (u "close") (u "close")) with true. cbv iota.
  rewrite Hj. destruct key as [|c key]; [destruct Hk; reflexivity|].
  destruct (env_jira_transitions env) as [trs err]. simpl in Htr. subst trs.
  rewrite close_empty.
  assert (∃ c0 e0, T_jira_no_transitions = c0 :: e0) as (c0 & e0 & He)
    by (vm_compute; eauto).
  rewrite He. reflexivity.
Qed.

End CloseSelection.

(** C5. With the transitions the tracker lists, each with a non-empty
    id, the close operation applies the first one whose name or target
    status name is a preferred label; when none is, the last one listed;
    and for an empty list it returns the "no transitions" error without a
    transition call. In that last case the close action of the engine
    leaves the draft, and so the ticket, as it was: it acknowledges the
    query, shows the progress text, reads the transitions and shows the
    error. *)
Theorem close_selects_transition `{PyUnicode} `{Config} :
  (∀ pre tr post err i,
      Forall (λ x, ¬ preferred x) pre → preferred tr → tr_id tr = Some i → i ≠ [] →
      close_issue_by_best_transition (Some (pre ++ tr :: post), err) = CloseTransition i)
  ∧ (∀ transitions tr err i,
      Forall (λ x, ¬ preferred x) transitions → last transitions = Some tr →
      tr_id tr = Some i → i ≠ [] →
      close_issue_by_best_transition (Some transitions, err) = CloseTransition i)
  ∧ (∀ err,
      close_issue_by_best_transition (Some [], err) = CloseError T_jira_no_transitions)
  ∧ (∀ upd env d t key,
      upd_private upd = true → ticket d = Some t → jira_main t = Some key → key ≠ [] →
      fst (env_jira_transitions env) = Some [] →
      on_callback upd env (u "act|close|" ++ ticket_id t) d
      = Some (d, [AnswerQuery; EditMessage T_progress_closing_issue None;
                  JiraGetTransitions key;
                  EditMessage (_html_escape T_jira_no_transitions) None])).
Proof.
  split; [|split; [|split]].
  - intros. eapply close_first; eassumption.
  - intros. eapply close_last; eassumption.
  - apply close_empty.
  - intros. eapply on_callback_close_empty; eassumption.
Qed.

Lemma close_selects_transition_witness :
  @close_issue_by_best_transition latin_cyrillic
    (Some [mkTransition (Some (u "11")) (Some (u "In Progress"))
             (Some (mkTransitionTo (Some (u "In Progress"))));
           mkTransition (Some (u "31")) (Some (u "Finish"))
             (Some (mkTransitionTo (Some (u "Done"))));
           mkTransition (Some (u "41")) (Some (u "Closed")) None], None)
  = CloseTransition (u "31")
  ∧ @on_callback latin_cyrillic sample_config sample_update sample_env
      (u "act|close|" ++ ticket_id (with_jira_main (Some (u "RA-7")) sample_ticket))
      (mkDraft (Some (with_jira_main (Some (u "RA-7")) sample_ticket)) 8 false
         PRIMARY_MODE false)
    = Some (mkDraft (Some (with_jira_main (Some (u "RA-7")) sample_ticket)) 8 false
              PRIMARY_MODE false,
            [AnswerQuery; EditMessage T_progress_closing_issue None;
             JiraGetTransitions (u "RA-7");
             EditMessage (_html_escape T_jira_no_transitions) None]).
Proof.
  split.
  - apply (proj1 (@close_selects_transition latin_cyrillic sample_config)
             [mkTransition (Some (u "11")) (Some (u "In Progress"))
                (Some (mkTransitionTo (Some (u "In Progress"))))]
             (mkTransition (Some (u "31")) (Some (u "Finish"))
                (Some (mkTransitionTo (Some (u "Done")))))
             [mkTransition (Some (u "41")) (Some (u "Closed")) None] None (u "31")).
    + apply Forall_cons. split; [|apply Forall_nil_2].
      intros [Hin|Hin]; revert Hin;
        apply (bool_decide_eq_false_1 (_ ∈ _)); vm_compute; reflexivity.
    + right. apply (bool_decide_eq_true_1 (_ ∈ _)). vm_compute. reflexivity.
    + reflexivity.
    + vm_compute. discriminate.
  - apply (proj2 (proj2 (proj2 (@close_selects_transition latin_cyrillic sample_config)))
             sample_update sample_env _ _ (u "RA-7")); try reflexivity.
    vm_compute. discriminate.
Defined.

(** ** The counts stay non-negative *)

Section Counts.
Context `{PyUnicode} `{Config}.







End Counts.
Section CountsHandlers.
Context `{PyUnicode} `{Config}.





End CountsHandlers.
Section CountsCallbacks.
Context `{PyUnicode} `{Config}.









End CountsCallbacks.

Section CountsInvariant.
Context `{PyUnicode} `{Config}.





End CountsInvariant.



(** ** Skipping a field *)

Section Skip.
Context `{PyUnicode} `{Config}.

Lemma known_keys_no_bar key : key ∈ ALL_KNOWN_KEYS → bar ∉ key.
Proof.
  intros Hk.
  assert (Forall (λ k : pystr, bar ∉ k) ALL_KNOWN_KEYS) as Hall.
  { apply (bool_decide_eq_true_1 (Forall _ _)). vm_compute. reflexivity. }
  eapply Forall_forall in Hall; eassumption.
Qed.

Lemma known_keys_not_chat key : key ∈ ALL_KNOWN_KEYS → key ≠ u "ra_chat_id".
Proof.
  intros Hk ->. revert Hk.
  apply (bool_decide_eq_false_1 (_ ∈ _)). vm_compute. reflexivity.
Qed.

(** The assignment of skip is idempotent. *)
Lemma skip_assign_idempotent t key ts :
  skip_assign t key = Some ts → skip_assign ts key = Some ts.
Proof.
  unfold skip_assign, set_field_local, setattr, with_ticket_id_opt, with_created_at_opt.
  destruct (eqs key (u "dtp_vehicles")); [intros [= <-]; reflexivity|].
  repeat case_decide; intros [= <-]; reflexivity.
Qed.

Lemma skip_assign_chat t key ts c :
  skip_assign t key = Some ts → key ≠ u "ra_chat_id" →
  skip_assign (with_ra_chat_id c t) key = Some (with_ra_chat_id c ts).
Proof.
  unfold skip_assign, set_field_local, setattr, with_ticket_id_opt, with_created_at_opt.
  destruct (eqs key (u "dtp_vehicles")); [intros [= <-]; reflexivity|].
  repeat case_decide; intros [= <-] Hne; try reflexivity. congruence.
Qed.

Lemma skip_assign_known t key :
  key ∈ ALL_KNOWN_KEYS →
  ∃ ts, skip_assign t key = Some ts
        ∧ (key = u "dtp_vehicles" → dtp_vehicles ts = ∅)
        ∧ (key ≠ u "dtp_vehicles" → getattr ts key = Some None).
Proof.
  intros Hk. apply list_elem_of_In in Hk. unfold ALL_KNOWN_KEYS in Hk.
  repeat (destruct Hk as [<-|Hk]); [..|destruct Hk];
    (eexists; split; [vm_compute; reflexivity|]);
    (split; [intros Hd; try reflexivity; exfalso; revert Hd; vm_compute; discriminate
            | intros Hd; try reflexivity; exfalso; apply Hd; reflexivity]).
Qed.

End Skip.
Section SkipTwice.
Context `{PyUnicode} `{Config}.

Lemma with_ra_chat_id_same t : with_ra_chat_id (ra_chat_id t) t = t.
Proof. destruct t. reflexivity. Qed.

Lemma split_nav_skip key :
  bar ∉ key → py_split_all bar (u "nav|skip|" ++ key) = [u "nav"; u "skip"; key].
Proof.
  intros Hk.
  change (py_split_all bar (u "nav|skip|" ++ key))
    with (u "nav" :: u "skip" :: py_split bar (7 + length key) key).
  rewrite py_split_no_sep by exact Hk. reflexivity.
Qed.

Lemma finish_ra_flow_ticket env d t d' calls :
  finish_ra_flow_if_needed env d t = Some (d', calls) →
  mode d = RA_MODE
  ∧ ∃ t', ticket d' = Some t' ∧ with_ra_chat_id (ra_chat_id t') t = t'.
Proof.
  unfold finish_ra_flow_if_needed, is_ra.
  destruct (mode d); [discriminate|]. simpl negb. cbv iota.
  destruct (negb (is_last_step d)); [discriminate|]. simpl orb. cbv iota.
  destruct (env_create_chat env) as [[link err] chat_id].
  split; [reflexivity|].
  destruct (truthy_int chat_id); [destruct chat_id|]; injection H1 as <- _;
    eexists; (split; [reflexivity|]);
    first [reflexivity | apply with_ra_chat_id_same].
Qed.

(** One skip: the ticket it leaves is the assignment's, but for the chat
    id the completion of the RA questions may set. *)
Lemma skip_result upd env d t key ts :
  upd_private upd = true → ticket d = Some t → bar ∉ key →
  skip_assign t key = Some ts →
  ∃ d1 c1 t1,
    on_callback upd env (u "nav|skip|" ++ key) d = Some (d1, c1)
    ∧ ticket d1 = Some t1
    ∧ with_ra_chat_id (ra_chat_id t1) ts = t1
    ∧ (mode d = PRIMARY_MODE → t1 = ts ∧ mode d1 = PRIMARY_MODE).
Proof.
  intros Hp Ht Hk Hs.
  change (u "nav|skip|" ++ key) with (u "nav|" ++ (u "skip|" ++ key)).
  rewrite (on_callback_nav _ _ _ _ t Hp Ht).
  change (u "nav|" ++ (u "skip|" ++ key)) with (u "nav|skip|" ++ key).
  unfold on_nav. rewrite (split_nav_skip _ Hk).
  change (nth 1 [u "nav"; u "skip"; key] []) with (u "skip").
  change (eqs (u "skip") (u "back")) with false.
  change (eqs (u "skip") (u "skip")) with true. cbv iota.
  rewrite Hs. cbn [mbind option_bind].
  set (d0 := if eqs key (u "incident_source") then _ else with_ticket ts d).
  assert (ticket d0 = Some ts) as Ht0
    by (unfold d0; destruct (eqs key (u "incident_source")); reflexivity).
  assert (mode d0 = mode d) as Hm0
    by (unfold d0; destruct (eqs key (u "incident_source")); reflexivity).
  clearbody d0.
  destruct (finish_ra_flow_if_needed env d0 ts) as [[d1 c1]|] eqn:Ef.
  - apply finish_ra_flow_ticket in Ef as (Hra & t1 & Ht1 & Hrel).
    exists d1, (AnswerQuery :: c1), t1. split; [reflexivity|].
    split; [exact Ht1|]. split; [exact Hrel|]. intros Hm. congruence.
  - destruct (editing d0 || is_last_step d0);
      eexists; eexists; exists ts; (split; [reflexivity|]);
      (split; [exact Ht0|]); (split; [apply with_ra_chat_id_same|]);
      intros Hm; (split; [reflexivity|]); rewrite <- Hm; exact Hm0.
Qed.

End SkipTwice.

(** C8 as amended. For every field of the questionnaire, skip stores the
    neutral value (the empty mapping for the vehicle counts, [None] for
    any other field) and storing it again changes nothing. After one skip
    the ticket is the one this assignment gives, and after a second skip
    of the same field it is the same again, in every field but the chat
    id, which the completion of the RA questions sets when a skip arrives
    on their last step; in primary mode no field differs. *)
Theorem skip_twice `{PyUnicode} `{Config}
  (upd : Update) (env1 env2 : Env) (d : Draft) (t : Ticket) (key : pystr) :
  upd_private upd = true → ticket d = Some t → key ∈ ALL_KNOWN_KEYS →
  ∃ ts d1 c1 t1 d2 c2 t2,
    skip_assign t key = Some ts ∧ skip_assign ts key = Some ts
    ∧ (key = u "dtp_vehicles" → dtp_vehicles ts = ∅)
    ∧ (key ≠ u "dtp_vehicles" → getattr ts key = Some None)
    ∧ on_callback upd env1 (u "nav|skip|" ++ key) d = Some (d1, c1)
    ∧ ticket d1 = Some t1 ∧ with_ra_chat_id (ra_chat_id t1) ts = t1
    ∧ on_callback upd env2 (u "nav|skip|" ++ key) d1 = Some (d2, c2)
    ∧ ticket d2 = Some t2 ∧ with_ra_chat_id (ra_chat_id t2) t1 = t2
    ∧ (mode d = PRIMARY_MODE → t1 = ts ∧ t2 = t1).
Proof.
  intros Hp Ht Hk.
  pose proof (known_keys_no_bar _ Hk) as Hbar.
  destruct (skip_assign_known t key Hk) as (ts & Hs & Hveh & Hother).
  pose proof (skip_assign_idempotent _ _ _ Hs) as Hidem.
  destruct (skip_result upd env1 d t key ts Hp Ht Hbar Hs)
    as (d1 & c1 & t1 & Ho1 & Ht1 & Hrel1 & Hprim1).
  assert (skip_assign t1 key = Some t1) as Hs1.
  { rewrite <- Hrel1. apply skip_assign_chat; [exact Hidem|].
    apply known_keys_not_chat, Hk. }
  destruct (skip_result upd env2 d1 t1 key t1 Hp Ht1 Hbar Hs1)
    as (d2 & c2 & t2 & Ho2 & Ht2 & Hrel2 & Hprim2).
  exists ts, d1, c1, t1, d2, c2, t2.
  repeat (split; [assumption|]).
  intros Hm. destruct (Hprim1 Hm) as [-> Hm1]. split; [reflexivity|].
  apply (Hprim2 Hm1).
Qed.

Lemma skip_twice_witness :
  ∃ ts d1 c1 t1 d2 c2 t2,
    skip_assign sample_ticket (u "incident_time") = Some ts
    ∧ skip_assign ts (u "incident_time") = Some ts
    ∧ (u "incident_time" = u "dtp_vehicles" → dtp_vehicles ts = ∅)
    ∧ (u "incident_time" ≠ u "dtp_vehicles" → getattr ts (u "incident_time") = Some None)
    ∧ @on_callback latin_cyrillic sample_config sample_update sample_env
        (u "nav|skip|" ++ u "incident_time")
        (mkDraft (Some sample_ticket) 2 false PRIMARY_MODE false) = Some (d1, c1)
    ∧ ticket d1 = Some t1 ∧ with_ra_chat_id (ra_chat_id t1) ts = t1
    ∧ @on_callback latin_cyrillic sample_config sample_update sample_env
        (u "nav|skip|" ++ u "incident_time") d1 = Some (d2, c2)
    ∧ ticket d2 = Some t2 ∧ with_ra_chat_id (ra_chat_id t2) t1 = t2
    ∧ (mode (mkDraft (Some sample_ticket) 2 false PRIMARY_MODE false) = PRIMARY_MODE →
       t1 = ts ∧ t2 = t1).
Proof.
  apply (@skip_twice latin_cyrillic sample_config sample_update sample_env sample_env
           (mkDraft (Some sample_ticket) 2 false PRIMARY_MODE false) sample_ticket
           (u "incident_time") eq_refl eq_refl).
  apply (bool_decide_eq_true_1 (_ ∈ _)). vm_compute. reflexivity.
Defined.

(** Two skips of one RA question, the second of which arrives on the
    last RA step: it completes the RA questions and the chat id of the
    ticket changes. *)
Lemma skip_twice_counterexample :
  (@run_callbacks latin_cyrillic sample_config sample_update sample_env
     [u "nav|skip|ra_need_repair"]
     (mkDraft (Some (with_jira_main (Some (u "RA-7")) sample_ticket)) 1 false RA_MODE false)
     ≫= ticket)
  ≠ (@run_callbacks latin_cyrillic sample_config sample_update sample_env
       [u "nav|skip|ra_need_repair"; u "nav|skip|ra_need_repair"]
       (mkDraft (Some (with_jira_main (Some (u "RA-7")) sample_ticket)) 1 false RA_MODE false)
       ≫= ticket).
Proof.
  intros Heq. apply (f_equal (fmap ra_chat_id)) in Heq. vm_compute in Heq. discriminate Heq.
Qed.

(** ** Setting the brand *)

Section Cursor.

Lemma py_index_spec x (l : list pystr) i :
  py_index x l = Some i → (i < length l)%nat ∧ nth i l [] = x.
Proof.
  revert i. induction l as [|y l IH]; intros i; simpl; [discriminate|].
  case_decide as Hy.
  - intros [= <-]. split; [lia | exact Hy].
  - destruct (py_index x l) as [j|]; [|discriminate].
    intros [= <-]. destruct (IH j eq_refl) as [Hlt Hn]. split; [lia | exact Hn].
Qed.

(** After [set_step_idx] to the position of a step, that step is the
    one under the cursor, and the cursor needs no clamping. *)
Lemma cursor_at d i key :
  py_index key (active_steps d) = Some i →
  current_step_key (set_step_idx d (Z.of_nat i)) = (key, set_step_idx d (Z.of_nat i)).
Proof.
  intros Hi. apply py_index_spec in Hi as [Hlt Hn].
  unfold current_step_key, set_step_idx.
  change (active_steps (with_step_idx _ d)) with (active_steps d).
  change (step_idx (with_step_idx ?j d)) with j.
  unfold len in *.
  assert (Z.max 0 (Z.min (Z.of_nat i) (Z.of_nat (length (active_steps d)) - 1))
          = Z.of_nat i) as -> by lia.
  destruct (Z.of_nat (length (active_steps d)) <=? Z.of_nat i) eqn:Hle;
    [apply Z.leb_le in Hle; lia|].
  assert (Z.max 0 (Z.of_nat i) = Z.of_nat i) as -> by lia.
  unfold item. rewrite Nat2Z.id, Hn. reflexivity.
Qed.

Lemma primary_has_plate_vats tk :
  ∃ i, py_index (u "plate_vats") (_steps_for_primary tk) = Some i.
Proof.
  unfold _steps_for_primary, _maybe_add_plate_ref.
  destruct (is_dtp_opt tk), (is_sitrak_opt tk); eexists; vm_compute; reflexivity.
Qed.

Lemma ra_no_plate_vats tk : py_index (u "plate_vats") (_steps_for_ra tk) = None.
Proof. unfold _steps_for_ra. destruct (is_dtp_opt tk); vm_compute; reflexivity. Qed.

End Cursor.

Section Rendering.
Context `{PyUnicode}.

(** With another brand than SITRAK the block has no line for the
    secondary plate: what that field holds is not rendered. *)
Lemma primary_block_ignores_plate_ref t stale :
  brand t ≠ Some (u "SITRAK") →
  primary_block_lines (with_plate_ref stale t) = primary_block_lines t.
Proof.
  intros Hb. unfold primary_block_lines.
  change (brand (with_plate_ref stale t)) with (brand t).
  rewrite (bool_decide_eq_false_2 _ Hb). reflexivity.
Qed.

End Rendering.
Section SetBrand.
Context `{PyUnicode} `{Config}.

Lemma split_set_brand value :
  py_split bar 2 (u "set|brand|" ++ value) = [u "set"; u "brand"; value].
Proof. reflexivity. Qed.

Lemma on_callback_set_brand upd env d t value :
  upd_private upd = true → ticket d = Some t →
  on_callback upd env (u "set|brand|" ++ value) d
  = '(d', calls) ← on_set_field env (u "brand") value d t; Some (d', AnswerQuery :: calls).
Proof.
  intros Hp Ht.
  change (u "set|brand|" ++ value) with (u "set|" ++ (u "brand|" ++ value)).
  rewrite (on_callback_set _ _ _ _ t Hp Ht).
  change (u "set|" ++ (u "brand|" ++ value)) with (u "set|brand|" ++ value).
  unfold on_set. rewrite split_set_brand. reflexivity.
Qed.

(** The brand changes: both plates are cleared and the engine goes to
    the primary-plate step if the active list has it. *)
Lemma set_brand_changed env d t value prev :
  brand t = Some prev → prev ≠ value →
  on_set_field env (u "brand") value d t
  = let t' := with_plate_ref None (with_plate_vats None (with_brand (Some value) t)) in
    match py_index (u "plate_vats") (active_steps (with_ticket t' d)) with
    | Some i =>
        Some (set_step_idx (with_ticket t' d) (Z.of_nat i),
              [EditMessage (tx T_questions "plate_vats")
                 (Some (kb_nav (u "plate_vats") true None))])
    | None => Some (with_ticket t' d, [])
    end.
Proof.
  intros Hb Hne. unfold on_set_field.
  change (negb (bool_decide (u "brand" ∈ ALL_KNOWN_KEYS))) with false.
  change (eqs (u "brand") (u "incident_source")) with false.
  change (eqs (u "brand") (u "brand")) with true.
  change (set_field_local t (u "brand") (Some value)) with (Some (with_brand (Some value) t)).
  cbv beta iota zeta. cbn [andb mbind option_bind]. rewrite Hb.
  apply eqs_false in Hne. rewrite Hne. cbn [negb andb].
  cbv beta iota zeta. reflexivity.
Qed.

End SetBrand.
Section SetOther.
Context `{PyUnicode} `{Config}.

Lemma split_set field_key value :
  bar ∉ field_key →
  py_split bar 2 (u "set|" ++ field_key ++ u "|" ++ value) = [u "set"; field_key; value].
Proof.
  intros Hk.
  change (py_split bar 2 (u "set|" ++ field_key ++ u "|" ++ value))
    with (u "set" :: py_split bar 1 (field_key ++ bar :: value)).
  simpl. rewrite (break_at_app _ _ _ Hk). reflexivity.
Qed.

(** A known field other than the counts can be stored, and storing a
    field other than a plate leaves the plates as they are. *)
Lemma set_field_local_known t key value :
  key ∈ ALL_KNOWN_KEYS → key ≠ u "dtp_vehicles" →
  ∃ t1, set_field_local t key (Some value) = Some t1
        ∧ (key ≠ u "plate_vats" → plate_vats t1 = plate_vats t)
        ∧ (key ≠ u "plate_ref" → plate_ref t1 = plate_ref t)
        ∧ (key ≠ u "brand" → brand t1 = brand t)
        ∧ (key = u "brand" → t1 = with_brand (Some value) t).
Proof.
  intros Hk Hnd. apply list_elem_of_In in Hk. unfold ALL_KNOWN_KEYS in Hk.
  repeat (destruct Hk as [<-|Hk]); [..|destruct Hk];
    try (exfalso; apply Hnd; reflexivity);
    (eexists; split; [vm_compute; reflexivity|]);
    repeat split; intros Hd; try reflexivity;
    first [ exfalso; apply Hd; reflexivity
          | exfalso; revert Hd; vm_compute; discriminate ].
Qed.

(** A set that does not change the brand: the ticket it leaves is the
    one with the value stored, but for the chat id that the completion of
    the RA questions may set; or the ticket as it was when nothing is
    stored. *)
Lemma on_set_field_plates env field_key value d t :
  ticket d = Some t →
  field_key ≠ u "plate_vats" → field_key ≠ u "plate_ref" → field_key ≠ u "dtp_vehicles" →
  (field_key = u "brand" → brand t = None ∨ brand t = Some value) →
  ∃ d' calls t',
    on_set_field env field_key value d t = Some (d', calls)
    ∧ ticket d' = Some t'
    ∧ plate_vats t' = plate_vats t ∧ plate_ref t' = plate_ref t.
Proof.
  intros Ht Hnv Hnr Hnd Hbrand. unfold on_set_field.
  destruct (bool_decide (field_key ∈ ALL_KNOWN_KEYS)) eqn:Hk; cbn [negb];
    [|exists d, [], t; repeat split; exact Ht].
  apply bool_decide_eq_true in Hk.
  destruct (eqs field_key (u "incident_source") && eqs value INCIDENT_SOURCE_CUSTOM_VALUE);
    [eexists; eexists; exists t; repeat split; exact Ht|].
  destruct (set_field_local_known t field_key value Hk Hnd)
    as (t1 & -> & Hv1 & Hr1 & _ & Hb1).
  specialize (Hv1 Hnv). specialize (Hr1 Hnr). cbn [mbind option_bind].
  assert ((eqs field_key (u "brand")
           && match (if eqs field_key (u "brand") then brand t else None) with
              | Some p => negb (eqs p value)
              | None => false
              end) = false) as ->.
  { destruct (eqs field_key (u "brand")) eqn:Eb; [|reflexivity].
    apply eqs_true in Eb. destruct (Hbrand Eb) as [-> | ->]; [reflexivity|].
    rewrite eqs_refl. reflexivity. }
  cbv beta iota zeta.
  set (d1 := with_ticket t1 _).
  assert (ticket d1 = Some t1) as Ht1 by reflexivity. clearbody d1.
  assert (Hdone : ∀ (dd : Draft) (cc : list Effect), ticket dd = Some t1 →
            ∃ d' calls t', Some (dd, cc) = Some (d', calls) ∧ ticket d' = Some t'
                           ∧ plate_vats t' = plate_vats t ∧ plate_ref t' = plate_ref t).
  { intros dd cc Hdd. exists dd, cc, t1. repeat split; assumption. }
  match goal with |- context [match ?j with Some _ => _ | None => _ end] =>
    destruct j end; [apply Hdone; exact Ht1|].
  set (d2 := if eqs field_key (u "incident_type") || eqs field_key (u "brand") then _ else d1).
  assert (ticket d2 = Some t1) as Ht2.
  { unfold d2. destruct (eqs field_key (u "incident_type") || eqs field_key (u "brand"));
      [|exact Ht1].
    unfold current_step_key. cbv beta iota zeta.
    match goal with |- context [if ?b then _ else _] => destruct b end; exact Ht1. }
  clearbody d2.
  destruct (current_step_key d2) as [cur d3] eqn:Ek.
  assert (ticket d3 = Some t1) as Ht3.
  { unfold current_step_key in Ek. injection Ek as _ <-. exact Ht2. }
  clear Ek. cbv beta iota zeta.
  destruct (editing d3 && is_primary d3); [apply Hdone; exact Ht3|].
  match goal with |- context [if ?b then Some (d3, [edit_preview t1]) else _] =>
    destruct b end; [apply Hdone; exact Ht3|].
  match goal with |- context [match ?f with Some r => Some r | None => _ end] =>
    destruct f as [[d4 c4]|] eqn:Ef end.
  { match type of Ef with
    | (if ?b then _ else _) = _ => destruct b; [|discriminate Ef]
    end.
    apply finish_ra_flow_ticket in Ef as (_ & t4 & Ht4 & Hrel).
    exists d4, c4, t4. split; [reflexivity|]. split; [exact Ht4|].
    rewrite <- Hrel. split; assumption. }
  match goal with |- context [if ?b then goto_next_step d3 else d3] => destruct b end;
    unfold current_step_key; cbv beta iota zeta; apply Hdone; exact Ht3.
Qed.

End SetOther.

(** C3 as amended. A set of the brand to a value other than its
    previous non-null value stores the value and clears both plates; in
    primary mode it also puts the cursor on the primary-plate step (in RA
    mode, whose step list has no plate step, the cursor stays where it
    was). When the new brand is not SITRAK, the primary block rendered
    from the new ticket is the same whatever the secondary-plate field
    holds: it has no line for it. A set of the brand that does not change
    it, and a set of any field other than the brand and the plates (the
    counts take no set), leaves both plates as they were. *)
Theorem brand_change_clears_plates `{PyUnicode} `{Config}
  (upd : Update) (env : Env) (d : Draft) (t : Ticket) :
  upd_private upd = true → ticket d = Some t →
  (∀ value prev,
      brand t = Some prev → prev ≠ value →
      ∃ d' calls t',
        on_callback upd env (u "set|brand|" ++ value) d = Some (d', calls)
        ∧ ticket d' = Some t'
        ∧ brand t' = Some value ∧ plate_vats t' = None ∧ plate_ref t' = None
        ∧ (mode d = PRIMARY_MODE → current_step_key d' = (u "plate_vats", d'))
        ∧ (mode d = RA_MODE → step_idx d' = step_idx d)
        ∧ (value ≠ u "SITRAK" →
           ∀ stale, primary_block_lines (with_plate_ref stale t') = primary_block_lines t'))
  ∧ (∀ value,
      brand t = None ∨ brand t = Some value →
      ∃ d' calls t',
        on_callback upd env (u "set|brand|" ++ value) d = Some (d', calls)
        ∧ ticket d' = Some t'
        ∧ plate_vats t' = plate_vats t ∧ plate_ref t' = plate_ref t)
  ∧ (∀ field_key value,
      bar ∉ field_key →
      field_key ∉ [u "brand"; u "plate_vats"; u "plate_ref"; u "dtp_vehicles"] →
      ∃ d' calls t',
        on_callback upd env (u "set|" ++ field_key ++ u "|" ++ value) d = Some (d', calls)
        ∧ ticket d' = Some t'
        ∧ plate_vats t' = plate_vats t ∧ plate_ref t' = plate_ref t).
Proof.
  intros Hp Ht. split; [|split].
  - intros value prev Hb Hne.
    rewrite (on_callback_set_brand _ _ _ t _ Hp Ht), (set_brand_changed _ _ _ _ _ Hb Hne).
    cbv zeta.
    set (t' := with_plate_ref None (with_plate_vats None (with_brand (Some value) t))).
    assert (Hrender : value ≠ u "SITRAK" →
              ∀ stale, primary_block_lines (with_plate_ref stale t') = primary_block_lines t').
    { intros Hv stale. apply primary_block_ignores_plate_ref. simpl. congruence. }
    destruct (mode d) eqn:Hm.
    + destruct (primary_has_plate_vats (Some t')) as [i Hi].
      assert (py_index (u "plate_vats") (active_steps (with_ticket t' d)) = Some i) as Hi'.
      { unfold active_steps. simpl. rewrite Hm. exact Hi. }
      rewrite Hi'. cbn [mbind option_bind].
      eexists. eexists. exists t'. split; [reflexivity|].
      split; [reflexivity|]. split; [reflexivity|]. split; [reflexivity|].
      split; [reflexivity|]. split; [intros _; apply cursor_at, Hi'|].
      split; [discriminate | exact Hrender].
    + assert (py_index (u "plate_vats") (active_steps (with_ticket t' d)) = None) as Hi'.
      { unfold active_steps. simpl. rewrite Hm. apply ra_no_plate_vats. }
      rewrite Hi'. cbn [mbind option_bind].
      eexists. eexists. exists t'. split; [reflexivity|].
      split; [reflexivity|]. split; [reflexivity|]. split; [reflexivity|].
      split; [reflexivity|]. split; [discriminate|].
      split; [reflexivity | exact Hrender].
  - intros value Hb.
    rewrite (on_callback_set_brand _ _ _ t _ Hp Ht).
    destruct (on_set_field_plates env (u "brand") value d t Ht) as (d' & calls & t' & -> & Hr);
      try (vm_compute; discriminate); [intros _; exact Hb|].
    cbn [mbind option_bind]. eexists. eexists. exists t'. split; [reflexivity | exact Hr].
  - intros field_key value Hbar Hnot.
    rewrite (on_callback_set _ _ _ _ t Hp Ht).
    unfold on_set. rewrite (split_set _ _ Hbar).
    apply not_elem_of_cons in Hnot as [Hn1 Hnot].
    apply not_elem_of_cons in Hnot as [Hn2 Hnot].
    apply not_elem_of_cons in Hnot as [Hn3 Hnot].
    apply not_elem_of_cons in Hnot as [Hn4 _].
    destruct (on_set_field_plates env field_key value d t Ht Hn2 Hn3 Hn4)
      as (d' & calls & t' & -> & Hr); [intros Hb; destruct (Hn1 Hb)|].
    cbn [mbind option_bind]. eexists. eexists. exists t'. split; [reflexivity | exact Hr].
Qed.

(** A ticket of a Sitrak with both plates answered. *)
Lemma brand_change_clears_plates_witness :
  ∃ d' calls t',
    @on_callback latin_cyrillic sample_config sample_update sample_env
      (u "set|brand|" ++ u "KIA_CEED")
      (mkDraft
         (Some (with_plate_ref (Some (u "АВ123477"))
                  (with_plate_vats (Some (u "А1234ВС77"))
                     (with_brand (Some (u "SITRAK")) sample_ticket))))
         2 true PRIMARY_MODE false) = Some (d', calls)
    ∧ ticket d' = Some t'
    ∧ brand t' = Some (u "KIA_CEED") ∧ plate_vats t' = None ∧ plate_ref t' = None
    ∧ current_step_key d' = (u "plate_vats", d').
Proof.
  destruct (proj1 (@brand_change_clears_plates latin_cyrillic sample_config sample_update
                     sample_env
                     (mkDraft
                        (Some (with_plate_ref (Some (u "АВ123477"))
                                 (with_plate_vats (Some (u "А1234ВС77"))
                                    (with_brand (Some (u "SITRAK")) sample_ticket))))
                        2 true PRIMARY_MODE false) _ eq_refl eq_refl)
              (u "KIA_CEED") (u "SITRAK") eq_refl)
    as (d' & calls & t' & Ho & Ht & Hb & Hv & Hr & Hcur & _).
  - vm_compute. discriminate.
  - exists d', calls, t'. repeat (split; [assumption|]). apply Hcur. reflexivity.
Defined.

(** In RA mode the brand is set to another value through a keyboard
    of an earlier message: the plates are cleared, but the step under the
    cursor is an RA question, not the primary plate. *)
Lemma brand_change_counterexample :
  draft_after
    (@on_callback latin_cyrillic sample_config sample_update sample_env
       (u "set|brand|SITRAK")
       (mkDraft
          (Some (with_jira_main (Some (u "RA-7"))
                   (with_plate_vats (Some (u "А123ВС77"))
                      (with_brand (Some (u "KIA_CEED")) sample_ticket))))
          0 false RA_MODE false))
  ≫= (λ d', Some (fst (current_step_key d'), plate_vats <$> ticket d'))
  = Some (u "ra_need_diagnosis", Some None).
Proof. vm_compute. reflexivity. Qed.

(** ** Answers while editing *)

Section EditingText.
Context `{PyUnicode} `{Config}.

Lemma dict_get_elem {A} (dct : list (pystr * A)) key v :
  dict_get dct key = Some v → (key, v) ∈ dct.
Proof.
  induction dct as [|[k a] dct IH]; simpl; [discriminate|].
  case_decide as Hk.
  - intros [= <-]. subst k. apply list_elem_of_here.
  - intros Hg. apply list_elem_of_further, IH, Hg.
Qed.

(** The step a kind of input belongs to. *)
Lemma step_kind_key key kind :
  dict_get STEP_INPUT_KIND key = Some kind →
  key ∈ ALL_KNOWN_KEYS
  ∧ match kind with
    | KPlate => key = u "plate_vats"
    | KPlateRef => key = u "plate_ref"
    | KCounter => key = u "dtp_vehicles"
    | KText => key ≠ u "plate_vats" ∧ key ≠ u "dtp_vehicles" ∧ key ≠ u "incident_source"
    | KChoice => key ≠ u "plate_vats" ∧ key ≠ u "dtp_vehicles"
    end.
Proof.
  intros Hg. apply dict_get_elem, list_elem_of_In in Hg. unfold STEP_INPUT_KIND in Hg.
  repeat (destruct Hg as [[= <- <-]|Hg]); [..|destruct Hg];
    (split; [apply (bool_decide_eq_true_1 (_ ∈ _)); vm_compute; reflexivity|]);
    first [reflexivity | repeat split; vm_compute; discriminate].
Qed.

Lemma nonempty_Some o v : nonempty o = Some v → o = Some v ∧ ∃ c s, v = c :: s.
Proof.
  destruct o as [[|c s]|]; simpl; try discriminate.
  intros [= <-]. split; [reflexivity|]. eexists; eexists; reflexivity.
Qed.

Lemma primary_has_plate_ref tk :
  is_sitrak_opt tk = true →
  ∃ i, py_index (u "plate_ref") (_steps_for_primary tk) = Some i.
Proof.
  intros Hs. unfold _steps_for_primary, _maybe_add_plate_ref. rewrite Hs.
  destruct (is_dtp_opt tk); eexists; vm_compute; reflexivity.
Qed.

(** A stored text answer in editing: preview, flag cleared. *)
Lemma after_text_answer_editing upd d t :
  editing d = true → mode d = PRIMARY_MODE →
  after_text_answer upd d t = (with_editing false d, [send_preview (upd_chat_id upd) t]).
Proof.
  intros He Hm. unfold after_text_answer, is_primary. rewrite He, Hm. reflexivity.
Qed.

Lemma on_text_editing upd env msg d t v :
  upd_private upd = true → ticket d = Some t →
  editing d = true → mode d = PRIMARY_MODE →
  text_answer d t msg = Some v →
  ∃ t' d' calls,
    set_field_local t (fst (current_step_key d)) (Some v) = Some t'
    ∧ on_text upd env msg d = Some (d', calls)
    ∧ ticket d' = Some t'
    ∧ if eqs (fst (current_step_key d)) (u "plate_vats") && lacks_plate_ref t
      then editing d' = true
           ∧ current_step_key d' = (u "plate_ref", d')
           ∧ calls = [SendMessage (upd_chat_id upd) (tx T_questions "plate_ref")
                        (Some (kb_nav (u "plate_ref") true (Some false)))]
      else editing d' = false ∧ calls = [send_preview (upd_chat_id upd) t'].
Proof.
  intros Hp Ht He Hm Hv. unfold text_answer in Hv. unfold on_text.
  rewrite Hp, Ht. simpl negb. cbv iota.
  destruct (current_step_key d) as [key d1] eqn:Ek. cbn [fst] in *.
  assert (ticket d1 = Some t ∧ editing d1 = true ∧ mode d1 = PRIMARY_MODE
          ∧ _is_incident_source_custom_mode d1 = _incident_source_custom_input d)
    as (Ht1 & He1 & Hm1 & Hc1).
  { unfold current_step_key in Ek. injection Ek as _ <-. repeat split; assumption. }
  clear Ek. rewrite Hc1. cbv zeta.
  destruct (dict_get STEP_INPUT_KIND key) as [kind|] eqn:Ekind; [|discriminate Hv].
  destruct (step_kind_key _ _ Ekind) as [Hknown Hkey].
  assert (Hstore : ∀ flag (c : N) (s : pystr),
            key ≠ u "plate_vats" → key ≠ u "dtp_vehicles" → v = c :: s →
            ∃ t' d' calls,
              set_field_local t key (Some v) = Some t'
              ∧ (t0 ← set_field_local t key (Some (c :: s));
                 Some (after_text_answer upd
                         (if flag : bool
                          then _set_incident_source_custom_mode (with_ticket t0 d1) false
                          else with_ticket t0 d1) t0)) = Some (d', calls)
              ∧ ticket d' = Some t'
              ∧ if eqs key (u "plate_vats") && lacks_plate_ref t
                then editing d' = true
                     ∧ current_step_key d' = (u "plate_ref", d')
                     ∧ calls = [SendMessage (upd_chat_id upd) (tx T_questions "plate_ref")
                                  (Some (kb_nav (u "plate_ref") true (Some false)))]
                else editing d' = false ∧ calls = [send_preview (upd_chat_id upd) t']).
  { intros flag c s Hnv Hnd ->.
    destruct (set_field_local_known t key (c :: s) Hknown Hnd) as (t1 & Hs & _).
    rewrite Hs. cbn [mbind option_bind].
    apply eqs_false in Hnv. rewrite Hnv. cbn [andb].
    rewrite after_text_answer_editing by (destruct flag; assumption).
    eexists. eexists. eexists. split; [reflexivity|]. split; [reflexivity|].
    split; [destruct flag; reflexivity|]. split; [destruct flag; reflexivity|reflexivity]. }
  destruct kind.
  - (* a choice step in free-text mode *)
    cbn [is_text orb] in *. destruct Hkey as [Hnv Hnd].
    destruct (eqs key (u "incident_source") && _incident_source_custom_input d);
      [|discriminate Hv].
    apply nonempty_Some in Hv as [[= Hs] (c & s & ->)]. rewrite Hs.
    apply (Hstore true c s Hnv Hnd eq_refl).
  - (* the primary plate *)
    subst key. apply nonempty_Some in Hv as [Hn (c & s & ->)]. rewrite Hn.
    change (set_field_local t (u "plate_vats") (Some (c :: s)))
      with (Some (with_plate_vats (Some (c :: s)) t)).
    cbn [mbind option_bind]. rewrite eqs_refl. cbn [andb].
    change (editing (with_ticket ?a d1)) with (editing d1).
    unfold is_primary at 1. change (mode (with_ticket ?a d1)) with (mode d1).
    rewrite He1, Hm1. cbn [andb].
    change (brand (with_plate_vats ?a t)) with (brand t).
    change (plate_ref (with_plate_vats ?a t)) with (plate_ref t).
    unfold lacks_plate_ref.
    destruct (bool_decide (brand t = Some (u "SITRAK")) && negb (truthy (plate_ref t)))
      eqn:Hlack.
    + apply andb_true_iff in Hlack as [Hb _].
      destruct (primary_has_plate_ref (Some (with_plate_vats (Some (c :: s)) t)) Hb)
        as [i Hi].
      assert (py_index (u "plate_ref")
                (active_steps (with_ticket (with_plate_vats (Some (c :: s)) t) d1)) = Some i)
        as Hi' by (unfold active_steps; simpl; rewrite Hm1; exact Hi).
      rewrite Hi'.
      eexists. eexists. eexists. split; [reflexivity|]. split; [reflexivity|].
      split; [reflexivity|]. split; [exact He1|]. split; [apply cursor_at, Hi'|reflexivity].
    + rewrite after_text_answer_editing by assumption.
      eexists. eexists. eexists. split; [reflexivity|]. split; [reflexivity|].
      split; [reflexivity|]. split; reflexivity.
  - (* the secondary plate *)
    subst key. apply nonempty_Some in Hv as [Hn (c & s & ->)]. rewrite Hn.
    change (set_field_local t (u "plate_ref") (Some (c :: s)))
      with (Some (with_plate_ref (Some (c :: s)) t)).
    cbn [mbind option_bind].
    change (eqs (u "plate_ref") (u "plate_vats")) with false. cbn [andb].
    rewrite after_text_answer_editing by assumption.
    eexists. eexists. eexists. split; [reflexivity|]. split; [reflexivity|].
    split; [reflexivity|]. split; reflexivity.
  - (* the counter takes no text *)
    subst key. cbn [is_text orb] in Hv.
    change (eqs (u "dtp_vehicles") (u "incident_source")) with false in Hv.
    discriminate Hv.
  - (* a text step *)
    cbn [is_text orb] in *. destruct Hkey as (Hnv & Hnd & Hni).
    apply nonempty_Some in Hv as [[= Hs] (c & s & ->)]. rewrite Hs.
    apply eqs_false in Hni. rewrite Hni. cbn [andb].
    apply (Hstore false c s Hnv Hnd eq_refl).
Qed.

End EditingText.
Section EditingSet.
Context `{PyUnicode} `{Config}.

Lemma on_set_field_editing env field_key value d t t1 :
  editing d = true → mode d = PRIMARY_MODE →
  field_key ∈ ALL_KNOWN_KEYS →
  eqs field_key (u "incident_source") && eqs value INCIDENT_SOURCE_CUSTOM_VALUE = false →
  set_field_local t field_key (Some value) = Some t1 →
  ∃ d' calls,
    on_set_field env field_key value d t = Some (d', calls)
    ∧ if brand_changes t field_key value
      then editing d' = true
           ∧ ticket d' = Some (with_plate_ref None (with_plate_vats None t1))
           ∧ current_step_key d' = (u "plate_vats", d')
      else if eqs field_key (u "brand") && lacks_plate_ref t1
      then editing d' = true ∧ ticket d' = Some t1
           ∧ current_step_key d' = (u "plate_ref", d')
      else editing d' = false ∧ ticket d' = Some t1 ∧ calls = [edit_preview t1].
Proof.
  intros He Hm Hk Hcustom Hs. unfold on_set_field.
  rewrite (bool_decide_eq_true_2 _ Hk), Hcustom. cbn [negb].
  set (d0 := if eqs field_key (u "incident_source") then _ else d).
  assert (editing d0 = true ∧ mode d0 = PRIMARY_MODE) as [He0 Hm0]
    by (unfold d0; destruct (eqs field_key (u "incident_source")); split; assumption).
  clearbody d0. rewrite Hs. cbn [mbind option_bind].
  assert ((eqs field_key (u "brand")
           && match (if eqs field_key (u "brand") then brand t else None) with
              | Some p => negb (eqs p value)
              | None => false
              end) = brand_changes t field_key value) as ->.
  { unfold brand_changes. destruct (eqs field_key (u "brand")); reflexivity. }
  destruct (brand_changes t field_key value) eqn:Hbc; cbv beta iota zeta; cbn [negb andb].
  - set (t2 := with_plate_ref None (with_plate_vats None t1)).
    destruct (primary_has_plate_vats (Some t2)) as [i Hi].
    assert (py_index (u "plate_vats") (active_steps (with_ticket t2 d0)) = Some i) as Hi'
      by (unfold active_steps; simpl; rewrite Hm0; exact Hi).
    rewrite Hi'. eexists. eexists. split; [reflexivity|].
    split; [exact He0|]. split; [reflexivity|]. apply cursor_at, Hi'.
  - change (editing (with_ticket t1 d0)) with (editing d0).
    unfold is_primary at 1. change (mode (with_ticket t1 d0)) with (mode d0).
    rewrite He0, Hm0. cbn [andb].
    assert (eqs field_key (u "brand") && eqs value (u "SITRAK")
            && negb (truthy (plate_ref t1))
            = eqs field_key (u "brand") && lacks_plate_ref t1) as ->.
    { destruct (eqs field_key (u "brand")) eqn:Eb; [|reflexivity]. cbn [andb].
      apply eqs_true in Eb. subst field_key.
      change (set_field_local t (u "brand") (Some value))
        with (Some (with_brand (Some value) t)) in Hs.
      injection Hs as <-. unfold lacks_plate_ref. f_equal.
      unfold eqs. apply bool_decide_ext. simpl. split; congruence. }
    destruct (eqs field_key (u "brand") && lacks_plate_ref t1) eqn:Hj.
    + apply andb_true_iff in Hj as [_ Hl]. unfold lacks_plate_ref in Hl.
      apply andb_true_iff in Hl as [Hb _].
      destruct (primary_has_plate_ref (Some t1) Hb) as [i Hi].
      assert (py_index (u "plate_ref") (active_steps (with_ticket t1 d0)) = Some i)
        as Hi' by (unfold active_steps; simpl; rewrite Hm0; exact Hi).
      rewrite Hi'. eexists. eexists. split; [reflexivity|].
      split; [exact He0|]. split; [reflexivity|]. apply cursor_at, Hi'.
    + set (d2 := if eqs field_key (u "incident_type") || eqs field_key (u "brand")
                 then _ else with_ticket t1 d0).
      assert (editing d2 = true ∧ mode d2 = PRIMARY_MODE ∧ ticket d2 = Some t1)
        as (He2 & Hm2 & Ht2).
      { unfold d2.
        destruct (eqs field_key (u "incident_type") || eqs field_key (u "brand"));
          [|repeat split; assumption].
        unfold current_step_key. cbv beta iota zeta.
        match goal with |- context [if bool_decide ?P then _ else _] =>
          destruct (bool_decide P) end; repeat split; assumption. }
      clearbody d2.
      unfold current_step_key at 1. cbv beta iota zeta.
      change (editing (with_step_idx ?a d2)) with (editing d2).
      unfold is_primary. change (mode (with_step_idx ?a d2)) with (mode d2).
      rewrite He2, Hm2. cbn [andb].
      eexists. eexists. split; [reflexivity|].
      split; [reflexivity|]. split; [exact Ht2 | reflexivity].
Qed.

Lemma split_veh_done :
  take 3 (py_split_all bar (u "veh|done") ++ [[]; []]) = [u "veh"; u "done"; []].
Proof. vm_compute. reflexivity. Qed.

Lemma on_callback_veh_done upd env d t :
  upd_private upd = true → ticket d = Some t →
  editing d = true → mode d = PRIMARY_MODE →
  on_callback upd env (u "veh|done") d
  = Some (with_editing false d, [AnswerQuery; edit_preview t]).
Proof.
  intros Hp Ht He Hm.
  change (u "veh|done") with (u "veh|" ++ u "done").
  rewrite (on_callback_veh _ _ _ _ t Hp Ht).
  change (u "veh|" ++ u "done") with (u "veh|done").
  unfold on_veh. rewrite split_veh_done.
  change (eqs (u "done") (u "plus") || eqs (u "done") (u "minus")) with false.
  change (eqs (u "done") (u "done")) with true. cbv iota.
  unfold is_primary. rewrite He, Hm. reflexivity.
Qed.

End EditingSet.

(** C4 as amended. While the editing flag is set in primary mode,
    wherever the cursor is: a valid text or plate answer is stored, and a
    set of a known field to a value is stored, and then the flag is
    cleared and the preview is shown, with these exceptions, in which the
    flag stays set. A set that changes the brand clears the plates and
    puts the cursor on the primary-plate step. A set of the brand that
    leaves a SITRAK without secondary plate, and a valid primary plate for
    such a ticket, put the cursor on the secondary-plate step. An
    increment or decrement of the vehicle counter keeps the flag: the
    counter is left by "done", which clears the flag and shows the
    preview. *)
Theorem editing_answers `{PyUnicode} `{Config}
  (upd : Update) (env : Env) (d : Draft) (t : Ticket) :
  upd_private upd = true → ticket d = Some t →
  editing d = true → mode d = PRIMARY_MODE →
  (∀ msg v,
      text_answer d t msg = Some v →
      ∃ t' d' calls,
        set_field_local t (fst (current_step_key d)) (Some v) = Some t'
        ∧ on_text upd env msg d = Some (d', calls)
        ∧ ticket d' = Some t'
        ∧ if eqs (fst (current_step_key d)) (u "plate_vats") && lacks_plate_ref t
          then editing d' = true
               ∧ current_step_key d' = (u "plate_ref", d')
               ∧ calls = [SendMessage (upd_chat_id upd) (tx T_questions "plate_ref")
                            (Some (kb_nav (u "plate_ref") true (Some false)))]
          else editing d' = false ∧ calls = [send_preview (upd_chat_id upd) t'])
  ∧ (∀ field_key value t1,
      field_key ∈ ALL_KNOWN_KEYS →
      eqs field_key (u "incident_source") && eqs value INCIDENT_SOURCE_CUSTOM_VALUE = false →
      set_field_local t field_key (Some value) = Some t1 →
      ∃ d' calls,
        on_callback upd env (u "set|" ++ field_key ++ u "|" ++ value) d
        = Some (d', AnswerQuery :: calls)
        ∧ if brand_changes t field_key value
          then editing d' = true
               ∧ ticket d' = Some (with_plate_ref None (with_plate_vats None t1))
               ∧ current_step_key d' = (u "plate_vats", d')
          else if eqs field_key (u "brand") && lacks_plate_ref t1
          then editing d' = true ∧ ticket d' = Some t1
               ∧ current_step_key d' = (u "plate_ref", d')
          else editing d' = false ∧ ticket d' = Some t1 ∧ calls = [edit_preview t1])
  ∧ (∀ kind,
      bar ∉ kind →
      editing <$> draft_after (on_callback upd env (u "veh|plus|" ++ kind) d) = Some true
      ∧ editing <$> draft_after (on_callback upd env (u "veh|minus|" ++ kind) d) = Some true)
  ∧ on_callback upd env (u "veh|done") d
    = Some (with_editing false d, [AnswerQuery; edit_preview t]).
Proof.
  intros Hp Ht He Hm. split; [|split; [|split]].
  - intros msg v Hv. apply on_text_editing; assumption.
  - intros field_key value t1 Hk Hcustom Hs.
    rewrite (on_callback_set _ _ _ _ t Hp Ht).
    unfold on_set. rewrite (split_set _ _ (known_keys_no_bar _ Hk)).
    destruct (on_set_field_editing env field_key value d t t1 He Hm Hk Hcustom Hs)
      as (d' & calls & -> & Hcases).
    exists d', calls. split; [reflexivity | exact Hcases].
  - intros kind Hk.
    rewrite (on_callback_veh_plus upd env d t kind Hp Ht Hk),
      (on_callback_veh_minus upd env d t kind Hp Ht Hk).
    simpl. rewrite He. split; reflexivity.
  - apply on_callback_veh_done; assumption.
Qed.

Lemma editing_answers_witness :
  @on_callback latin_cyrillic sample_config sample_update sample_env (u "veh|done")
    (mkDraft (Some (with_incident_type (Some (u "DTP")) sample_ticket)) 5 true
       PRIMARY_MODE false)
  = Some (with_editing false
            (mkDraft (Some (with_incident_type (Some (u "DTP")) sample_ticket)) 5 true
               PRIMARY_MODE false),
          [AnswerQuery;
           @edit_preview latin_cyrillic
             (with_incident_type (Some (u "DTP")) sample_ticket)]).
Proof.
  exact (proj2 (proj2 (proj2
           (@editing_answers latin_cyrillic sample_config sample_update sample_env
              (mkDraft (Some (with_incident_type (Some (u "DTP")) sample_ticket)) 5 true
                 PRIMARY_MODE false)
              (with_incident_type (Some (u "DTP")) sample_ticket)
              eq_refl eq_refl eq_refl eq_refl)))).
Defined.

(** The primary plate of a Sitrak without secondary plate is edited: a
    valid plate is stored, the flag stays set and the step under the cursor
    is the secondary plate. *)
Lemma editing_answers_counterexample :
  draft_after
    (@on_text latin_cyrillic sample_update sample_env (u "а123вс77")
       (mkDraft (Some (with_brand (Some (u "SITRAK")) sample_ticket)) 3 true
          PRIMARY_MODE false))
  ≫= (λ d', Some (editing d', plate_vats <$> ticket d', fst (current_step_key d')))
  = Some (true, Some (Some (u "А123ВС77")), u "plate_ref").
Proof. vm_compute. reflexivity. Qed.

(** ** Where the typed ticket ends

    A handler run is [None] only for a token that no keyboard of the
    engine carries: a skip of [id], [created_at] or [user_id], or a set of
    the vehicle counts to a string. *)

Section Total.
Context `{PyUnicode} `{Config}.

Lemma setattr_None t key val :
  setattr t key val = None →
  key ∈ [u "id"; u "created_at"; u "user_id"; u "ra_chat_id"; u "dtp_vehicles"].
Proof.
  unfold setattr, with_ticket_id_opt, with_created_at_opt.
  repeat case_decide; try discriminate; intros _; subst key;
    apply (bool_decide_eq_true_1 (_ ∈ _)); vm_compute; reflexivity.
Qed.

Lemma skip_assign_None t key :
  skip_assign t key = None → key ∈ [u "id"; u "created_at"; u "user_id"].
Proof.
  unfold skip_assign, set_field_local.
  destruct (eqs key (u "dtp_vehicles")) eqn:Ek; [discriminate|].
  apply eqs_false in Ek. rewrite decide_False by exact Ek.
  unfold setattr, with_ticket_id_opt, with_created_at_opt.
  repeat case_decide; try discriminate; intros _; subst key;
    first [ exfalso; apply Ek; reflexivity
          | apply (bool_decide_eq_true_1 (_ ∈ _)); vm_compute; reflexivity ].
Qed.

(** The cursor is always on a step of the active list, and every step
    is a known field. *)
Lemma active_steps_known d key : key ∈ active_steps d → key ∈ ALL_KNOWN_KEYS.
Proof.
  unfold active_steps, _steps_for_primary, _steps_for_ra, _maybe_add_plate_ref.
  intros Hin.
  assert (∀ l : list pystr, bool_decide (l ⊆ ALL_KNOWN_KEYS) = true → key ∈ l →
          key ∈ ALL_KNOWN_KEYS) as Hsub.
  { intros l Hl Hk. apply bool_decide_eq_true_1 in Hl. apply Hl, Hk. }
  destruct (mode d), (is_dtp_opt (ticket d)), (is_sitrak_opt (ticket d));
    (eapply Hsub; [|exact Hin]); vm_compute; reflexivity.
Qed.

Lemma active_steps_length d : (3 ≤ length (active_steps d))%nat.
Proof.
  unfold active_steps, _steps_for_primary, _steps_for_ra, _maybe_add_plate_ref.
  destruct (mode d), (is_dtp_opt (ticket d)), (is_sitrak_opt (ticket d));
    vm_compute; lia.
Qed.

Lemma current_step_key_active d : fst (current_step_key d) ∈ active_steps d.
Proof.
  unfold current_step_key, item. cbn [fst].
  pose proof (active_steps_length d) as Hlen. unfold len.
  set (steps := active_steps d) in *.
  set (idx := Z.max 0 _).
  assert (Z.to_nat idx < length steps)%nat as Hlt.
  { unfold idx. destruct (Z.of_nat (length steps) <=? step_idx d) eqn:Hle.
    - lia.
    - apply Z.leb_gt in Hle. lia. }
  apply list_elem_of_In, nth_In, Hlt.
Qed.

Lemma skip_step_key_Some t d : is_Some (skip_assign t (fst (current_step_key d))).
Proof.
  destruct (skip_assign t (fst (current_step_key d))) eqn:Es; [eexists; reflexivity|].
  exfalso. apply skip_assign_None in Es.
  pose proof (active_steps_known d _ (current_step_key_active d)) as Hk.
  revert Hk. generalize (fst (current_step_key d)) Es. clear.
  intros key Hbad Hk.
  assert (bool_decide (Forall (λ k : pystr, k ∉ [u "id"; u "created_at"; u "user_id"])
                         ALL_KNOWN_KEYS) = true) as Hall
    by (vm_compute; reflexivity).
  apply bool_decide_eq_true_1 in Hall.
  eapply Forall_forall in Hall; [|exact Hk]. exact (Hall Hbad).
Qed.

Lemma on_text_total upd env msg d : is_Some (on_text upd env msg d).
Proof.
  unfold on_text. destruct (negb (upd_private upd)); [eexists; reflexivity|].
  destruct (ticket d) as [t|]; [|eexists; reflexivity].
  pose proof (current_step_key_active d) as Hact.
  destruct (current_step_key d) as [key d1]. cbn [fst] in Hact. cbv zeta.
  destruct (dict_get STEP_INPUT_KIND key) as [kind|] eqn:Ekind; [|eexists; reflexivity].
  destruct (step_kind_key _ _ Ekind) as [Hknown Hkey].
  assert (Hstore : ∀ v, key ≠ u "dtp_vehicles" →
            ∃ t1, set_field_local t key (Some v) = Some t1).
  { intros v Hnd. destruct (set_field_local_known t key v Hknown Hnd) as (t1 & Hs & _).
    exists t1. exact Hs. }
  destruct kind.
  - cbn [is_text orb].
    destruct (eqs key (u "incident_source") && _is_incident_source_custom_mode d1);
      [|eexists; reflexivity].
    destruct (strip msg) as [|c s]; [eexists; reflexivity|].
    destruct (Hstore (c :: s) (proj2 Hkey)) as [t1 ->]. eexists; reflexivity.
  - destruct (normalize_vats_plate (strip msg) (brand t)) as [[|c n]|];
      try (eexists; reflexivity).
    subst key. destruct (Hstore (c :: n)) as [t1 ->]; [vm_compute; discriminate|].
    cbn [mbind option_bind].
    match goal with |- context [match ?j with Some _ => _ | None => _ end] =>
      destruct j end; eexists; reflexivity.
  - destruct (normalize_ref_plate (strip msg)) as [[|c n]|]; try (eexists; reflexivity).
    subst key. destruct (Hstore (c :: n)) as [t1 ->]; [vm_compute; discriminate|].
    eexists; reflexivity.
  - subst key. cbn [is_text orb].
    change (eqs (u "dtp_vehicles") (u "incident_source")) with false.
    eexists; reflexivity.
  - cbn [is_text orb]. destruct (strip msg) as [|c s]; [eexists; reflexivity|].
    destruct (Hstore (c :: s) (proj1 (proj2 Hkey))) as [t1 ->]. eexists; reflexivity.
Qed.

Lemma on_callback_None upd env data d :
  on_callback upd env data d = None →
  (startswith (u "nav|") data = true
   ∧ nth 2 (py_split_all bar data) [] ∈ [u "id"; u "created_at"; u "user_id"])
  ∨ (startswith (u "set|") data = true
     ∧ nth 1 (py_split bar 2 data) [] = u "dtp_vehicles").
Proof.
  unfold on_callback. destruct (negb (upd_private upd)); [discriminate|].
  destruct (ticket d) as [t|];
    [|destruct (cmd_start upd env d); discriminate].
  destruct (startswith (u "veh|") data);
    [destruct (on_veh data d t); discriminate|].
  destruct (startswith (u "nav|") data).
  { intros Hn. left. split; [reflexivity|].
    destruct (on_nav env data d t) as [[d1 c1]|] eqn:En; [discriminate Hn|]. clear Hn.
    unfold on_nav in En.
    set (parts := py_split_all bar data) in *.
    destruct (match parts with
              | _ :: _ :: k :: _ => (k, d)
              | _ => current_step_key d
              end) as [cur_key d0] eqn:Ec.
    destruct (eqs (nth 1 parts []) (u "back")).
    { destruct (editing d0 && is_primary d0); [discriminate En|].
      destruct (eqs cur_key (u "incident_source"));
        match type of En with context [py_index ?a ?b] => destruct (py_index a b) end;
        discriminate En. }
    destruct (eqs (nth 1 parts []) (u "skip")); [|discriminate En].
    destruct (skip_assign t cur_key) as [t1|] eqn:Es.
    { exfalso. cbn [mbind option_bind] in En.
      match type of En with context [finish_ra_flow_if_needed env ?dd t1] =>
        destruct (finish_ra_flow_if_needed env dd t1) as [[d2 c2]|] end;
        [discriminate En|].
      match type of En with context [if ?b then Some (?dd, [edit_preview t1]) else _] =>
        destruct b end; discriminate En. }
    destruct parts as [|p0 [|p1 [|p2 ?]]];
      [apply (f_equal fst) in Ec; cbn [fst] in Ec; subst cur_key;
       destruct (skip_step_key_Some t d) as [? Hs]; congruence ..|].
    injection Ec as <- <-. simpl. eapply skip_assign_None, Es. }
  destruct (startswith (u "set|") data).
  { intros Hn. right. split; [reflexivity|].
    destruct (on_set env data d t) as [[d1 c1]|] eqn:En; [discriminate Hn|]. clear Hn.
    unfold on_set in En.
    destruct (py_split bar 2 data) as [|? [|field_key [|value [|? ?]]]];
      try discriminate En.
    simpl. unfold on_set_field in En.
    destruct (bool_decide (field_key ∈ ALL_KNOWN_KEYS)) eqn:Hk; [|discriminate En].
    apply bool_decide_eq_true_1 in Hk. cbn [negb] in En.
    destruct (eqs field_key (u "incident_source") && eqs value INCIDENT_SOURCE_CUSTOM_VALUE);
      [discriminate En|].
    destruct (decide (field_key = u "dtp_vehicles")) as [Hd|Hd]; [exact Hd|].
    exfalso.
    destruct (set_field_local_known t field_key value Hk Hd) as (t1 & Hs & _).
    rewrite Hs in En. cbn [mbind option_bind] in En.
    revert En. cbv beta iota zeta.
    match goal with |- context [match ?j with Some _ => _ | None => _ end] =>
      destruct j end; [discriminate|].
    match goal with |- context [if ?b then match py_index _ _ with _ => _ end else _] =>
      destruct b end.
    { match goal with |- context [py_index ?a ?b] => destruct (py_index a b) end;
        discriminate. }
    match goal with |- context [current_step_key ?dd] =>
      destruct (current_step_key dd) as [cur d3] end.
    destruct (editing d3 && is_primary d3); [discriminate|].
    match goal with |- context [if ?b then Some (d3, _) else _] => destruct b end;
      [discriminate|].
    match goal with |- context [match ?f with Some r => Some r | None => _ end] =>
      destruct f as [[d4 c4]|] end; [discriminate|].
    match goal with |- context [current_step_key ?dd] =>
      destruct (current_step_key dd) as [nk d5] end.
    discriminate. }
  destruct (eqs data (u "summary|edit")); [discriminate|].
  destruct (eqs data (u "edit|cancel")); [discriminate|].
  destruct (startswith (u "edit|field|") data);
    [destruct (on_edit_field data d t); discriminate|].
  destruct (startswith (u "dispatch|") data); [discriminate|].
  destruct (eqs data (u "summary|create")); [destruct (on_create env d t); discriminate|].
  destruct (startswith (u "act|") data); [destruct (on_act env data d t); discriminate|].
  discriminate.
Qed.

End Total.

(** ** The secondary plate *)

Section RefPlates.
Context `{PyUnicode}.

Lemma ref_groups_parts letters2 d4 reg :
  Forall2 in_group REF_COMPACT_RE [letters2; d4; reg]
  ↔ length letters2 = 2%nat ∧ Forall series_letter letters2
    ∧ length d4 = 4%nat ∧ Forall digit d4
    ∧ Forall digit reg ∧ (length reg = 2%nat ∨ length reg = 3%nat).
Proof.
  unfold REF_COMPACT_RE. split.
  - intros Hf.
    apply Forall2_cons_1 in Hf as [H1 Hf]; apply Forall2_cons_1 in Hf as [H2 Hf];
      apply Forall2_cons_1 in Hf as [H3 _].
    apply in_series_group in H1 as [? ?]. destruct H2 as [? ?], H3 as [? ?]. simpl in *.
    repeat split; try assumption; lia.
  - intros (? & ? & ? & ? & ? & ?).
    repeat (apply Forall2_cons; split); try apply Forall2_nil_2.
    + apply in_series_group. split; [assumption | simpl; lia].
    + split; [assumption | simpl; lia].
    + split; [assumption | simpl; lia].
Qed.

Lemma ref_match_inv s ws :
  re_match REF_COMPACT_RE s = Some ws →
  ∃ letters2 d4 reg tail,
    ws = [letters2; d4; reg] ∧ Forall2 in_group REF_COMPACT_RE [letters2; d4; reg]
    ∧ s = (letters2 ++ d4 ++ reg) ++ tail ∧ (tail = [] ∨ tail = [10%N]).
Proof.
  intros Hm. apply re_match_sound in Hm as (Hf & tail & Hs & Het).
  pose proof (Forall2_length _ _ _ Hf) as Hlen.
  destruct ws as [|l2 [|d4 [|reg [|? ?]]]]; try discriminate Hlen.
  exists l2, d4, reg, tail. split; [reflexivity|]. split; [exact Hf|].
  split; [|apply at_end_cases, Het].
  rewrite Hs. simpl. rewrite app_nil_r, !(assoc_L (++)). reflexivity.
Qed.

Lemma ref_match_shape s :
  ref_plate_shape s → is_Some (re_match REF_COMPACT_RE s).
Proof.
  intros (l2 & d4 & reg & -> & Hp).
  apply ref_groups_parts in Hp.
  pose proof (re_match_complete _ _ [] Hp eq_refl) as Hm.
  simpl in Hm. rewrite !app_nil_r in Hm. exact Hm.
Qed.

Lemma normalize_ref_plate_Some text r :
  py_isalnum 10 = false →
  normalize_ref_plate text = Some r
  ↔ text ≠ [] ∧ r = plate_chars text ∧ ref_plate_shape r.
Proof.
  intros Hnl. unfold normalize_ref_plate. split.
  - destruct text as [|c0 text0]; [discriminate|].
    set (text := c0 :: text0).
    destruct (re_match REF_COMPACT_RE (plate_chars text)) as [ws|] eqn:Hm; [|discriminate].
    destruct (ref_match_inv _ _ Hm) as (l2 & d4 & reg & tail & -> & Hp & Hs & Ht).
    intros [= <-]. split; [discriminate|].
    assert (tail = []) as ->.
    { destruct Ht as [->| ->]; [reflexivity|]. exfalso.
      apply (plate_chars_no_newline text Hnl). rewrite Hs.
      apply elem_of_app. right. apply list_elem_of_here. }
    rewrite app_nil_r in Hs. split; [symmetry; exact Hs|].
    exists l2, d4, reg. split; [reflexivity | apply ref_groups_parts, Hp].
  - intros (Hne & -> & Hshape).
    destruct text as [|c0 text0]; [destruct Hne; reflexivity|].
    set (text := c0 :: text0) in *.
    destruct (ref_match_shape _ Hshape) as [ws Hm]. rewrite Hm.
    destruct (ref_match_inv _ _ Hm) as (l2 & d4 & reg & tail & -> & Hp & Hs & Ht).
    assert (tail = []) as ->.
    { destruct Ht as [->| ->]; [reflexivity|]. exfalso.
      apply (plate_chars_no_newline text Hnl). rewrite Hs.
      apply elem_of_app. right. apply list_elem_of_here. }
    rewrite app_nil_r in Hs. rewrite Hs. reflexivity.
Qed.

(** The display of a compact secondary plate without a newline. *)
Lemma format_ref_display_shape r :
  10%N ∉ r → ref_plate_shape r →
  format_ref_display (Some r) = take 6 r ++ u " " ++ drop 6 r
  ∧ (length r = 8%nat ∨ length r = 9%nat).
Proof.
  intros Hnl Hshape.
  destruct (ref_match_shape _ Hshape) as [ws Hm].
  destruct (ref_match_inv _ _ Hm) as (l2 & d4 & reg & tail & -> & Hp & Hs & Ht).
  assert (tail = []) as ->.
  { destruct Ht as [->| ->]; [reflexivity|]. exfalso.
    apply Hnl. rewrite Hs. apply elem_of_app. right. apply list_elem_of_here. }
  rewrite app_nil_r in Hs.
  apply ref_groups_parts in Hp as (Hl2 & _ & Hl4 & _ & _ & Hlr).
  assert (length (l2 ++ d4) = 6%nat) as H6 by (rewrite length_app; lia).
  split.
  - unfold format_ref_display.
    destruct r as [|c0 r0]; [destruct l2; discriminate|].
    rewrite Hm. rewrite Hs, (assoc_L (++) l2 d4 reg).
    rewrite <- H6, take_app_length, drop_app_length.
    rewrite <- !(assoc_L (++)). reflexivity.
  - rewrite Hs, !length_app. lia.
Qed.

End RefPlates.



Section PlateRoundTrip.
Context `{PyUnicode}.

Lemma plate_chars_app a b : plate_chars (a ++ b) = plate_chars a ++ plate_chars b.
Proof.
  unfold plate_chars, translate, upper.
  rewrite flat_map_app, List.filter_app, map_app. reflexivity.
Qed.

Lemma table_get_key tbl c b : table_get tbl c = Some b → c ∈ map fst tbl.
Proof.
  induction tbl as [|[a b'] tbl IH]; simpl; [discriminate|].
  destruct (a =? c)%N eqn:Hac.
  - intros _. apply N.eqb_eq in Hac as ->. apply list_elem_of_here.
  - intros Hg. apply list_elem_of_further, IH, Hg.
Qed.

Lemma plate_chars_fixed s : Forall plate_fixed s → plate_chars s = s.
Proof.
  induction 1 as [|c s (Hu & Ha & Ht) _ IH]; [reflexivity|].
  change (c :: s) with ([c] ++ s). rewrite plate_chars_app, IH. f_equal.
  unfold plate_chars, translate, upper. cbn [flat_map]. rewrite Hu.
  cbn [app List.filter]. rewrite Ha. cbn [map]. rewrite Ht. reflexivity.
Qed.

Lemma series_fixed c : plate_tables_ok → series_letter c → plate_fixed c.
Proof.
  intros (_ & _ & Hser & _) Hc. unfold series_letter in Hc.
  pose proof (proj1 (Forall_forall _ _) Hser c Hc) as (Hu & Ha & _).
  split; [exact Hu|]. split; [exact Ha|].
  revert Hc. generalize c.
  assert (bool_decide (Forall (λ x, table_get LAT_TO_CYR x = None) SERIES_CYR) = true) as Hall
    by (vm_compute; reflexivity).
  apply bool_decide_eq_true_1 in Hall. intros x Hx.
  exact (proj1 (Forall_forall _ _) Hall x Hx).
Qed.

Lemma digit_fixed c : plate_tables_ok → digit c → plate_fixed c.
Proof.
  intros (_ & _ & _ & Hdig & Hkeys) Hc. unfold digit in Hc.
  destruct (Hdig c Hc) as [Hu Ha]. split; [exact Hu|]. split; [exact Ha|].
  destruct (table_get LAT_TO_CYR c) as [b|] eqn:Hg; [|reflexivity].
  apply table_get_key in Hg.
  pose proof (proj1 (Forall_forall _ _) Hkeys c Hg) as Hno. congruence.
Qed.

Lemma plate_chars_space : plate_tables_ok → plate_chars (u " ") = [].
Proof.
  intros (_ & Hsp & _). unfold plate_chars, upper.
  change (u " ") with [32%N]. simpl. rewrite app_nil_r.
  assert (List.filter py_isalnum (py_upper 32) = []) as ->; [|reflexivity].
  induction Hsp as [|c l Hc _ IH]; [reflexivity|]. simpl. rewrite Hc. exact IH.
Qed.

Lemma newline_no_digit : plate_tables_ok → re_digit 10 = false.
Proof.
  intros (Hnl & _ & _ & Hdig & _).
  destruct (re_digit 10) eqn:Hd; [|reflexivity].
  destruct (Hdig _ Hd) as [_ Ha]. congruence.
Qed.

Lemma vats_shape_fixed brand r :
  plate_tables_ok → vats_plate_shape brand r → Forall plate_fixed r.
Proof.
  intros Hok (l1 & d & l2 & reg & -> & _ & H1 & Hd & _ & _ & H2 & Hr & _).
  repeat (apply Forall_app; split).
  - eapply Forall_impl; [exact H1|]. intros c. apply series_fixed, Hok.
  - eapply Forall_impl; [exact Hd|]. intros c. apply digit_fixed, Hok.
  - eapply Forall_impl; [exact H2|]. intros c. apply series_fixed, Hok.
  - eapply Forall_impl; [exact Hr|]. intros c. apply digit_fixed, Hok.
Qed.

Lemma ref_shape_fixed r :
  plate_tables_ok → ref_plate_shape r → Forall plate_fixed r.
Proof.
  intros Hok (l2 & d4 & reg & -> & _ & H2 & _ & H4 & Hr & _).
  repeat (apply Forall_app; split).
  - eapply Forall_impl; [exact H2|]. intros c. apply series_fixed, Hok.
  - eapply Forall_impl; [exact H4|]. intros c. apply digit_fixed, Hok.
  - eapply Forall_impl; [exact Hr|]. intros c. apply digit_fixed, Hok.
Qed.

Lemma plate_chars_spaced a b :
  plate_tables_ok → plate_chars (a ++ u " " ++ b) = plate_chars (a ++ b).
Proof.
  intros Hok. rewrite !plate_chars_app, plate_chars_space by exact Hok. reflexivity.
Qed.

End PlateRoundTrip.

(** X2. An accepted plate reads back as itself: normalizing the compact
    text again, or the text as it is displayed (with the space before the
    region code), gives the same plate, for the primary plate under the
    same brand and for the secondary plate. Assumed of the runtime tables:
    [plate_tables_ok]. *)
Theorem plate_round_trip `{PyUnicode} (text : pystr) (brand : option pystr) (r : pystr) :
  plate_tables_ok →
  (normalize_vats_plate text brand = Some r →
   normalize_vats_plate r brand = Some r
   ∧ normalize_vats_plate (format_vats_display (Some r)) brand = Some r)
  ∧ (normalize_ref_plate text = Some r →
     normalize_ref_plate r = Some r
     ∧ normalize_ref_plate (format_ref_display (Some r)) = Some r).
Proof.
  intros Hok. pose proof Hok as (Hnl & _). split.
  - intros Hn. apply normalize_vats_plate_Some in Hn as (_ & Hr & Hshape); [|exact Hnl].
    pose proof (plate_chars_fixed r (vats_shape_fixed _ _ Hok Hshape)) as Hfix.
    assert (r ≠ []) as Hne.
    { destruct Hshape as (l1 & ? & ? & ? & -> & Hl1 & _). destruct l1; discriminate. }
    split.
    + apply normalize_vats_plate_Some; [exact Hnl|]. split; [exact Hne|].
      split; [symmetry; exact Hfix | exact Hshape].
    + destruct (format_vats_display_shape brand r (newline_no_digit Hok) Hshape)
        as (body & reg & Hbr & _ & _ & Hd).
      apply normalize_vats_plate_Some; [exact Hnl|]. rewrite Hd. split.
      * destruct body; [|discriminate]. discriminate.
      * split; [|exact Hshape].
        rewrite plate_chars_spaced by exact Hok. rewrite <- Hbr. symmetry. exact Hfix.
  - intros Hn. apply normalize_ref_plate_Some in Hn as (_ & Hr & Hshape); [|exact Hnl].
    pose proof (plate_chars_fixed r (ref_shape_fixed _ Hok Hshape)) as Hfix.
    assert (r ≠ []) as Hne.
    { destruct Hshape as (l2 & ? & ? & -> & Hl2 & _). destruct l2; discriminate. }
    split.
    + apply normalize_ref_plate_Some; [exact Hnl|]. split; [exact Hne|].
      split; [symmetry; exact Hfix | exact Hshape].
    + destruct (format_ref_display_shape r) as [Hd _];
        [rewrite Hr; apply plate_chars_no_newline, Hnl | exact Hshape |].
      apply normalize_ref_plate_Some; [exact Hnl|]. rewrite Hd. split.
      * destruct (take 6 r); discriminate.
      * split; [|exact Hshape].
        rewrite plate_chars_spaced by exact Hok. rewrite take_drop. symmetry. exact Hfix.
Qed.

Lemma latin_cyrillic_plate_tables : @plate_tables_ok latin_cyrillic.
Proof.
  split; [reflexivity|]. split; [vm_compute; repeat constructor|].
  split; [vm_compute; repeat constructor|]. split.
  - intros c. cbn [re_digit py_upper py_isalnum latin_cyrillic].
    unfold ascii_digit, latin_cyrillic_upper, latin_cyrillic_isalnum.
    intros Hd. apply andb_true_iff in Hd as [H1 H2].
    apply N.leb_le in H1, H2.
    assert ((48 <=? c)%N = true) as -> by (apply N.leb_le; lia).
    assert ((c <=? 57)%N = true) as -> by (apply N.leb_le; lia).
    assert ((97 <=? c)%N = false) as -> by (apply N.leb_gt; lia).
    assert ((1072 <=? c)%N = false) as -> by (apply N.leb_gt; lia).
    assert ((c =? 1105)%N = false) as -> by (apply N.eqb_neq; lia).
    split; reflexivity.
  - vm_compute. repeat constructor.
Qed.

Lemma plate_round_trip_witness :
  @plate_tables_ok latin_cyrillic
  ∧ @normalize_vats_plate latin_cyrillic (u "А123ВС 77") None = Some (u "А123ВС77").
Proof.
  split; [exact latin_cyrillic_plate_tables|].
  pose proof (proj1 (@plate_round_trip latin_cyrillic (u "a123bc77") None (u "А123ВС77")
                       latin_cyrillic_plate_tables)) as Hrt.
  destruct Hrt as [_ Hd]; [vm_compute; reflexivity|].
  exact Hd.
Defined.

(** ** Escaped user text and the vehicle line *)

Section Escape.

Lemma html_escape_char_plain c : c ∉ html_special → html_escape_char c = [c].
Proof.
  intros Hc. unfold html_escape_char.
  assert (∀ k, k ∈ html_special → (c =? k)%N = false) as Hne.
  { intros k Hk. apply N.eqb_neq. intros ->. exact (Hc Hk). }
  rewrite !Hne; [reflexivity|..];
    apply (bool_decide_eq_true_1 (_ ∈ _)); vm_compute; reflexivity.
Qed.

Lemma html_escape_char_markup c x :
  x ∈ html_escape_char c → x ∉ [60; 62; 34; 39]%N.
Proof.
  unfold html_escape_char.
  assert (∀ l : pystr, bool_decide (Forall (λ y, y ∉ [60; 62; 34; 39]%N) l) = true →
          x ∈ l → x ∉ [60; 62; 34; 39]%N) as Hall.
  { intros l Hl Hx. apply bool_decide_eq_true_1 in Hl.
    exact (proj1 (Forall_forall _ _) Hl x Hx). }
  destruct (c =? 38)%N; [apply Hall; vm_compute; reflexivity|].
  destruct (c =? 60)%N eqn:H60; [apply Hall; vm_compute; reflexivity|].
  destruct (c =? 62)%N eqn:H62; [apply Hall; vm_compute; reflexivity|].
  destruct (c =? 34)%N eqn:H34; [apply Hall; vm_compute; reflexivity|].
  destruct (c =? 39)%N eqn:H39; [apply Hall; vm_compute; reflexivity|].
  apply N.eqb_neq in H60, H62, H34, H39.
  intros Hx. apply list_elem_of_singleton in Hx as ->.
  rewrite !not_elem_of_cons. repeat split; try assumption. apply not_elem_of_nil.
Qed.

Lemma html_escape_markup s x : x ∈ _html_escape s → x ∉ [60; 62; 34; 39]%N.
Proof.
  unfold _html_escape. intros Hx.
  apply list_elem_of_In, in_flat_map in Hx as (c & _ & Hx).
  eapply html_escape_char_markup, list_elem_of_In, Hx.
Qed.

Lemma html_escape_plain s : Forall (λ c, c ∉ html_special) s → _html_escape s = s.
Proof.
  unfold _html_escape. induction 1 as [|c s Hc _ IH]; [reflexivity|].
  simpl. rewrite IH, html_escape_char_plain by exact Hc. reflexivity.
Qed.

End Escape.

(** X3. A text of the user, as [_safe_user_html] passes it to a message
    in HTML mode, holds no [<], no [>] and neither quote character,
    whatever the user typed; a text without these and without [&] is
    passed as it is, and a missing or empty text is shown as a dash. *)
Theorem safe_user_html_escapes (text : option pystr) :
  (∀ x, x ∈ _safe_user_html text → x ∉ [60; 62; 34; 39]%N)
  ∧ (∀ c s, text = Some (c :: s) → Forall (λ y, y ∉ html_special) (c :: s) →
            _safe_user_html text = c :: s)
  ∧ (truthy text = false → _safe_user_html text = T_common_empty).
Proof.
  split; [|split].
  - intros x. destruct text as [[|c s]|]; simpl.
    + intros Hx. apply list_elem_of_singleton in Hx as ->.
      apply (bool_decide_eq_true_1 (_ ∉ _)). vm_compute. reflexivity.
    + apply (html_escape_markup (c :: s)).
    + intros Hx. apply list_elem_of_singleton in Hx as ->.
      apply (bool_decide_eq_true_1 (_ ∉ _)). vm_compute. reflexivity.
  - intros c s -> Hs. simpl. apply (html_escape_plain (c :: s)), Hs.
  - destruct text as [[|c s]|]; simpl; [reflexivity | discriminate | reflexivity].
Qed.

Lemma safe_user_html_escapes_witness :
  _safe_user_html (Some (u "km 12")) = u "km 12".
Proof.
  apply (proj1 (proj2 (safe_user_html_escapes (Some (u "km 12")))) 107%N (u "m 12")).
  - reflexivity.
  - apply (bool_decide_eq_true_1 (Forall _ _)). vm_compute. reflexivity.
Defined.

Section VehicleLine.

Lemma join_head sep c (a : pystr) rest : ∃ tl, join sep ((c :: a) :: rest) = c :: tl.
Proof. destruct rest; simpl; eexists; reflexivity. Qed.

Lemma vehicle_name_head k :
  k ∈ VEHICLE_ORDER →
  ∃ c a, default [] (dict_get T_vehicles k) = c :: a ∧ c ≠ 8212%N.
Proof.
  intros Hk. unfold VEHICLE_ORDER in Hk.
  repeat (apply elem_of_cons in Hk as [->|Hk]);
    [ | | | | apply elem_of_nil in Hk; destruct Hk ];
    vm_compute; eexists _, _; (split; [reflexivity | discriminate]).
Qed.

(** The line over any list of classes. *)
Lemma veh_parts_empty (v : gmap (list N) Z) (l : list pystr) :
  (∀ k, k ∈ l → k ∈ VEHICLE_ORDER) →
  let parts :=
    flat_map (fun k =>
      let cnt := veh_get v k in
      if 0 <? cnt
      then [default [] (dict_get T_vehicles k) ++ u "×" ++ str_of_int cnt]
      else []) l in
  match parts with
  | [] => T_common_empty
  | _ => join (u ", ") parts
  end = T_common_empty
  ↔ ∀ k, k ∈ l → veh_get v k ≤ 0.
Proof.
  induction l as [|k l IH]; intros Hl; cbv zeta.
  - simpl. split; [intros _ k Hk; apply elem_of_nil in Hk; destruct Hk | reflexivity].
  - cbn [flat_map].
    assert (∀ k0, k0 ∈ l → k0 ∈ VEHICLE_ORDER) as Hl'.
    { intros k0 Hk0. apply Hl, list_elem_of_further, Hk0. }
    specialize (IH Hl'). cbv zeta in IH.
    destruct (0 <? veh_get v k) eqn:Hpos.
    + apply Z.ltb_lt in Hpos.
      destruct (vehicle_name_head k (Hl k (list_elem_of_here _ _))) as (c & a & Hname & Hc).
      rewrite Hname. cbn [app].
      match goal with |- context [join ?sep ((c :: ?x) :: ?rest)] =>
        destruct (join_head sep c x rest) as [tl ->] end.
      split.
      * intros Heq. exfalso. apply Hc.
        change T_common_empty with [8212%N] in Heq. congruence.
      * intros Hall. specialize (Hall k (list_elem_of_here _ _)). lia.
    + apply Z.ltb_ge in Hpos. cbn [app]. rewrite IH. split.
      * intros Hall k0 Hk0. apply elem_of_cons in Hk0 as [->|Hk0]; [exact Hpos|].
        apply Hall, Hk0.
      * intros Hall k0 Hk0. apply Hall, list_elem_of_further, Hk0.
Qed.

End VehicleLine.

(** X4. The line of the vehicles involved in a collision is a dash
    exactly when none of the four classes has a positive count; a class
    that is not one of the four has no part in it. *)
Theorem veh_summary_line_empty (v : gmap (list N) Z) :
  _veh_summary_line v = T_common_empty ↔ ∀ k, k ∈ VEHICLE_ORDER → veh_get v k ≤ 0.
Proof. apply (veh_parts_empty v VEHICLE_ORDER). intros k Hk. exact Hk. Qed.

(** ** Tokens of another ticket, and what a set stores *)

Section Tokens.
Context `{PyUnicode} `{Config}.

Lemma split_act action t_id :
  bar ∉ action →
  py_split bar 2 (u "act|" ++ action ++ u "|" ++ t_id) = [u "act"; action; t_id].
Proof.
  intros Hk.
  change (py_split bar 2 (u "act|" ++ action ++ u "|" ++ t_id))
    with (u "act" :: py_split bar 1 (action ++ bar :: t_id)).
  simpl. rewrite (break_at_app _ _ _ Hk). reflexivity.
Qed.

Lemma on_callback_dispatch upd env x d t :
  upd_private upd = true → ticket d = Some t →
  on_callback upd env (u "dispatch|" ++ x) d
  = Some (d, AnswerQuery :: on_dispatch upd env (u "dispatch|" ++ x) t).
Proof.
  intros Hp Ht. unfold on_callback. rewrite Hp, Ht. simpl negb. cbv iota.
  change (startswith (u "veh|") (u "dispatch|" ++ x)) with false.
  change (startswith (u "nav|") (u "dispatch|" ++ x)) with false.
  change (startswith (u "set|") (u "dispatch|" ++ x)) with false.
  change (eqs (u "dispatch|" ++ x) (u "summary|edit")) with false.
  change (eqs (u "dispatch|" ++ x) (u "edit|cancel")) with false.
  change (startswith (u "edit|field|") (u "dispatch|" ++ x)) with false.
  change (startswith (u "dispatch|") (u "dispatch|" ++ x)) with true.
  reflexivity.
Qed.

Lemma split_dispatch x : py_split bar 1 (u "dispatch|" ++ x) = [u "dispatch"; x].
Proof. reflexivity. Qed.

(** The ticket a set leaves: the value stored, the plates cleared when
    the brand changes, and the chat id the completion of the RA questions
    may set. *)
Lemma on_set_field_ticket env field_key value d t t1 :
  ticket d = Some t → field_key ∈ ALL_KNOWN_KEYS →
  eqs field_key (u "incident_source") && eqs value INCIDENT_SOURCE_CUSTOM_VALUE = false →
  set_field_local t field_key (Some value) = Some t1 →
  ∃ d' calls t',
    on_set_field env field_key value d t = Some (d', calls)
    ∧ ticket d' = Some t'
    ∧ with_ra_chat_id (ra_chat_id t')
        (if brand_changes t field_key value
         then with_plate_ref None (with_plate_vats None t1) else t1) = t'.
Proof.
  intros Ht Hk Hcustom Hs. unfold on_set_field.
  rewrite (bool_decide_eq_true_2 _ Hk). cbn [negb]. rewrite Hcustom, Hs.
  cbn [mbind option_bind].
  assert ((eqs field_key (u "brand")
           && match (if eqs field_key (u "brand") then brand t else None) with
              | Some p => negb (eqs p value)
              | None => false
              end) = brand_changes t field_key value) as ->.
  { unfold brand_changes. destruct (eqs field_key (u "brand")); reflexivity. }
  cbv beta iota zeta.
  set (t2 := if brand_changes t field_key value
             then with_plate_ref None (with_plate_vats None t1) else t1).
  set (d1 := with_ticket t2 _).
  assert (ticket d1 = Some t2) as Ht1 by reflexivity. clearbody d1.
  assert (Hdone : ∀ (dd : Draft) (cc : list Effect), ticket dd = Some t2 →
            ∃ d' calls t', Some (dd, cc) = Some (d', calls) ∧ ticket d' = Some t'
                           ∧ with_ra_chat_id (ra_chat_id t') t2 = t').
  { intros dd cc Hdd. exists dd, cc, t2. split; [reflexivity|]. split; [exact Hdd|].
    apply with_ra_chat_id_same. }
  match goal with |- context [match ?j with Some _ => _ | None => _ end] =>
    destruct j end; [apply Hdone; exact Ht1|].
  destruct (brand_changes t field_key value).
  { match goal with |- context [py_index ?a ?b] => destruct (py_index a b) end;
      apply Hdone; exact Ht1. }
  set (d2 := if eqs field_key (u "incident_type") || eqs field_key (u "brand") then _ else d1).
  assert (ticket d2 = Some t2) as Ht2.
  { unfold d2. destruct (eqs field_key (u "incident_type") || eqs field_key (u "brand"));
      [|exact Ht1].
    unfold current_step_key. cbv beta iota zeta.
    match goal with |- context [if ?b then _ else _] => destruct b end; exact Ht1. }
  clearbody d2.
  destruct (current_step_key d2) as [cur d3] eqn:Ek.
  assert (ticket d3 = Some t2) as Ht3.
  { unfold current_step_key in Ek. injection Ek as _ <-. exact Ht2. }
  clear Ek. cbv beta iota zeta.
  destruct (editing d3 && is_primary d3); [apply Hdone; exact Ht3|].
  match goal with |- context [if ?b then Some (d3, [edit_preview t2]) else _] =>
    destruct b end; [apply Hdone; exact Ht3|].
  match goal with |- context [match ?f with Some r => Some r | None => _ end] =>
    destruct f as [[d4 c4]|] eqn:Ef end.
  { match type of Ef with
    | (if ?b then _ else _) = _ => destruct b; [|discriminate Ef]
    end.
    apply finish_ra_flow_ticket in Ef as (_ & t4 & Ht4 & Hrel).
    exists d4, c4, t4. split; [reflexivity|]. split; [exact Ht4 | exact Hrel]. }
  match goal with |- context [if ?b then goto_next_step d3 else d3] => destruct b end;
    unfold current_step_key; cbv beta iota zeta; apply Hdone; exact Ht3.
Qed.

(** What [getattr] reads after a known field is stored. *)
Lemma getattr_stored t key value t1 :
  key ∈ ALL_KNOWN_KEYS →
  set_field_local t key (Some value) = Some t1 →
  getattr t1 key = Some (Some value)
  ∧ ticket_id t1 = ticket_id t ∧ user_id t1 = user_id t ∧ username t1 = username t
  ∧ created_at t1 = created_at t ∧ jira_main t1 = jira_main t.
Proof.
  intros Hk. apply list_elem_of_In in Hk. unfold ALL_KNOWN_KEYS in Hk.
  repeat (destruct Hk as [<-|Hk]); [..|destruct Hk];
    vm_compute; intros [= <-]; repeat split; reflexivity.
Qed.

Lemma getattr_brand_cleared t key :
  key = u "brand" →
  getattr (with_plate_ref None (with_plate_vats None t)) key = getattr t key.
Proof. intros ->. reflexivity. Qed.

End Tokens.

(** X5. A button of another ticket does nothing: an [act|] token and a
    [dispatch|] token whose ticket id is not the id of the ticket of the
    draft leave the draft as it is and issue no call but the answer to
    the query. *)
Theorem stale_ticket_tokens `{PyUnicode} `{Config}
  (upd : Update) (env : Env) (d : Draft) (t : Ticket) (action t_id : pystr) :
  upd_private upd = true → ticket d = Some t →
  bar ∉ action → t_id ≠ ticket_id t →
  on_callback upd env (u "act|" ++ action ++ u "|" ++ t_id) d = Some (d, [AnswerQuery])
  ∧ on_callback upd env (u "dispatch|" ++ t_id) d = Some (d, [AnswerQuery]).
Proof.
  intros Hp Ht Hbar Hne. apply eqs_false in Hne. split.
  - rewrite (on_callback_act _ _ _ _ t Hp Ht). unfold on_act.
    rewrite (split_act _ _ Hbar). rewrite Hne. reflexivity.
  - rewrite (on_callback_dispatch _ _ _ _ t Hp Ht). unfold on_dispatch.
    rewrite split_dispatch. rewrite Hne. reflexivity.
Qed.

Lemma stale_ticket_tokens_witness :
  @on_callback latin_cyrillic sample_config sample_update sample_env
    (u "act|close|zzzz0000") (mkDraft (Some sample_ticket) 0 false PRIMARY_MODE false)
  = Some (mkDraft (Some sample_ticket) 0 false PRIMARY_MODE false, [AnswerQuery]).
Proof.
  apply (proj1 (@stale_ticket_tokens latin_cyrillic sample_config sample_update sample_env
                  (mkDraft (Some sample_ticket) 0 false PRIMARY_MODE false) sample_ticket
                  (u "close") (u "zzzz0000") eq_refl eq_refl
                  ltac:(apply (bool_decide_eq_true_1 (_ ∉ _)); vm_compute; reflexivity)
                  ltac:(vm_compute; discriminate))).
Defined.

(** X6. A [set|] token of a name that is no field of the questionnaire
    changes nothing. A [set|] token of a field of the questionnaire other
    than the vehicle counts, and other than the request for a free-form
    incident source, stores the value: after the run the field reads as
    the value, whatever else the run did, and the id, the user, the
    creation time and the tracker key of the ticket are as before. *)
Theorem set_token_stores `{PyUnicode} `{Config}
  (upd : Update) (env : Env) (d : Draft) (t : Ticket) (field_key value : pystr) :
  upd_private upd = true → ticket d = Some t → bar ∉ field_key →
  (field_key ∉ ALL_KNOWN_KEYS →
   on_callback upd env (u "set|" ++ field_key ++ u "|" ++ value) d = Some (d, [AnswerQuery]))
  ∧ (field_key ∈ ALL_KNOWN_KEYS → field_key ≠ u "dtp_vehicles" →
     ¬ (field_key = u "incident_source" ∧ value = INCIDENT_SOURCE_CUSTOM_VALUE) →
     ∃ d' calls t',
       on_callback upd env (u "set|" ++ field_key ++ u "|" ++ value) d = Some (d', calls)
       ∧ ticket d' = Some t'
       ∧ getattr t' field_key = Some (Some value)
       ∧ ticket_id t' = ticket_id t ∧ user_id t' = user_id t ∧ username t' = username t
       ∧ created_at t' = created_at t ∧ jira_main t' = jira_main t).
Proof.
  intros Hp Ht Hbar. rewrite (on_callback_set _ _ _ _ t Hp Ht).
  unfold on_set. rewrite (split_set _ _ Hbar). split.
  - intros Hk. unfold on_set_field. rewrite (bool_decide_eq_false_2 _ Hk). reflexivity.
  - intros Hk Hnd Hcustom.
    destruct (set_field_local_known t field_key value Hk Hnd) as (t1 & Hs & _).
    assert (eqs field_key (u "incident_source") && eqs value INCIDENT_SOURCE_CUSTOM_VALUE
            = false) as Hc.
    { apply andb_false_iff.
      destruct (eqs field_key (u "incident_source")) eqn:E1; [|left; reflexivity].
      destruct (eqs value INCIDENT_SOURCE_CUSTOM_VALUE) eqn:E2; [|right; reflexivity].
      apply eqs_true in E1, E2. destruct Hcustom. split; assumption. }
    destruct (on_set_field_ticket env field_key value d t t1 Ht Hk Hc Hs)
      as (d' & calls & t' & -> & Ht' & Hrel).
    exists d', (AnswerQuery :: calls), t'. split; [reflexivity|]. split; [exact Ht'|].
    destruct (getattr_stored t field_key value t1 Hk Hs) as (Hg & Hid & Hu & Hn & Hc' & Hj).
    rewrite <- Hrel.
    change (getattr (with_ra_chat_id ?c ?x) field_key) with (getattr x field_key).
    destruct (brand_changes t field_key value) eqn:Hb.
    + unfold brand_changes in Hb. apply andb_true_iff in Hb as [Hb _].
      apply eqs_true in Hb. rewrite (getattr_brand_cleared _ _ Hb).
      repeat split; assumption.
    + repeat split; assumption.
Qed.

Lemma set_token_stores_witness :
  @on_callback latin_cyrillic sample_config sample_update sample_env
    (u "set|" ++ u "colour" ++ u "|" ++ u "red")
    (mkDraft (Some sample_ticket) 0 false PRIMARY_MODE false)
  = Some (mkDraft (Some sample_ticket) 0 false PRIMARY_MODE false, [AnswerQuery]).
Proof.
  apply (proj1 (@set_token_stores latin_cyrillic sample_config sample_update sample_env
                  (mkDraft (Some sample_ticket) 0 false PRIMARY_MODE false) sample_ticket
                  (u "colour") (u "red") eq_refl eq_refl
                  ltac:(apply (bool_decide_eq_true_1 (_ ∉ _)); vm_compute; reflexivity))).
  apply (bool_decide_eq_true_1 (_ ∉ _)). vm_compute. reflexivity.
Defined.

(** ** Text messages outside editing *)

Section TextAnswers.
Context `{PyUnicode} `{Config}.

Lemma active_steps_kind d key :
  key ∈ active_steps d → is_Some (dict_get STEP_INPUT_KIND key).
Proof.
  unfold active_steps, _steps_for_primary, _steps_for_ra, _maybe_add_plate_ref.
  intros Hin.
  assert (∀ l : list pystr,
            bool_decide (Forall (λ k, is_Some (dict_get STEP_INPUT_KIND k)) l) = true →
            key ∈ l → is_Some (dict_get STEP_INPUT_KIND key)) as Hsub.
  { intros l Hl Hk. apply bool_decide_eq_true_1 in Hl.
    exact (proj1 (Forall_forall _ _) Hl key Hk). }
  destruct (mode d), (is_dtp_opt (ticket d)), (is_sitrak_opt (ticket d));
    (eapply Hsub; [|exact Hin]); vm_compute; reflexivity.
Qed.

(** Every question of the RA list is answered by a button. *)
Lemma ra_steps_choice tk key :
  key ∈ _steps_for_ra tk →
  dict_get STEP_INPUT_KIND key = Some KChoice ∧ key ≠ u "incident_source"
  ∧ key ≠ u "incident_type" ∧ key ≠ u "brand" ∧ key ≠ u "dtp_vehicles".
Proof.
  unfold _steps_for_ra. intros Hin.
  destruct (is_dtp_opt tk);
    repeat (apply elem_of_cons in Hin as [->|Hin]);
    try (apply elem_of_nil in Hin; destruct Hin);
    (split; [vm_compute; reflexivity|]); repeat split; vm_compute; discriminate.
Qed.

(** What the clamping of the cursor leaves. *)
Lemma current_step_key_draft d key d1 :
  current_step_key d = (key, d1) →
  ticket d1 = ticket d ∧ editing d1 = editing d ∧ mode d1 = mode d
  ∧ _incident_source_custom_input d1 = _incident_source_custom_input d
  ∧ active_steps d1 = active_steps d
  ∧ 0 ≤ step_idx d1 < len (active_steps d)
  ∧ key = item (active_steps d) (step_idx d1)
  ∧ key ∈ active_steps d.
Proof.
  intros Ek. pose proof (current_step_key_active d) as Hact. rewrite Ek in Hact.
  cbn [fst] in Hact.
  unfold current_step_key in Ek. injection Ek as Hkey <-.
  repeat split; try reflexivity; try exact Hact; cbn [step_idx with_step_idx].
  - lia.
  - pose proof (active_steps_length d) as Hlen. unfold len.
    destruct (Z.of_nat (length (active_steps d)) <=? step_idx d) eqn:Hle;
      [|apply Z.leb_gt in Hle]; lia.
  - symmetry. exact Hkey.
Qed.

(** A cursor in range is left as it is. *)
Lemma current_step_key_in_range d :
  0 ≤ step_idx d < len (active_steps d) →
  current_step_key d = (item (active_steps d) (step_idx d), d).
Proof.
  intros Hr. unfold current_step_key.
  destruct (len (active_steps d) <=? step_idx d) eqn:Hle; [apply Z.leb_le in Hle; lia|].
  rewrite Z.max_r by lia. destruct d. reflexivity.
Qed.

Lemma after_text_answer_next upd d t :
  editing d = false → 0 ≤ step_idx d →
  after_text_answer upd d t
  = if is_last_step d
    then (d, if is_primary d then [send_preview (upd_chat_id upd) t] else [])
    else (with_step_idx (step_idx d + 1) d,
          send_prompt (upd_chat_id upd) t (item (active_steps d) (step_idx d + 1))).
Proof.
  intros He Hi. unfold after_text_answer. rewrite He. cbn [andb].
  destruct (is_last_step d) eqn:Hl; [reflexivity|].
  unfold is_last_step in Hl. apply Z.leb_gt in Hl.
  unfold goto_next_step. rewrite Z.min_l by lia.
  rewrite current_step_key_in_range; [reflexivity|].
  change (active_steps (with_step_idx ?i d)) with (active_steps d).
  cbn [step_idx with_step_idx]. lia.
Qed.

(** Storing a field other than the incident type and the brand keeps
    the list of steps. *)
Lemma set_field_local_steps t key value t1 :
  key ∈ ALL_KNOWN_KEYS → key ≠ u "incident_type" → key ≠ u "brand" →
  set_field_local t key (Some value) = Some t1 →
  incident_type t1 = incident_type t ∧ brand t1 = brand t.
Proof.
  intros Hk Hni Hnb. apply list_elem_of_In in Hk. unfold ALL_KNOWN_KEYS in Hk.
  repeat (destruct Hk as [<-|Hk]); [..|destruct Hk];
    try (exfalso; apply Hni; reflexivity); try (exfalso; apply Hnb; reflexivity);
    vm_compute; intros [= <-]; split; reflexivity.
Qed.

Lemma active_steps_with_ticket d t t1 :
  ticket d = Some t → incident_type t1 = incident_type t → brand t1 = brand t →
  active_steps (with_ticket t1 d) = active_steps d.
Proof.
  intros Ht Hi Hb. unfold active_steps, _steps_for_primary, _steps_for_ra,
    _maybe_add_plate_ref, is_dtp_opt, is_sitrak_opt.
  cbn [ticket mode with_ticket]. rewrite Ht, Hi, Hb. reflexivity.
Qed.

(** The kinds of input and their steps, with the two fields that shape
    the list of steps. *)
Lemma step_kind_text key :
  dict_get STEP_INPUT_KIND key = Some KText →
  key ≠ u "incident_type" ∧ key ≠ u "brand".
Proof.
  intros Hg. apply dict_get_elem, list_elem_of_In in Hg. unfold STEP_INPUT_KIND in Hg.
  repeat (destruct Hg as [[= <-]|Hg]); [..|destruct Hg];
    split; vm_compute; discriminate.
Qed.

(** A stored answer outside editing. *)
Lemma text_stored upd d1 t key v (flag : bool) :
  ticket d1 = Some t → editing d1 = false → 0 ≤ step_idx d1 →
  key ∈ ALL_KNOWN_KEYS → key ≠ u "dtp_vehicles" →
  key ≠ u "incident_type" → key ≠ u "brand" →
  ∃ t' d' calls,
    set_field_local t key (Some v) = Some t'
    ∧ (t0 ← set_field_local t key (Some v);
       Some (after_text_answer upd
               (if flag then _set_incident_source_custom_mode (with_ticket t0 d1) false
                else with_ticket t0 d1) t0)) = Some (d', calls)
    ∧ ticket d' = Some t' ∧ editing d' = false ∧ mode d' = mode d1
    ∧ active_steps d' = active_steps d1
    ∧ _incident_source_custom_input d'
      = (if flag then false else _incident_source_custom_input d1)
    ∧ if is_last_step d1
      then step_idx d' = step_idx d1
           ∧ calls = if is_primary d1 then [send_preview (upd_chat_id upd) t'] else []
      else step_idx d' = step_idx d1 + 1
           ∧ calls = send_prompt (upd_chat_id upd) t'
                       (item (active_steps d1) (step_idx d1 + 1)).
Proof.
  intros Ht He Hi Hk Hnd Hni Hnb.
  destruct (set_field_local_known t key v Hk Hnd) as (t1 & Hs & _).
  destruct (set_field_local_steps t key v t1 Hk Hni Hnb Hs) as [Hit Hbr].
  pose proof (active_steps_with_ticket d1 t t1 Ht Hit Hbr) as Hsteps.
  rewrite Hs. cbn [mbind option_bind].
  set (d2 := if flag then _ else _).
  assert (ticket d2 = Some t1 ∧ editing d2 = false ∧ mode d2 = mode d1
          ∧ active_steps d2 = active_steps d1 ∧ step_idx d2 = step_idx d1
          ∧ _incident_source_custom_input d2
            = (if flag then false else _incident_source_custom_input d1))
    as (Ht2 & He2 & Hm2 & Hs2 & Hi2 & Hf2).
  { unfold d2. destruct flag; repeat split; try assumption. }
  clearbody d2.
  rewrite after_text_answer_next by (try assumption; lia).
  assert (is_last_step d2 = is_last_step d1) as ->
    by (unfold is_last_step; rewrite Hs2, Hi2; reflexivity).
  assert (is_primary d2 = is_primary d1) as ->
    by (unfold is_primary; rewrite Hm2; reflexivity).
  exists t1. destruct (is_last_step d1).
  - eexists. eexists. split; [reflexivity|]. split; [reflexivity|].
    repeat split; assumption.
  - eexists. eexists. split; [reflexivity|]. split; [reflexivity|].
    rewrite Hs2, Hi2. repeat split; assumption.
Qed.

End TextAnswers.

(** X7. A text message that is no answer to the step under the cursor
    (an invalid plate, an empty text, or any text on a step that is
    answered by buttons) changes neither the ticket nor the mode nor the
    editing flag: the draft is left with its cursor clamped, and the
    engine sends nothing, or one of the three error texts with the
    navigation keyboard of the step. *)
Theorem text_rejected `{PyUnicode} `{Config}
  (upd : Update) (env : Env) (d : Draft) (t : Ticket) (msg : pystr) :
  upd_private upd = true → ticket d = Some t →
  text_answer d t msg = None →
  ∃ calls,
    on_text upd env msg d = Some (snd (current_step_key d), calls)
    ∧ (calls = []
       ∨ ∃ err,
           err ∈ [T_errors_plate_invalid; T_errors_plate_ref_invalid; T_errors_empty_text]
           ∧ calls = [SendMessage (upd_chat_id upd) err
                        (Some (kb_nav (fst (current_step_key d)) true None))]).
Proof.
  intros Hp Ht Hv. unfold text_answer in Hv. unfold on_text.
  rewrite Hp, Ht. simpl negb. cbv iota.
  destruct (current_step_key d) as [key d1] eqn:Ek. cbn [fst snd] in *.
  destruct (current_step_key_draft _ _ _ Ek) as (_ & _ & _ & Hc1 & _ & _ & _ & Hact).
  unfold _is_incident_source_custom_mode. rewrite Hc1. cbv zeta.
  destruct (active_steps_kind d key Hact) as [kind Ekind]. rewrite Ekind in *.
  assert (Herr : ∀ err,
            err ∈ [T_errors_plate_invalid; T_errors_plate_ref_invalid; T_errors_empty_text] →
            ∃ calls,
              Some (d1, [SendMessage (upd_chat_id upd) err (Some (kb_nav key true None))])
              = Some (d1, calls)
              ∧ (calls = []
                 ∨ ∃ err0,
                     err0 ∈ [T_errors_plate_invalid; T_errors_plate_ref_invalid;
                             T_errors_empty_text]
                     ∧ calls = [SendMessage (upd_chat_id upd) err0
                                  (Some (kb_nav key true None))])).
  { intros err Herr. eexists. split; [reflexivity|]. right. exists err.
    split; [exact Herr | reflexivity]. }
  destruct kind.
  - cbn [is_text orb] in *.
    destruct (eqs key (u "incident_source") && _incident_source_custom_input d).
    + destruct (strip msg) as [|c s]; [|discriminate Hv].
      apply Herr. do 2 apply list_elem_of_further. apply list_elem_of_here.
    + exists []. split; [reflexivity | left; reflexivity].
  - destruct (normalize_vats_plate (strip msg) (brand t)) as [[|c n]|];
      try discriminate Hv; apply Herr, list_elem_of_here.
  - destruct (normalize_ref_plate (strip msg)) as [[|c n]|];
      try discriminate Hv; apply Herr, list_elem_of_further, list_elem_of_here.
  - cbn [is_text orb] in *.
    destruct (eqs key (u "incident_source") && _incident_source_custom_input d).
    + destruct (strip msg) as [|c s]; [|discriminate Hv].
      apply Herr. do 2 apply list_elem_of_further. apply list_elem_of_here.
    + exists []. split; [reflexivity | left; reflexivity].
  - cbn [is_text orb] in *.
    destruct (strip msg) as [|c s]; [|discriminate Hv].
    apply Herr. do 2 apply list_elem_of_further. apply list_elem_of_here.
Qed.

Lemma text_rejected_witness :
  ∃ calls,
    @on_text latin_cyrillic sample_update sample_env (u "hello")
      (mkDraft (Some sample_ticket) 0 false PRIMARY_MODE false)
    = Some (snd (current_step_key (mkDraft (Some sample_ticket) 0 false PRIMARY_MODE false)),
            calls)
    ∧ (calls = []
       ∨ ∃ err,
           err ∈ [T_errors_plate_invalid; T_errors_plate_ref_invalid; T_errors_empty_text]
           ∧ calls = [SendMessage (upd_chat_id sample_update) err
                        (Some (kb_nav (fst (current_step_key
                           (mkDraft (Some sample_ticket) 0 false PRIMARY_MODE false)))
                                 true None))]).
Proof.
  apply (@text_rejected latin_cyrillic sample_config sample_update sample_env
           (mkDraft (Some sample_ticket) 0 false PRIMARY_MODE false) sample_ticket (u "hello")
           eq_refl eq_refl).
  vm_compute. reflexivity.
Defined.

(** X8. Outside editing, a text message that answers the step under the
    cursor (a valid plate, or a text that is not empty on a text step or
    on the incident source in free-form mode) is stored in the field of
    that step, which happens in primary mode only. The list of steps
    stays as it is; on the last step the cursor stays and the preview is
    sent, on any other step the cursor moves one step on and the question
    of the next step is sent. *)
Theorem text_answer_advances `{PyUnicode} `{Config}
  (upd : Update) (env : Env) (d : Draft) (t : Ticket) (msg v : pystr) :
  upd_private upd = true → ticket d = Some t → editing d = false →
  text_answer d t msg = Some v →
  ∃ t' d' calls,
    set_field_local t (fst (current_step_key d)) (Some v) = Some t'
    ∧ on_text upd env msg d = Some (d', calls)
    ∧ ticket d' = Some t' ∧ editing d' = false
    ∧ mode d = PRIMARY_MODE ∧ mode d' = PRIMARY_MODE
    ∧ active_steps d' = active_steps d
    ∧ let i := step_idx (snd (current_step_key d)) in
      if is_last_step (snd (current_step_key d))
      then step_idx d' = i ∧ calls = [send_preview (upd_chat_id upd) t']
      else step_idx d' = i + 1
           ∧ calls = send_prompt (upd_chat_id upd) t' (item (active_steps d) (i + 1)).
Proof.
  intros Hp Ht He Hv. unfold text_answer in Hv. unfold on_text.
  rewrite Hp, Ht. simpl negb. cbv iota.
  destruct (current_step_key d) as [key d1] eqn:Ek. cbn [fst snd] in *.
  destruct (current_step_key_draft _ _ _ Ek)
    as (Ht1 & He1 & Hm1 & Hc1 & Hs1 & Hr1 & _ & Hact).
  rewrite Ht in Ht1. rewrite He in He1.
  unfold _is_incident_source_custom_mode. rewrite Hc1. cbv zeta.
  destruct (dict_get STEP_INPUT_KIND key) as [kind|] eqn:Ekind; [|discriminate Hv].
  destruct (step_kind_key _ _ Ekind) as [Hknown Hkey].
  (* the mode *)
  assert (mode d = PRIMARY_MODE) as Hm.
  { destruct (mode d) eqn:Hmode; [reflexivity|]. exfalso.
    unfold active_steps in Hact. rewrite Hmode in Hact.
    destruct (ra_steps_choice _ _ Hact) as (Hkc & Hns & _).
    rewrite Hkc in Ekind. injection Ekind as <-. cbn [is_text orb] in Hv.
    apply eqs_false in Hns. rewrite Hns in Hv. discriminate Hv. }
  assert (is_primary d1 = true) as Hprim by (unfold is_primary; rewrite Hm1, Hm; reflexivity).
  assert (Hstore : ∀ (flag : bool) (c : N) (s : pystr),
            key ≠ u "dtp_vehicles" → key ≠ u "incident_type" → key ≠ u "brand" →
            v = c :: s →
            ∃ t' d' calls,
              set_field_local t key (Some v) = Some t'
              ∧ (t0 ← set_field_local t key (Some (c :: s));
                 Some (after_text_answer upd
                         (if flag
                          then _set_incident_source_custom_mode (with_ticket t0 d1) false
                          else with_ticket t0 d1) t0)) = Some (d', calls)
              ∧ ticket d' = Some t' ∧ editing d' = false
              ∧ mode d = PRIMARY_MODE ∧ mode d' = PRIMARY_MODE
              ∧ active_steps d' = active_steps d
              ∧ if is_last_step d1
                then step_idx d' = step_idx d1 ∧ calls = [send_preview (upd_chat_id upd) t']
                else step_idx d' = step_idx d1 + 1
                     ∧ calls = send_prompt (upd_chat_id upd) t'
                                 (item (active_steps d) (step_idx d1 + 1))).
  { intros flag c s Hnd Hni Hnb ->.
    destruct (text_stored upd d1 t key (c :: s) flag Ht1 He1 ltac:(lia)
                Hknown Hnd Hni Hnb)
      as (t' & d' & calls & Hs & Hrun & Ht' & He' & Hm' & Hs' & _ & Hcases).
    exists t', d', calls. split; [exact Hs|]. split; [exact Hrun|].
    split; [exact Ht'|]. split; [exact He'|]. split; [exact Hm|].
    split; [rewrite Hm', Hm1; exact Hm|]. split; [rewrite Hs'; exact Hs1|].
    rewrite Hprim, Hs1 in Hcases. exact Hcases. }
  destruct kind.
  - (* the incident source in free-form mode *)
    cbn [is_text orb] in *. destruct Hkey as [Hnv Hnd].
    destruct (eqs key (u "incident_source")) eqn:Esrc; [|discriminate Hv].
    apply eqs_true in Esrc. cbn [andb] in *.
    destruct (_incident_source_custom_input d); [|discriminate Hv].
    apply nonempty_Some in Hv as [[= Hs] (c & s & ->)]. rewrite Hs.
    apply (Hstore true c s Hnd); [subst key; vm_compute; discriminate ..|reflexivity].
  - (* the primary plate *)
    subst key. apply nonempty_Some in Hv as [Hn (c & s & ->)]. rewrite Hn.
    destruct (Hstore false c s) as (t' & d' & calls & Hs & Hrun & Hrest);
      [vm_compute; discriminate ..|reflexivity|].
    rewrite Hs in Hrun. cbn [mbind option_bind] in Hrun.
    rewrite Hs. cbn [mbind option_bind].
    change (editing (with_ticket t' d1)) with (editing d1). rewrite He1.
    rewrite andb_false_r. cbn [andb].
    exists t', d', calls. split; [reflexivity|]. split; [exact Hrun | exact Hrest].
  - (* the secondary plate *)
    subst key. apply nonempty_Some in Hv as [Hn (c & s & ->)]. rewrite Hn.
    destruct (Hstore false c s) as (t' & d' & calls & Hs & Hrun & Hrest);
      [vm_compute; discriminate ..|reflexivity|].
    exists t', d', calls. split; [exact Hs|]. split; [exact Hrun | exact Hrest].
  - (* the counter takes no text *)
    subst key. cbn [is_text orb] in Hv.
    change (eqs (u "dtp_vehicles") (u "incident_source")) with false in Hv.
    discriminate Hv.
  - (* a text step *)
    cbn [is_text orb] in *. destruct Hkey as (Hnv & Hnd & Hni).
    destruct (step_kind_text _ Ekind) as [Hnt Hnb].
    apply nonempty_Some in Hv as [[= Hs] (c & s & ->)]. rewrite Hs.
    apply eqs_false in Hni. rewrite Hni. cbn [andb].
    apply (Hstore false c s Hnd Hnt Hnb eq_refl).
Qed.

Lemma text_answer_advances_witness :
  @mode (mkDraft (Some sample_ticket) 4 false PRIMARY_MODE false) = PRIMARY_MODE.
Proof.
  destruct (@text_answer_advances latin_cyrillic sample_config sample_update sample_env
              (mkDraft (Some sample_ticket) 4 false PRIMARY_MODE false) sample_ticket
              (u " km 12 ") (u "km 12") eq_refl eq_refl eq_refl
              ltac:(vm_compute; reflexivity))
    as (t' & d' & calls & _ & _ & _ & _ & Hm & _).
  exact Hm.
Defined.

(** ** Going back, and choosing a field to edit *)

Section Navigation.
Context `{PyUnicode} `{Config}.

Lemma py_index_nth (l : list pystr) (i : nat) :
  NoDup l → (i < length l)%nat → py_index (nth i l []) l = Some i.
Proof.
  intros Hnd. revert i. induction Hnd as [|y l Hy _ IH]; intros i Hi; simpl in *; [lia|].
  destruct i as [|i].
  - rewrite decide_True by reflexivity. reflexivity.
  - rewrite decide_False.
    + rewrite IH by lia. reflexivity.
    + intros ->. apply Hy, list_elem_of_In, nth_In. lia.
Qed.

Lemma py_index_None x (l : list pystr) : x ∉ l → py_index x l = None.
Proof.
  induction l as [|y l IH]; [reflexivity|]. intros Hn.
  apply not_elem_of_cons in Hn as [Hy Hl]. simpl.
  rewrite decide_False by congruence. rewrite (IH Hl). reflexivity.
Qed.

Lemma active_steps_NoDup d : NoDup (active_steps d).
Proof.
  unfold active_steps, _steps_for_primary, _steps_for_ra, _maybe_add_plate_ref.
  destruct (mode d), (is_dtp_opt (ticket d)), (is_sitrak_opt (ticket d));
    apply (bool_decide_eq_true_1 (NoDup _)); vm_compute; reflexivity.
Qed.

Lemma active_steps_no_bar d key : key ∈ active_steps d → bar ∉ key.
Proof. intros Hk. eapply known_keys_no_bar, active_steps_known, Hk. Qed.

(** The step at a position of the list, and its position. *)
Lemma item_index d i :
  0 ≤ i < len (active_steps d) →
  item (active_steps d) i ∈ active_steps d
  ∧ py_index (item (active_steps d) i) (active_steps d) = Some (Z.to_nat i).
Proof.
  unfold len, item. intros Hi. split.
  - apply list_elem_of_In, nth_In. lia.
  - apply py_index_nth; [apply active_steps_NoDup | lia].
Qed.

Lemma split_nav_back key :
  bar ∉ key → py_split_all bar (u "nav|back|" ++ key) = [u "nav"; u "back"; key].
Proof.
  intros Hk.
  change (py_split_all bar (u "nav|back|" ++ key))
    with (u "nav" :: u "back" :: py_split bar (7 + length key) key).
  rewrite py_split_no_sep by exact Hk. reflexivity.
Qed.

Lemma on_callback_edit_field upd env x d t :
  upd_private upd = true → ticket d = Some t →
  on_callback upd env (u "edit|field|" ++ x) d
  = Some (fst (on_edit_field (u "edit|field|" ++ x) d t),
          AnswerQuery :: snd (on_edit_field (u "edit|field|" ++ x) d t)).
Proof.
  intros Hp Ht. unfold on_callback. rewrite Hp, Ht. simpl negb. cbv iota.
  change (startswith (u "veh|") (u "edit|field|" ++ x)) with false.
  change (startswith (u "nav|") (u "edit|field|" ++ x)) with false.
  change (startswith (u "set|") (u "edit|field|" ++ x)) with false.
  change (eqs (u "edit|field|" ++ x) (u "summary|edit")) with false.
  change (eqs (u "edit|field|" ++ x) (u "edit|cancel")) with false.
  change (startswith (u "edit|field|") (u "edit|field|" ++ x)) with true.
  cbv iota. destruct (on_edit_field (u "edit|field|" ++ x) d t). reflexivity.
Qed.

Lemma split_edit_field x :
  py_split bar 2 (u "edit|field|" ++ x) = [u "edit"; u "field"; x].
Proof. reflexivity. Qed.

(** No RA question is a step of the primary list. *)
Lemma ra_step_not_primary tk tk' key :
  key ∈ _steps_for_ra tk → key ∉ _steps_for_primary tk'.
Proof.
  unfold _steps_for_ra, _steps_for_primary, _maybe_add_plate_ref. intros Hin.
  destruct (is_dtp_opt tk);
    repeat (apply elem_of_cons in Hin as [->|Hin]);
    try (apply elem_of_nil in Hin; destruct Hin);
    destruct (is_dtp_opt tk'), (is_sitrak_opt tk');
    apply (bool_decide_eq_true_1 (_ ∉ _)); vm_compute; reflexivity.
Qed.

End Navigation.

(** X9. The back button of the step at position [i] of the active list.
    While editing in primary mode it clears the editing flag and shows
    the preview. Otherwise it puts the cursor on the step before, or
    leaves it on the first step, and shows the question of the step the
    cursor is then on; the ticket is not changed, and going back from the
    incident source ends the free-form mode. *)
Theorem nav_back `{PyUnicode} `{Config}
  (upd : Update) (env : Env) (d : Draft) (t : Ticket) (i : Z) :
  upd_private upd = true → ticket d = Some t →
  0 ≤ i < len (active_steps d) →
  on_callback upd env (u "nav|back|" ++ item (active_steps d) i) d
  = if editing d && is_primary d
    then Some (with_editing false d, [AnswerQuery; edit_preview t])
    else Some (with_step_idx (Z.max 0 (i - 1))
                 (if eqs (item (active_steps d) i) (u "incident_source")
                  then _set_incident_source_custom_mode d false else d),
               AnswerQuery :: edit_prompt t (item (active_steps d) (Z.max 0 (i - 1)))).
Proof.
  intros Hp Ht Hi. destruct (item_index d i Hi) as [Hin Hidx].
  set (key := item (active_steps d) i) in *.
  pose proof (active_steps_no_bar d key Hin) as Hbar.
  change (u "nav|back|" ++ key) with (u "nav|" ++ (u "back|" ++ key)).
  rewrite (on_callback_nav _ _ _ _ t Hp Ht).
  change (u "nav|" ++ (u "back|" ++ key)) with (u "nav|back|" ++ key).
  unfold on_nav. rewrite (split_nav_back _ Hbar).
  change (nth 1 [u "nav"; u "back"; key] []) with (u "back").
  change (eqs (u "back") (u "back")) with true. cbv iota.
  destruct (editing d && is_primary d); [reflexivity|].
  set (d0 := if eqs key (u "incident_source") then _ else d).
  assert (active_steps d0 = active_steps d) as Hs0
    by (unfold d0; destruct (eqs key (u "incident_source")); reflexivity).
  rewrite Hs0, Hidx. rewrite Z2Nat.id by lia.
  assert (set_step_idx d0 (Z.max 0 (i - 1)) = with_step_idx (Z.max 0 (i - 1)) d0) as ->.
  { unfold set_step_idx. rewrite Hs0. f_equal. lia. }
  rewrite current_step_key_in_range.
  - change (active_steps (with_step_idx ?j d0)) with (active_steps d0). rewrite Hs0.
    reflexivity.
  - change (active_steps (with_step_idx ?j d0)) with (active_steps d0). rewrite Hs0.
    cbn [step_idx with_step_idx]. lia.
Qed.

Lemma nav_back_witness :
  @on_callback latin_cyrillic sample_config sample_update sample_env
    (u "nav|back|" ++ u "location")
    (mkDraft (Some sample_ticket) 4 false PRIMARY_MODE false)
  = Some (mkDraft (Some sample_ticket) 3 false PRIMARY_MODE false,
          AnswerQuery :: edit_prompt sample_ticket (u "plate_vats")).
Proof.
  exact (@nav_back latin_cyrillic sample_config sample_update sample_env
           (mkDraft (Some sample_ticket) 4 false PRIMARY_MODE false) sample_ticket 4
           eq_refl eq_refl ltac:(vm_compute; split; [discriminate | reflexivity])).
Defined.

(** X10. The button of a field in the list of fields to edit, in primary
    mode: for the step at position [i] of the active list it sets the
    editing flag, puts the cursor on that step, so that the step under
    the cursor is the chosen field, and shows the question of the field.
    A name that is no step of the active list changes nothing. *)
Theorem edit_field_token `{PyUnicode} `{Config}
  (upd : Update) (env : Env) (d : Draft) (t : Ticket) :
  upd_private upd = true → ticket d = Some t → mode d = PRIMARY_MODE →
  (∀ i, 0 ≤ i < len (active_steps d) →
        let key := item (active_steps d) i in
        let d' := with_step_idx i (with_editing true d) in
        on_callback upd env (u "edit|field|" ++ key) d
        = Some (d', AnswerQuery :: edit_prompt t key)
        ∧ current_step_key d' = (key, d'))
  ∧ (∀ key, key ∉ active_steps d →
            on_callback upd env (u "edit|field|" ++ key) d = Some (d, [AnswerQuery])).
Proof.
  intros Hp Ht Hm. split.
  - intros i Hi. cbv zeta. destruct (item_index d i Hi) as [Hin Hidx].
    set (key := item (active_steps d) i) in *.
    rewrite (on_callback_edit_field _ _ _ _ t Hp Ht). unfold on_edit_field.
    rewrite split_edit_field. rewrite (bool_decide_eq_true_2 _ Hin). cbn [negb].
    assert (with_mode PRIMARY_MODE (with_editing true d) = with_editing true d) as ->
      by (destruct d; simpl in Hm; subst; reflexivity).
    change (active_steps (with_editing true d)) with (active_steps d).
    rewrite Hidx. rewrite Z2Nat.id by lia. cbn [fst snd].
    assert (set_step_idx (with_editing true d) i = with_step_idx i (with_editing true d))
      as ->.
    { unfold set_step_idx. change (active_steps (with_editing true d)) with (active_steps d).
      f_equal. lia. }
    split; [reflexivity|].
    rewrite current_step_key_in_range; [reflexivity|].
    change (active_steps (with_step_idx ?j (with_editing true d))) with (active_steps d).
    cbn [step_idx with_step_idx]. lia.
  - intros key Hk. rewrite (on_callback_edit_field _ _ _ _ t Hp Ht). unfold on_edit_field.
    rewrite split_edit_field. rewrite (bool_decide_eq_false_2 _ Hk). reflexivity.
Qed.

Lemma edit_field_token_witness :
  @on_callback latin_cyrillic sample_config sample_update sample_env
    (u "edit|field|" ++ u "brand")
    (mkDraft (Some sample_ticket) 8 false PRIMARY_MODE false)
  = Some (mkDraft (Some sample_ticket) 2 true PRIMARY_MODE false,
          AnswerQuery :: edit_prompt sample_ticket (u "brand")).
Proof.
  exact (proj1 (proj1 (@edit_field_token latin_cyrillic sample_config sample_update sample_env
           (mkDraft (Some sample_ticket) 8 false PRIMARY_MODE false) sample_ticket
           eq_refl eq_refl eq_refl) 2 ltac:(vm_compute; split; [discriminate | reflexivity]))).
Defined.

(** X11. The button of a field to edit pressed while the RA questions
    are asked: for every RA question the run switches the draft to
    primary mode with the editing flag set, leaves the cursor and the
    ticket as they are, and then fails with [ValueError], since the
    position of the question is looked up in the primary list, which has
    no RA question; no message is edited. *)
Theorem edit_field_in_ra_mode `{PyUnicode} `{Config}
  (upd : Update) (env : Env) (d : Draft) (t : Ticket) (key : pystr) :
  upd_private upd = true → ticket d = Some t → mode d = RA_MODE →
  key ∈ active_steps d →
  on_callback upd env (u "edit|field|" ++ key) d
  = Some (with_mode PRIMARY_MODE (with_editing true d), [AnswerQuery; Raise (u "ValueError")]).
Proof.
  intros Hp Ht Hm Hk.
  rewrite (on_callback_edit_field _ _ _ _ t Hp Ht). unfold on_edit_field.
  rewrite split_edit_field. rewrite (bool_decide_eq_true_2 _ Hk). cbn [negb].
  unfold active_steps in Hk. rewrite Hm in Hk.
  rewrite py_index_None; [reflexivity|].
  unfold active_steps. cbn [mode with_mode]. eapply ra_step_not_primary, Hk.
Qed.

Lemma edit_field_in_ra_mode_witness :
  @on_callback latin_cyrillic sample_config sample_update sample_env
    (u "edit|field|" ++ u "ra_need_repair")
    (mkDraft (Some sample_ticket) 1 false RA_MODE false)
  = Some (mkDraft (Some sample_ticket) 1 true PRIMARY_MODE false,
          [AnswerQuery; Raise (u "ValueError")]).
Proof.
  apply (@edit_field_in_ra_mode latin_cyrillic sample_config sample_update sample_env
           (mkDraft (Some sample_ticket) 1 false RA_MODE false) sample_ticket
           (u "ra_need_repair") eq_refl eq_refl eq_refl).
  apply (bool_decide_eq_true_1 (_ ∈ _)). vm_compute. reflexivity.
Defined.

(** ** Dispatcher, creation and close *)

Section Actions.
Context `{PyUnicode} `{Config}.

Lemma on_callback_create upd env d t :
  upd_private upd = true → ticket d = Some t →
  on_callback upd env (u "summary|create") d
  = Some (fst (on_create env d t), AnswerQuery :: snd (on_create env d t)).
Proof.
  intros Hp Ht. unfold on_callback. rewrite Hp, Ht. simpl negb. cbv iota.
  change (startswith (u "veh|") (u "summary|create")) with false.
  change (startswith (u "nav|") (u "summary|create")) with false.
  change (startswith (u "set|") (u "summary|create")) with false.
  change (eqs (u "summary|create") (u "summary|edit")) with false.
  change (eqs (u "summary|create") (u "edit|cancel")) with false.
  change (startswith (u "edit|field|") (u "summary|create")) with false.
  change (startswith (u "dispatch|") (u "summary|create")) with false.
  change (eqs (u "summary|create") (u "summary|create")) with true.
  cbv iota. destruct (on_create env d t). reflexivity.
Qed.

(** The RA button on a ticket with a tracker issue. *)
Lemma enter_ra upd env d t :
  upd_private upd = true → ticket d = Some t → truthy (jira_main t) = true →
  ∃ q, question_text_for (first_ra_step t) = Some q
       ∧ on_callback upd env (u "act|ra|" ++ ticket_id t) d
         = Some (with_step_idx 0 (with_mode RA_MODE d),
                 [AnswerQuery; EditMessage q (Some (kb_choice (first_ra_step t)))]).
Proof.
  intros Hp Ht Hj.
  change (u "act|ra|" ++ ticket_id t) with (u "act|" ++ (u "ra|" ++ ticket_id t)).
  rewrite (on_callback_act _ _ _ _ t Hp Ht).
  change (u "act|" ++ (u "ra|" ++ ticket_id t)) with (u "act|ra|" ++ ticket_id t).
  unfold on_act. rewrite split_act_ra. rewrite eqs_refl. cbn [negb].
  change (eqs (u "ra") (u "ra")) with true. cbv iota. rewrite Hj. cbn [negb].
  rewrite current_step_key_in_range.
  - unfold active_steps. cbn [mode ticket with_mode with_step_idx step_idx].
    rewrite Ht. unfold _steps_for_ra, is_dtp_opt, first_ra_step.
    destruct (bool_decide (incident_type t = Some (u "DTP")));
      eexists; (split; [vm_compute; reflexivity|]); reflexivity.
  - pose proof (active_steps_length (with_step_idx 0 (with_mode RA_MODE d))) as Hl.
    unfold len. cbn [step_idx with_step_idx]. lia.
Qed.

Lemma lock_ra_chat_elem t c :
  SetChatPermissions c ∈ lock_ra_chat_messages t ↔ ra_chat_id t = Some c ∧ c ≠ 0.
Proof.
  unfold lock_ra_chat_messages. destruct (ra_chat_id t) as [z|].
  - destruct (z =? 0) eqn:Hz.
    + apply Z.eqb_eq in Hz. subst z. split.
      * intros Hin. apply elem_of_nil in Hin. destruct Hin.
      * intros [[= <-] Hc]. congruence.
    + apply Z.eqb_neq in Hz. split.
      * intros Hin. apply list_elem_of_singleton in Hin. injection Hin as ->.
        split; [reflexivity | exact Hz].
      * intros [[= ->] _]. apply list_elem_of_here.
  - split; [intros Hin; apply elem_of_nil in Hin; destruct Hin | intros [[=] _]].
Qed.

(** An error of the close operation is never the empty text. *)
Lemma close_error_text answer e :
  close_issue_by_best_transition answer = CloseError e → ∃ c e', e = c :: e'.
Proof.
  unfold close_issue_by_best_transition.
  destruct answer as [[transitions|] err].
  - cbv zeta. set (best := if truthy _ then _ else _).
    destruct best as [[|c i]|]; intros [= <-]; vm_compute; eexists _, _; reflexivity.
  - destruct err as [[|c s]|]; intros [= <-]; vm_compute; eexists _, _; reflexivity.
Qed.

End Actions.

(** X12. The request for a dispatcher on the ticket of the draft never
    changes the draft. Without a dispatcher chat in the configuration, or
    without an RA chat on the ticket, the only call is the edit to the
    text that the chat is not set up: no invite link is made and nothing
    is sent. Otherwise the first call makes an invite link to the RA chat
    and the last call removes the dispatch button, whether the link and
    the two messages succeed or fail. *)
Theorem dispatch_request `{PyUnicode} `{Config}
  (upd : Update) (env : Env) (d : Draft) (t : Ticket) :
  upd_private upd = true → ticket d = Some t →
  ∃ calls,
    on_callback upd env (u "dispatch|" ++ ticket_id t) d = Some (d, AnswerQuery :: calls)
    ∧ if (DISPATCH_ALERT_CHAT_ID =? 0) || negb (truthy_int (ra_chat_id t))
      then calls = [EditMessage T_dispatch_missing_chat None]
      else ∃ c, ra_chat_id t = Some c
                ∧ head calls = Some (CreateChatInviteLink c)
                ∧ last calls = Some (RemoveDispatchButton (ticket_id t)).
Proof.
  intros Hp Ht. rewrite (on_callback_dispatch _ _ _ _ t Hp Ht).
  eexists. split; [reflexivity|].
  unfold on_dispatch. rewrite split_dispatch, eqs_refl. cbn [negb].
  destruct (DISPATCH_ALERT_CHAT_ID =? 0); [reflexivity|]. cbn [orb].
  destruct (ra_chat_id t) as [c|]; [|reflexivity]. cbn [truthy_int].
  destruct (c =? 0) eqn:Hc; cbn [negb].
  { apply Z.eqb_eq in Hc. subst c. reflexivity. }
  apply Z.eqb_neq in Hc. exists c. split; [reflexivity|].
  destruct c as [|p|p]; [congruence| |];
    (split; [reflexivity|]);
    destruct (env_invite_link env) as [link|e]; try reflexivity;
    destruct (env_send_error env DISPATCH_ALERT_CHAT_ID); try reflexivity;
    destruct (env_send_error env (upd_chat_id upd)); reflexivity.
Qed.

Lemma dispatch_request_witness :
  ∃ calls,
    @on_callback latin_cyrillic sample_config sample_update sample_env
      (u "dispatch|" ++ ticket_id sample_ticket)
      (mkDraft (Some sample_ticket) 0 false PRIMARY_MODE false)
    = Some (mkDraft (Some sample_ticket) 0 false PRIMARY_MODE false, AnswerQuery :: calls)
    ∧ calls = [EditMessage T_dispatch_missing_chat None].
Proof.
  exact (@dispatch_request latin_cyrillic sample_config sample_update sample_env
           (mkDraft (Some sample_ticket) 0 false PRIMARY_MODE false) sample_ticket
           eq_refl eq_refl).
Defined.

(** X13. The creation of the tracker issue from the preview. The engine
    shows the progress text and asks the tracker once, with the summary
    line and the primary block of the ticket. When the tracker answers
    with a key, the key is stored as [jira_main], nothing else of the
    draft changes, the message becomes the summary with the RA and close
    buttons, and from then on the RA button is accepted: it puts the
    draft in RA mode with the cursor on the first RA question and shows
    that question. When the tracker gives no key, the draft is as before
    and the message is the escaped error with the preview buttons. *)
Theorem create_issue `{PyUnicode} `{Config}
  (upd : Update) (env : Env) (d : Draft) (t : Ticket) :
  upd_private upd = true → ticket d = Some t →
  ∃ d' calls,
    on_callback upd env (u "summary|create") d
    = Some (d', AnswerQuery :: EditMessage T_progress_creating_issue None
                :: JiraCreate (render_jira_summary t) (compose_primary_block t) :: calls)
    ∧ match nonempty (fst (env_jira_create env)) with
      | Some key =>
          let t' := with_jira_main (Some key) t in
          d' = with_ticket t' d
          ∧ head calls
            = Some (EditMessage (render_after_main t') (Some (kb_after_main_created t')))
          ∧ ∀ upd2 env2,
              upd_private upd2 = true →
              ∃ q, question_text_for (first_ra_step t') = Some q
                   ∧ on_callback upd2 env2 (u "act|ra|" ++ ticket_id t') d'
                     = Some (with_step_idx 0 (with_mode RA_MODE d'),
                             [AnswerQuery;
                              EditMessage q (Some (kb_choice (first_ra_step t')))])
      | None =>
          d' = d
          ∧ calls = [EditMessage
                       (warning (or_str (snd (env_jira_create env)) T_common_jira_create_failed))
                       (Some (kb_summary (ticket_id t)))]
      end.
Proof.
  intros Hp Ht. rewrite (on_callback_create _ _ _ t Hp Ht). unfold on_create.
  destruct (env_jira_create env) as [[[|c k]|] jira_err]; cbn [fst snd nonempty].
  - eexists. eexists. split; [reflexivity|]. split; reflexivity.
  - eexists. eexists. split; [reflexivity|]. cbv zeta.
    split; [reflexivity|]. split; [reflexivity|].
    intros upd2 env2 Hp2. apply enter_ra; [exact Hp2 | reflexivity | reflexivity].
  - eexists. eexists. split; [reflexivity|]. split; reflexivity.
Qed.

Lemma create_issue_witness :
  ∃ d' calls,
    @on_callback latin_cyrillic sample_config sample_update sample_env (u "summary|create")
      (mkDraft (Some sample_ticket) 8 false PRIMARY_MODE false)
    = Some (d', AnswerQuery :: EditMessage T_progress_creating_issue None
                :: JiraCreate (@render_jira_summary latin_cyrillic sample_ticket)
                     (@compose_primary_block latin_cyrillic sample_ticket) :: calls)
    ∧ d' = mkDraft (Some sample_ticket) 8 false PRIMARY_MODE false.
Proof.
  destruct (@create_issue latin_cyrillic sample_config sample_update sample_env
              (mkDraft (Some sample_ticket) 8 false PRIMARY_MODE false) sample_ticket
              eq_refl eq_refl) as (d' & calls & Hrun & Hcase).
  exists d', calls. split; [exact Hrun | exact (proj1 Hcase)].
Defined.

(** X14. The close button on the ticket of the draft never changes the
    draft. It first shows the progress text. Without a tracker issue on
    the ticket the only other call is the edit to the text that the issue
    is not created yet: the tracker is not asked. With a tracker issue the
    transitions are read; the permissions of a chat are restricted
    exactly when the close goes through and that chat is the RA chat of
    the ticket; when the close goes through the run ends with the closed
    text, and when it does not, with the escaped text of an error. *)
Theorem close_action `{PyUnicode} `{Config}
  (upd : Update) (env : Env) (d : Draft) (t : Ticket) :
  upd_private upd = true → ticket d = Some t →
  ∃ calls,
    on_callback upd env (u "act|close|" ++ ticket_id t) d
    = Some (d, AnswerQuery :: EditMessage T_progress_closing_issue None :: calls)
    ∧ match nonempty (jira_main t) with
      | None => calls = [EditMessage T_jira_need_main_issue None]
      | Some key =>
          head calls = Some (JiraGetTransitions key)
          ∧ (∀ c, SetChatPermissions c ∈ calls
                  ↔ close_succeeds env ∧ ra_chat_id t = Some c ∧ c ≠ 0)
          ∧ (close_succeeds env →
             last calls = Some (EditMessage T_common_issue_closed None))
          ∧ (¬ close_succeeds env →
             ∃ err, err ≠ [] ∧ last calls = Some (EditMessage (_html_escape err) None))
      end.
Proof.
  intros Hp Ht.
  change (u "act|close|" ++ ticket_id t) with (u "act|" ++ (u "close|" ++ ticket_id t)).
  rewrite (on_callback_act _ _ _ _ t Hp Ht).
  change (u "act|" ++ (u "close|" ++ ticket_id t)) with (u "act|close|" ++ ticket_id t).
  unfold on_act. rewrite split_act_close. rewrite eqs_refl. cbn [negb].
  change (eqs (u "close") (u "ra")) with false.
  change (eqs (u "close") (u "close")) with true. cbv iota.
  destruct (jira_main t) as [[|c0 key]|]; cbn [nonempty fst snd];
    [eexists; split; reflexivity| |eexists; split; reflexivity].
  unfold close_succeeds.
  destruct (close_issue_by_best_transition (env_jira_transitions env)) as [e|i] eqn:Hclose.
  - (* no transition is chosen *)
    pose proof (close_error_text _ _ Hclose) as (c1 & e1 & ->).
    eexists. split; [reflexivity|]. cbn [fst snd app head].
    split; [reflexivity|]. split; [|split].
    + intros c. split.
      * intros Hin. exfalso.
        repeat (apply elem_of_cons in Hin as [Hin|Hin]; [discriminate Hin|]).
        apply elem_of_nil in Hin. exact Hin.
      * intros [(i & Hi & _) _]. discriminate Hi.
    + intros (i & Hi & _). discriminate Hi.
    + intros _. exists (c1 :: e1). split; [discriminate | reflexivity].
  - destruct (env_jira_do_transition env) as [[|c1 e1]|] eqn:Hdo.
    1, 3: (* the transition goes through *)
      eexists; (split; [reflexivity|]); cbn [fst snd app head];
      (split; [reflexivity|]); (split; [|split]);
      [ intros c; rewrite elem_of_cons, elem_of_cons, elem_of_app, lock_ra_chat_elem,
          list_elem_of_singleton;
        split;
        [ intros [Hin|[Hin|[Hin|Hin]]]; try discriminate Hin;
          split; [exists i; split; reflexivity | exact Hin]
        | intros [_ Hin]; right; right; left; exact Hin ]
      | intros _;
        change (?a :: ?b :: ?l ++ [?x]) with ((a :: b :: l) ++ [x]);
        apply last_snoc
      | intros Hno; exfalso; apply Hno; exists i; split; reflexivity ].
    (* the tracker reports an error for the transition *)
    eexists. split; [reflexivity|]. cbn [fst snd app head].
    split; [reflexivity|]. split; [|split].
    + intros c. split.
      * intros Hin. exfalso.
        repeat (apply elem_of_cons in Hin as [Hin|Hin]; [discriminate Hin|]).
        apply elem_of_nil in Hin. exact Hin.
      * intros [(i' & _ & Hi) _]. discriminate Hi.
    + intros (i' & _ & Hi). discriminate Hi.
    + intros _. exists (c1 :: e1). split; [discriminate | reflexivity].
Qed.

Lemma close_action_witness :
  ∃ calls,
    @on_callback latin_cyrillic sample_config sample_update sample_env
      (u "act|close|" ++ ticket_id sample_ticket)
      (mkDraft (Some sample_ticket) 0 false PRIMARY_MODE false)
    = Some (mkDraft (Some sample_ticket) 0 false PRIMARY_MODE false,
            AnswerQuery :: EditMessage T_progress_closing_issue None :: calls)
    ∧ calls = [EditMessage T_jira_need_main_issue None].
Proof.
  exact (@close_action latin_cyrillic sample_config sample_update sample_env
           (mkDraft (Some sample_ticket) 0 false PRIMARY_MODE false) sample_ticket
           eq_refl eq_refl).
Defined.

(** ** The RA questions from the first to the last *)

Section RaRun.
Context `{PyUnicode} `{Config}.





Lemma on_callback_set_token upd env d t key value :
  upd_private upd = true → ticket d = Some t → bar ∉ key →
  on_callback upd env (set_token key value) d
  = '(d', calls) ← on_set_field env key value d t; Some (d', AnswerQuery :: calls).
Proof.
  intros Hp Ht Hbar. unfold set_token.
  rewrite (on_callback_set _ _ _ _ t Hp Ht). unfold on_set.
  rewrite (split_set _ _ Hbar). reflexivity.
Qed.



End RaRun.



(** ** Removing the dispatch button *)

Section DispatchButton.

Lemma concat_nonempty_rows (rows : list (list Button)) :
  concat (List.filter nonempty_row rows) = concat rows.
Proof.
  induction rows as [|row rows IH]; [reflexivity|].
  destruct row as [|b row]; simpl; [exact IH|]. rewrite IH. reflexivity.
Qed.

Lemma existsb_rows p (rows : list (list Button)) :
  existsb (existsb p) rows = existsb p (concat rows).
Proof.
  induction rows as [|row rows IH]; [reflexivity|].
  simpl. rewrite existsb_app, IH. reflexivity.
Qed.

Lemma existsb_filter_negb p (l : list Button) :
  existsb p (List.filter (λ b, negb (p b)) l) = false.
Proof.
  induction l as [|b l IH]; [reflexivity|]. simpl.
  destruct (p b) eqn:Hb; simpl; [exact IH|]. rewrite Hb. exact IH.
Qed.

Lemma filter_negb_none p (l : list Button) :
  existsb p l = false → List.filter (λ b, negb (p b)) l = l.
Proof.
  induction l as [|b l IH]; [reflexivity|]. simpl.
  destruct (p b); [discriminate|]. simpl. intros Hl. rewrite (IH Hl). reflexivity.
Qed.

Lemma new_rows_buttons ticket_id (rows : list (list Button)) :
  concat (List.filter nonempty_row
            (map (List.filter (λ b, negb (is_dispatch_button ticket_id b))) rows))
  = List.filter (λ b, negb (is_dispatch_button ticket_id b)) (concat rows).
Proof. rewrite concat_nonempty_rows. apply concat_filter_map. Qed.

Lemma buttons_of_result (new_rows : list (list Button)) :
  buttons_of (match new_rows with [] => None | _ => Some new_rows end) = concat new_rows.
Proof. destruct new_rows; reflexivity. Qed.

End DispatchButton.

(** X16. Removing the dispatch button of a ticket from the keyboard of a
    message. The keyboard is edited exactly when one of its buttons
    carries the dispatch token of that ticket. The buttons of the new
    keyboard are the other buttons in their order, none of its rows is
    empty, and a keyboard without any button left is no keyboard. Removing
    the button again from the new keyboard edits nothing. *)
Theorem remove_dispatch_button_spec (markup : option Markup) (ticket_id : pystr) :
  (remove_dispatch_button markup ticket_id = None
   ↔ existsb (is_dispatch_button ticket_id) (buttons_of markup) = false)
  ∧ (∀ new, remove_dispatch_button markup ticket_id = Some new →
            buttons_of new
            = List.filter (λ b, negb (is_dispatch_button ticket_id b)) (buttons_of markup)
            ∧ Forall (λ row, row ≠ []) (default [] new)
            ∧ new ≠ Some []
            ∧ remove_dispatch_button new ticket_id = None).
Proof.
  assert (Hiff : remove_dispatch_button markup ticket_id = None
                 ↔ existsb (is_dispatch_button ticket_id) (buttons_of markup) = false).
  { unfold remove_dispatch_button, buttons_of.
    destruct markup as [[|row rows]|]; [split; reflexivity | | split; reflexivity].
    change (default [] (Some (row :: rows))) with (row :: rows).
    rewrite <- existsb_rows.
    destruct (existsb (existsb (is_dispatch_button ticket_id)) (row :: rows));
      cbn [negb]; split; intros Hx; first [reflexivity | discriminate Hx]. }
  split; [exact Hiff|].
  intros new Hnew.
  assert (Hb : buttons_of new
               = List.filter (λ b, negb (is_dispatch_button ticket_id b)) (buttons_of markup)
               ∧ Forall (λ row, row ≠ []) (default [] new) ∧ new ≠ Some []).
  { unfold remove_dispatch_button in Hnew.
    destruct markup as [[|row rows]|]; try discriminate Hnew.
    destruct (negb (existsb (existsb (is_dispatch_button ticket_id)) (row :: rows)));
      [discriminate Hnew|].
    apply (inj Some) in Hnew. subst new. split; [|split].
    - rewrite buttons_of_result. unfold buttons_of.
      change (default [] (Some (row :: rows))) with (row :: rows). apply new_rows_buttons.
    - set (new_rows := List.filter nonempty_row _).
      assert (Forall (λ r : list Button, r ≠ []) new_rows) as Hall.
      { apply Forall_forall. intros r Hr. unfold new_rows in Hr.
        apply list_elem_of_In, filter_In in Hr as [_ Hr]. intros ->. discriminate Hr. }
      destruct new_rows; [constructor | exact Hall].
    - destruct (List.filter nonempty_row _); discriminate. }
  destruct Hb as (Hb & Hrows & Hne). split; [exact Hb|]. split; [exact Hrows|].
  split; [exact Hne|].
  unfold remove_dispatch_button.
  destruct new as [[|row rows]|]; [reflexivity | | reflexivity].
  rewrite existsb_rows. change (concat (row :: rows)) with (buttons_of (Some (row :: rows))).
  rewrite Hb, existsb_filter_negb. reflexivity.
Qed.

Lemma remove_dispatch_button_spec_witness :
  buttons_of
    (Some [[CallbackButton T_buttons_close_all (u "act|close|k3x9q2ab")];
           [UrlButton T_buttons_open_chat (u "https://t.me/+abc")]])
  = List.filter (λ b, negb (is_dispatch_button (u "k3x9q2ab") b))
      (buttons_of
         (Some [[CallbackButton T_buttons_close_all (u "act|close|k3x9q2ab")];
                [CallbackButton T_dispatch_button_text (u "dispatch|k3x9q2ab")];
                [UrlButton T_buttons_open_chat (u "https://t.me/+abc")]])).
Proof.
  apply (proj2 (remove_dispatch_button_spec
                  (Some [[CallbackButton T_buttons_close_all (u "act|close|k3x9q2ab")];
                         [CallbackButton T_dispatch_button_text (u "dispatch|k3x9q2ab")];
                         [UrlButton T_buttons_open_chat (u "https://t.me/+abc")]])
                  (u "k3x9q2ab"))).
  vm_compute. reflexivity.
Defined.

(** X17. The keyboard under the summary of a ticket after the RA
    questions, once the dispatch button is removed: when the ticket has an
    RA chat the keyboard is edited to what it would be for a ticket
    without RA chat, the close button and the link to the chat staying in
    place; when the ticket has no RA chat there is no dispatch button and
    nothing is edited. *)
Theorem remove_dispatch_button_after_ra (t : Ticket) (invite_link : option pystr) :
  remove_dispatch_button (Some (kb_after_ra t invite_link)) (ticket_id t)
  = if truthy_int (ra_chat_id t)
    then Some (Some (kb_after_ra (with_ra_chat_id None t) invite_link))
    else None.
Proof.
  unfold kb_after_ra, remove_dispatch_button.
  change (ra_chat_id (with_ra_chat_id None t)) with (@None Z).
  change (ticket_id (with_ra_chat_id None t)) with (ticket_id t).
  assert (is_dispatch_button (ticket_id t)
            (CallbackButton T_buttons_close_all (u "act|close|" ++ ticket_id t)) = false)
    as Hclose by (apply bool_decide_eq_false_2; discriminate).
  assert (is_dispatch_button (ticket_id t)
            (CallbackButton T_dispatch_button_text (u "dispatch|" ++ ticket_id t)) = true)
    as Hdisp by (apply bool_decide_eq_true_2; reflexivity).
  assert (∀ l, is_dispatch_button (ticket_id t) (UrlButton T_buttons_open_chat l) = false)
    as Hurl by (intros l; apply bool_decide_eq_false_2; discriminate).
  destruct (truthy_int (ra_chat_id t)); destruct invite_link as [[|c l]|];
    cbn [app map List.filter existsb truthy_int];
    rewrite ?Hclose, ?Hdisp, ?Hurl; cbn [negb orb List.filter nonempty_row app];
    rewrite ?Hclose, ?Hdisp, ?Hurl; reflexivity.
Qed.

(** ** Every button is handled *)

Section Keyboards.
Context `{PyUnicode} `{Config}.

Lemma token_typed_handled upd env data d :
  token_typed data = true → is_Some (on_callback upd env data d).
Proof.
  intros Hty. destruct (on_callback upd env data d) as [r|] eqn:Hr; [eexists; reflexivity|].
  exfalso. unfold token_typed in Hty. apply andb_true_iff in Hty as [Hnav Hset].
  apply on_callback_None in Hr as [[Hs Hin]|[Hs Heq]].
  - rewrite Hs, (bool_decide_eq_true_2 _ Hin) in Hnav. discriminate Hnav.
  - rewrite Hs, (bool_decide_eq_true_2 _ Heq) in Hset. discriminate Hset.
Qed.

Lemma step_keys_keyboards key :
  key ∈ map fst STEP_INPUT_KIND →
  forallb (forallb button_typed) (kb_choice key) = true
  ∧ (∀ back skip, forallb (forallb button_typed) (kb_nav key back skip) = true).
Proof.
  intros Hk. apply list_elem_of_In in Hk.
  change (map fst STEP_INPUT_KIND) with
    [u "incident_type"; u "incident_source"; u "dtp_type"; u "brand"; u "plate_vats";
     u "plate_ref"; u "dtp_vehicles"; u "location"; u "dtp_damage_text";
     u "obstacle_on_road"; u "break_symptoms"; u "problem_desc"; u "notes";
     u "ra_need_dtp_formalization"; u "ra_need_diagnosis"; u "ra_need_repair";
     u "ra_need_evacuation"; u "ra_called_112"] in Hk.
  repeat (destruct Hk as [<-|Hk]); [..|destruct Hk];
    (split; [vm_compute; reflexivity|]);
    intros [|] [[|]|]; vm_compute; reflexivity.
Qed.

Lemma other_prefix_typed (p x : pystr) :
  startswith (u "nav|") (p ++ x) = false → startswith (u "set|") (p ++ x) = false →
  button_typed (CallbackButton [] (p ++ x)) = true.
Proof.
  intros Hn Hs. unfold button_typed, token_typed. cbn [callback_data].
  rewrite Hn, Hs. reflexivity.
Qed.

Lemma engine_keyboard_typed kb :
  engine_keyboard kb → Forall (Forall (λ b, button_typed b = true)) kb.
Proof.
  assert (Hbool : ∀ kb0 : Markup, forallb (forallb button_typed) kb0 = true →
                  Forall (Forall (λ b, button_typed b = true)) kb0).
  { intros kb0 Hb. apply Forall_forall. intros row Hrow. apply Forall_forall. intros b Hb'.
    rewrite forallb_forall in Hb. apply list_elem_of_In in Hrow, Hb'.
    specialize (Hb row Hrow). rewrite forallb_forall in Hb. apply Hb, Hb'. }
  destruct 1 as [key Hk|key back skip Hk|v|id|d|t|t link].
  - apply Hbool, (step_keys_keyboards key Hk).
  - apply Hbool, (step_keys_keyboards key Hk).
  - apply Hbool. vm_compute. reflexivity.
  - apply Hbool. vm_compute. reflexivity.
  - unfold kb_edit_field_list. apply Forall_app. split.
    + apply Forall_forall. intros row Hrow.
      apply list_elem_of_fmap in Hrow as (key & -> & _).
      repeat constructor.
    + repeat constructor.
  - unfold kb_after_main_created. repeat constructor.
  - unfold kb_after_ra.
    destruct (truthy_int (ra_chat_id t)); destruct link as [[|c l]|]; repeat constructor.
Qed.

End Keyboards.

(** X18. Every question can be asked and every button is handled. A step
    of an active list has a question and a keyboard, so that asking it
    never fails with [KeyError]. And a button of a keyboard the engine
    builds, pressed in whatever state the draft then is, is handled
    within the declared types of the ticket: its token clears none of
    [id], [created_at] and [user_id] and stores no text in the vehicle
    counts. *)
Theorem buttons_handled `{PyUnicode} `{Config} :
  (∀ d t key, key ∈ active_steps d → is_Some (step_prompt t key))
  ∧ (∀ kb row b data upd env d,
       engine_keyboard kb → row ∈ kb → b ∈ row → callback_data b = Some data →
       is_Some (on_callback upd env data d)).
Proof.
  split.
  - intros d t key Hk.
    assert (is_Some (question_text_for key)) as [q Hq].
    { revert Hk.
      unfold active_steps, _steps_for_primary, _steps_for_ra, _maybe_add_plate_ref.
      assert (∀ l : list pystr,
                bool_decide (Forall (λ k, is_Some (question_text_for k)) l) = true →
                key ∈ l → is_Some (question_text_for key)) as Hsub.
      { intros l Hl Hin. apply bool_decide_eq_true_1 in Hl.
        exact (proj1 (Forall_forall _ _) Hl key Hin). }
      intros Hk.
      destruct (mode d), (is_dtp_opt (ticket d)), (is_sitrak_opt (ticket d));
        (eapply Hsub; [|exact Hk]); vm_compute; reflexivity. }
    destruct (active_steps_kind d key Hk) as [kind Hkind].
    unfold step_prompt. rewrite Hkind, Hq. destruct kind; eexists; reflexivity.
  - intros kb row b data upd env d Hkb Hrow Hb Hdata.
    apply token_typed_handled.
    pose proof (engine_keyboard_typed kb Hkb) as Hall.
    pose proof (proj1 (Forall_forall _ _) Hall row Hrow) as Hr.
    pose proof (proj1 (Forall_forall _ _) Hr b Hb) as Hty.
    unfold button_typed in Hty. rewrite Hdata in Hty. exact Hty.
Qed.

Lemma buttons_handled_witness :
  is_Some (@on_callback latin_cyrillic sample_config sample_update sample_env
             (u "nav|skip|brand") new_draft).
Proof.
  apply (proj2 (@buttons_handled latin_cyrillic sample_config)
           (kb_choice (u "brand")) [CallbackButton T_buttons_skip (u "nav|skip|brand")]
           (CallbackButton T_buttons_skip (u "nav|skip|brand")) (u "nav|skip|brand")).
  - apply ek_choice. apply (bool_decide_eq_true_1 (_ ∈ _)). vm_compute. reflexivity.
  - apply list_elem_of_In. vm_compute. right. right. left. reflexivity.
  - apply list_elem_of_here.
  - reflexivity.
Defined.

(** ** Answers by button outside editing *)

Section ChoiceAnswers.
Context `{PyUnicode} `{Config}.

(** A step keeps its position in the primary list when its own answer
    changes the list, and is not the last step if it is answered by a
    button. *)
Lemma primary_choice_position tk tk' key n :
  py_index key (_steps_for_primary tk) = Some n →
  dict_get STEP_INPUT_KIND key = Some KChoice →
  (key ≠ u "incident_type" → is_dtp_opt tk' = is_dtp_opt tk) →
  (key ≠ u "brand" → is_sitrak_opt tk' = is_sitrak_opt tk) →
  nth n (_steps_for_primary tk') [] = key
  ∧ (S n < length (_steps_for_primary tk'))%nat.
Proof.
  intros Hidx Hkind Hdtp Hsit.
  assert (key ∈ _steps_for_primary tk) as Hin.
  { apply py_index_spec in Hidx as [Hlt <-]. apply list_elem_of_In, nth_In, Hlt. }
  unfold _steps_for_primary, _maybe_add_plate_ref in *.
  destruct (is_dtp_opt tk), (is_sitrak_opt tk);
    repeat (apply elem_of_cons in Hin as [->|Hin]);
    try (apply elem_of_nil in Hin; destruct Hin);
    try (vm_compute in Hkind; discriminate Hkind);
    vm_compute in Hidx; injection Hidx as <-;
    try (rewrite Hdtp by (vm_compute; discriminate));
    try (rewrite Hsit by (vm_compute; discriminate));
    destruct (is_dtp_opt tk'), (is_sitrak_opt tk');
    (split; [vm_compute; reflexivity | vm_compute; lia]).
Qed.

(** The flags of the list of steps after a field is stored. *)
Lemma set_field_local_flags t key value t1 :
  key ∈ ALL_KNOWN_KEYS → set_field_local t key (Some value) = Some t1 →
  (key ≠ u "incident_type" → is_dtp_opt (Some t1) = is_dtp_opt (Some t))
  ∧ (key ≠ u "brand" → is_sitrak_opt (Some t1) = is_sitrak_opt (Some t)).
Proof.
  intros Hk Hs. unfold is_dtp_opt, is_sitrak_opt.
  apply list_elem_of_In in Hk. unfold ALL_KNOWN_KEYS in Hk.
  repeat (destruct Hk as [<-|Hk]); [..|destruct Hk];
    vm_compute in Hs; first [discriminate Hs | injection Hs as <-];
    split; intros Hne; first [reflexivity | destruct Hne; reflexivity].
Qed.

End ChoiceAnswers.

(** X19. Outside editing, in primary mode, the button that answers the
    question under the cursor: the value is stored, the cursor moves one
    step on, and the question of the step it is then on is shown, taken
    from the list of steps as it is after the answer (an answer to the
    incident type or to the brand may change the list). The request for a
    free-form incident source and a change of a brand that was set are
    left aside: they ask for a text and for the plate. *)
Theorem choice_answer_advances `{PyUnicode} `{Config}
  (upd : Update) (env : Env) (d : Draft) (t : Ticket) (value : pystr) :
  upd_private upd = true → ticket d = Some t →
  mode d = PRIMARY_MODE → editing d = false →
  0 ≤ step_idx d < len (active_steps d) →
  let key := item (active_steps d) (step_idx d) in
  dict_get STEP_INPUT_KIND key = Some KChoice →
  brand_changes t key value = false →
  ¬ (key = u "incident_source" ∧ value = INCIDENT_SOURCE_CUSTOM_VALUE) →
  ∃ t1 d',
    set_field_local t key (Some value) = Some t1
    ∧ on_callback upd env (set_token key value) d
      = Some (d', AnswerQuery
                  :: edit_prompt t1 (item (active_steps d') (step_idx d + 1)))
    ∧ ticket d' = Some t1 ∧ step_idx d' = step_idx d + 1
    ∧ mode d' = PRIMARY_MODE ∧ editing d' = false
    ∧ _incident_source_custom_input d'
      = (if eqs key (u "incident_source") then false
         else _incident_source_custom_input d).
Proof.
  intros Hp Ht Hm He Hi key Hkind Hbc Hcustom.
  destruct (item_index d (step_idx d) Hi) as [Hin Hidx]. fold key in Hin, Hidx.
  clearbody key.
  pose proof (active_steps_known d key Hin) as Hknown.
  pose proof (active_steps_no_bar d key Hin) as Hbar.
  destruct (step_kind_key _ _ Hkind) as [_ [_ Hnd]].
  destruct (set_field_local_known t key value Hknown Hnd) as (t1 & Hs & _).
  destruct (set_field_local_flags t key value t1 Hknown Hs) as [Hdtp Hsit].
  exists t1.
  rewrite (on_callback_set_token upd env d t key value Hp Ht Hbar).
  unfold on_set_field. rewrite (bool_decide_eq_true_2 _ Hknown). cbn [negb].
  assert (eqs key (u "incident_source") && eqs value INCIDENT_SOURCE_CUSTOM_VALUE = false)
    as ->.
  { apply andb_false_iff.
    destruct (eqs key (u "incident_source")) eqn:E1; [|left; reflexivity].
    destruct (eqs value INCIDENT_SOURCE_CUSTOM_VALUE) eqn:E2; [|right; reflexivity].
    apply eqs_true in E1, E2. destruct Hcustom. split; assumption. }
  rewrite Hs. cbn [mbind option_bind].
  assert ((eqs key (u "brand")
           && match (if eqs key (u "brand") then brand t else None) with
              | Some p => negb (eqs p value)
              | None => false
              end) = false) as ->.
  { unfold brand_changes in Hbc.
    destruct (eqs key (u "brand")); [exact Hbc | reflexivity]. }
  cbv beta iota zeta.
  set (d0 := if eqs key (u "incident_source")
             then _set_incident_source_custom_mode d false else d).
  set (d1 := with_ticket t1 d0).
  assert (ticket d1 = Some t1 ∧ mode d1 = PRIMARY_MODE ∧ editing d1 = false
          ∧ step_idx d1 = step_idx d
          ∧ _incident_source_custom_input d1
            = (if eqs key (u "incident_source") then false
               else _incident_source_custom_input d))
    as (Ht1 & Hm1 & He1 & Hi1 & Hf1).
  { unfold d1, d0. destruct (eqs key (u "incident_source")); repeat split; assumption. }
  assert (active_steps d1 = _steps_for_primary (Some t1)) as Hsteps1
    by (unfold active_steps; rewrite Hm1, Ht1; reflexivity).
  assert (active_steps d = _steps_for_primary (Some t)) as Hsteps
    by (unfold active_steps; rewrite Hm, Ht; reflexivity).
  rewrite Hsteps in Hidx.
  destruct (primary_choice_position (Some t) (Some t1) key _ Hidx Hkind Hdtp Hsit)
    as [Hpos Hnext].
  rewrite <- Hsteps1 in Hpos, Hnext.
  assert (0 ≤ step_idx d1 < len (active_steps d1)) as Hr1.
  { rewrite Hi1. unfold len. lia. }
  assert (item (active_steps d1) (step_idx d1) = key) as Hcur
    by (unfold item; rewrite Hi1; exact Hpos).
  clearbody d1. clear d0.
  rewrite He1. cbn [andb negb].
  set (d2 := if eqs key (u "incident_type") || eqs key (u "brand") then _ else d1).
  assert (d2 = d1) as ->.
  { unfold d2. destruct (eqs key (u "incident_type") || eqs key (u "brand"));
      [|reflexivity].
    rewrite (current_step_key_in_range d1 Hr1).
    rewrite bool_decide_eq_true_2; [reflexivity|].
    rewrite Hcur. unfold item in Hcur. rewrite <- Hcur.
    apply list_elem_of_In, nth_In. unfold len in Hr1. lia. }
  rewrite (current_step_key_in_range d1 Hr1). rewrite Hcur, eqs_refl, He1.
  cbn [andb].
  assert (is_last_step d1 = false) as ->.
  { unfold is_last_step. apply Z.leb_gt. rewrite Hi1. unfold len. lia. }
  cbn [andb]. unfold goto_next_step. rewrite Z.min_l by (rewrite Hi1; unfold len; lia).
  rewrite current_step_key_in_range.
  2: { change (active_steps (with_step_idx ?j d1)) with (active_steps d1).
       cbn [step_idx with_step_idx]. rewrite Hi1. unfold len. lia. }
  change (active_steps (with_step_idx ?j d1)) with (active_steps d1).
  cbn [step_idx with_step_idx]. rewrite Hi1.
  exists (with_step_idx (step_idx d + 1) d1).
  split; [reflexivity|]. split; [reflexivity|].
  split; [exact Ht1|]. split; [reflexivity|]. split; [exact Hm1|].
  split; [exact He1 | exact Hf1].
Qed.

Lemma choice_answer_advances_witness :
  ∃ t1 d',
    set_field_local sample_ticket (u "incident_type") (Some (u "DTP")) = Some t1
    ∧ @on_callback latin_cyrillic sample_config sample_update sample_env
        (set_token (u "incident_type") (u "DTP"))
        (mkDraft (Some sample_ticket) 0 false PRIMARY_MODE false)
      = Some (d', AnswerQuery :: edit_prompt t1 (item (active_steps d') 1))
    ∧ ticket d' = Some t1 ∧ step_idx d' = 1.
Proof.
  destruct (@choice_answer_advances latin_cyrillic sample_config sample_update sample_env
              (mkDraft (Some sample_ticket) 0 false PRIMARY_MODE false) sample_ticket
              (u "DTP") eq_refl eq_refl eq_refl eq_refl
              ltac:(vm_compute; split; [discriminate | reflexivity])
              ltac:(vm_compute; reflexivity) ltac:(vm_compute; reflexivity)
              ltac:(intros [Hk _]; vm_compute in Hk; discriminate Hk))
    as (t1 & d' & Hs & Hrun & Ht & Hi & _).
  exists t1, d'. split; [exact Hs|]. split; [exact Hrun|]. split; [exact Ht | exact Hi].
Defined.

(** ** Skip and done outside editing *)

Section SkipDone.
Context `{PyUnicode} `{Config}.

(** Whether a step is the last one is not changed by the skip of its
    own field. *)
Lemma primary_skip_last tk tk' key n :
  py_index key (_steps_for_primary tk) = Some n →
  (key ≠ u "incident_type" → is_dtp_opt tk' = is_dtp_opt tk) →
  (key ≠ u "brand" → is_sitrak_opt tk' = is_sitrak_opt tk) →
  (length (_steps_for_primary tk') - 1 ≤ n)%nat
  ↔ (length (_steps_for_primary tk) - 1 ≤ n)%nat.
Proof.
  intros Hidx Hdtp Hsit.
  assert (key ∈ _steps_for_primary tk) as Hin.
  { apply py_index_spec in Hidx as [Hlt <-]. apply list_elem_of_In, nth_In, Hlt. }
  unfold _steps_for_primary, _maybe_add_plate_ref in *.
  destruct (is_dtp_opt tk), (is_sitrak_opt tk);
    repeat (apply elem_of_cons in Hin as [->|Hin]);
    try (apply elem_of_nil in Hin; destruct Hin);
    vm_compute in Hidx; injection Hidx as <-;
    try (rewrite Hdtp by (vm_compute; discriminate));
    try (rewrite Hsit by (vm_compute; discriminate));
    try reflexivity;
    destruct (is_dtp_opt tk'), (is_sitrak_opt tk'); vm_compute; lia.
Qed.

Lemma skip_assign_flags t key ts :
  key ∈ ALL_KNOWN_KEYS → skip_assign t key = Some ts →
  (key ≠ u "incident_type" → is_dtp_opt (Some ts) = is_dtp_opt (Some t))
  ∧ (key ≠ u "brand" → is_sitrak_opt (Some ts) = is_sitrak_opt (Some t)).
Proof.
  intros Hk Hs. unfold is_dtp_opt, is_sitrak_opt.
  apply list_elem_of_In in Hk. unfold ALL_KNOWN_KEYS in Hk.
  repeat (destruct Hk as [<-|Hk]); [..|destruct Hk];
    vm_compute in Hs; first [discriminate Hs | injection Hs as <-];
    split; intros Hne; first [reflexivity | destruct Hne; reflexivity].
Qed.

End SkipDone.

(** X20. Outside editing, in primary mode, with the cursor on a step of
    the list. The skip button of that step stores the empty value of its
    field; on the last step the cursor stays and the preview is shown,
    on any other step the cursor moves one step on and the question of
    the step it is then on is shown, from the list as it is after the
    skip. The done button of the vehicle counter, on a step that is not
    the last, moves the cursor one step on and shows the next question,
    and changes nothing else. *)
Theorem skip_and_done_advance `{PyUnicode} `{Config}
  (upd : Update) (env : Env) (d : Draft) (t : Ticket) :
  upd_private upd = true → ticket d = Some t →
  mode d = PRIMARY_MODE → editing d = false →
  0 ≤ step_idx d < len (active_steps d) →
  (let key := item (active_steps d) (step_idx d) in
   ∃ ts d' calls,
     skip_assign t key = Some ts
     ∧ on_callback upd env (u "nav|skip|" ++ key) d = Some (d', AnswerQuery :: calls)
     ∧ ticket d' = Some ts ∧ mode d' = PRIMARY_MODE ∧ editing d' = false
     ∧ if len (active_steps d) - 1 <=? step_idx d
       then step_idx d' = step_idx d ∧ calls = [edit_preview ts]
       else step_idx d' = step_idx d + 1
            ∧ calls = edit_prompt ts (item (active_steps d') (step_idx d + 1)))
  ∧ (step_idx d < len (active_steps d) - 1 →
     on_callback upd env (u "veh|done") d
     = Some (with_step_idx (step_idx d + 1) d,
             AnswerQuery :: edit_prompt t (item (active_steps d) (step_idx d + 1)))).
Proof.
  intros Hp Ht Hm He Hi. split.
  - intros key. destruct (item_index d (step_idx d) Hi) as [Hin Hidx].
    fold key in Hin, Hidx. clearbody key.
    pose proof (active_steps_known d key Hin) as Hknown.
    pose proof (active_steps_no_bar d key Hin) as Hbar.
    destruct (skip_assign_known t key Hknown) as (ts & Hs & _).
    destruct (skip_assign_flags t key ts Hknown Hs) as [Hdtp Hsit].
    exists ts.
    change (u "nav|skip|" ++ key) with (u "nav|" ++ (u "skip|" ++ key)).
    rewrite (on_callback_nav _ _ _ _ t Hp Ht).
    change (u "nav|" ++ (u "skip|" ++ key)) with (u "nav|skip|" ++ key).
    unfold on_nav. rewrite (split_nav_skip _ Hbar).
    change (nth 1 [u "nav"; u "skip"; key] []) with (u "skip").
    change (eqs (u "skip") (u "back")) with false.
    change (eqs (u "skip") (u "skip")) with true. cbv iota.
    rewrite Hs. cbn [mbind option_bind].
    set (d1 := if eqs key (u "incident_source") then _ else with_ticket ts d).
    assert (ticket d1 = Some ts ∧ mode d1 = PRIMARY_MODE ∧ editing d1 = false
            ∧ step_idx d1 = step_idx d) as (Ht1 & Hm1 & He1 & Hi1).
    { unfold d1. destruct (eqs key (u "incident_source")); repeat split; assumption. }
    assert (active_steps d1 = _steps_for_primary (Some ts)) as Hsteps1
      by (unfold active_steps; rewrite Hm1, Ht1; reflexivity).
    assert (active_steps d = _steps_for_primary (Some t)) as Hsteps
      by (unfold active_steps; rewrite Hm, Ht; reflexivity).
    pose proof Hidx as Hidx'. rewrite Hsteps in Hidx'.
    pose proof (primary_skip_last (Some t) (Some ts) key _ Hidx' Hdtp Hsit) as Hlast.
    rewrite <- Hsteps1, <- Hsteps in Hlast.
    clearbody d1.
    assert (finish_ra_flow_if_needed env d1 ts = None) as ->
      by (unfold finish_ra_flow_if_needed, is_ra; rewrite Hm1; reflexivity).
    rewrite He1. cbn [orb].
    assert (is_last_step d1 = (len (active_steps d) - 1 <=? step_idx d)) as ->.
    { unfold is_last_step. rewrite Hi1. unfold len.
      destruct (Z.of_nat (length (active_steps d)) - 1 <=? step_idx d) eqn:Hl.
      - apply Z.leb_le. apply Z.leb_le in Hl.
        assert (length (active_steps d) - 1 ≤ Z.to_nat (step_idx d))%nat as Hn by lia.
        apply Hlast in Hn. lia.
      - apply Z.leb_gt. apply Z.leb_gt in Hl.
        destruct (decide (length (active_steps d1) - 1 ≤ Z.to_nat (step_idx d))%nat)
          as [Hn|Hn]; [|lia].
        apply Hlast in Hn. lia. }
    destruct (len (active_steps d) - 1 <=? step_idx d) eqn:Hl.
    + exists d1, [edit_preview ts]. split; [reflexivity|]. split; [reflexivity|].
      split; [exact Ht1|]. split; [exact Hm1|]. split; [exact He1|].
      split; [exact Hi1 | reflexivity].
    + apply Z.leb_gt in Hl.
      assert (step_idx d + 1 < len (active_steps d1)) as Hnext.
      { unfold len in *.
        destruct (decide (length (active_steps d1) - 1 ≤ Z.to_nat (step_idx d))%nat)
          as [Hn|Hn]; [|lia].
        apply Hlast in Hn. lia. }
      unfold goto_next_step. rewrite Hi1. rewrite Z.min_l by lia.
      rewrite current_step_key_in_range.
      2: { change (active_steps (with_step_idx ?j d1)) with (active_steps d1).
           cbn [step_idx with_step_idx]. lia. }
      change (active_steps (with_step_idx ?j d1)) with (active_steps d1).
      cbn [step_idx with_step_idx].
      exists (with_step_idx (step_idx d + 1) d1), 
        (edit_prompt ts (item (active_steps d1) (step_idx d + 1))).
      split; [reflexivity|]. split; [reflexivity|].
      split; [exact Ht1|]. split; [exact Hm1|]. split; [exact He1|].
      split; reflexivity.
  - intros Hnl.
    change (u "veh|done") with (u "veh|" ++ u "done").
    rewrite (on_callback_veh _ _ _ _ t Hp Ht).
    change (u "veh|" ++ u "done") with (u "veh|done").
    unfold on_veh. rewrite split_veh_done.
    change (eqs (u "done") (u "plus") || eqs (u "done") (u "minus")) with false.
    change (eqs (u "done") (u "done")) with true. cbv iota.
    rewrite He. cbn [andb].
    assert (is_last_step d = false) as -> by (unfold is_last_step; apply Z.leb_gt; lia).
    cbn [andb]. unfold goto_next_step. rewrite Z.min_l by lia.
    rewrite current_step_key_in_range.
    + reflexivity.
    + change (active_steps (with_step_idx ?j d)) with (active_steps d).
      cbn [step_idx with_step_idx]. lia.
Qed.

Lemma skip_and_done_advance_witness :
  @on_callback latin_cyrillic sample_config sample_update sample_env (u "veh|done")
    (mkDraft (Some sample_ticket) 2 false PRIMARY_MODE false)
  = Some (mkDraft (Some sample_ticket) 3 false PRIMARY_MODE false,
          AnswerQuery :: edit_prompt sample_ticket (u "plate_vats")).
Proof.
  exact (proj2 (@skip_and_done_advance latin_cyrillic sample_config sample_update sample_env
                  (mkDraft (Some sample_ticket) 2 false PRIMARY_MODE false) sample_ticket
                  eq_refl eq_refl eq_refl eq_refl
                  ltac:(vm_compute; split; [discriminate | reflexivity]))
           ltac:(vm_compute; reflexivity)).
Defined.

(** ** Configuration from the environment *)

Section Environment.
Context `{PyUnicode} `{PyInt}.

Lemma head_omap_cons {A B} (f : A → option B) x l :
  head (omap f (x :: l)) = match f x with Some y => Some y | None => head (omap f l) end.
Proof. simpl. destruct (f x); reflexivity. Qed.

Lemma _env_int_first getenv names dflt :
  (∀ s, py_int s ≠ None → s ≠ []) →
  _env_int getenv names dflt = default dflt (head (omap (env_int_value getenv) names)).
Proof.
  intros Hint. induction names as [|name names IH]; [reflexivity|].
  cbn [_env_int]. rewrite head_omap_cons. unfold env_int_value at 1.
  destruct (getenv name) as [val|]; cbn [mbind option_bind]; [|exact IH].
  destruct (strip val) as [|c s] eqn:Hs.
  - destruct (py_int []) as [n|] eqn:Hn; [|exact IH].
    exfalso. apply (Hint []); [congruence | reflexivity].
  - destruct (py_int (c :: s)); [reflexivity | exact IH].
Qed.

Lemma _env_flag_first getenv names dflt :
  _env_flag getenv names dflt = default dflt (head (omap (env_flag_value getenv) names)).
Proof.
  induction names as [|name names IH]; [reflexivity|].
  cbn [_env_flag]. rewrite head_omap_cons. unfold env_flag_value at 1.
  destruct (getenv name) as [val|]; cbn [mbind option_bind]; [|exact IH].
  destruct (strip val) as [|c s] eqn:Hs.
  - change (bool_decide ([] ∈ flag_truthy)) with false.
    change (bool_decide ([] ∈ flag_falsy)) with false. cbv iota. exact IH.
  - destruct (bool_decide (c :: s ∈ flag_truthy)); [reflexivity|].
    destruct (bool_decide (c :: s ∈ flag_falsy)); [reflexivity | exact IH].
Qed.

End Environment.

(** X21. Reading the configuration. Of the names given to [_env_int],
    the first one that is set to a number decides, where surrounding
    white space does not count; a name that is not set, blank or no
    number is passed over without an error, and with no name left the
    default is taken. [_env_flag] does the same with the ten words it
    knows, any other text being passed over. So with none of the three
    chat variables set both chat ids are 0: the completion of the RA
    questions then notifies no help chat, and a request for a dispatcher
    is answered with the text that the chat is not set up. Assumed of the
    runtime: [int] accepts no empty text. *)
Theorem environment_defaults `{PyUnicode} `{PyInt} (getenv : Environ) :
  (∀ s, py_int s ≠ None → s ≠ []) →
  (∀ names dflt,
     _env_int getenv names dflt = default dflt (head (omap (env_int_value getenv) names)))
  ∧ (∀ names dflt,
       _env_flag getenv names dflt
       = default dflt (head (omap (env_flag_value getenv) names)))
  ∧ (getenv (u "RA_NOTIFY_CHAT_ID") = None → getenv (u "DISPATCH_CHAT_ID") = None →
     getenv (u "DISPATCH_ALERT_CHAT_ID") = None →
     @RA_NOTIFY_CHAT_ID (config_of_environ getenv) = 0
     ∧ @DISPATCH_ALERT_CHAT_ID (config_of_environ getenv) = 0
     ∧ (∀ invite_link, @notify_help_chat (config_of_environ getenv) invite_link = [])
     ∧ (∀ upd env d t,
          upd_private upd = true → ticket d = Some t →
          @on_callback _ (config_of_environ getenv) upd env (u "dispatch|" ++ ticket_id t) d
          = Some (d, [AnswerQuery; EditMessage T_dispatch_missing_chat None]))).
Proof.
  intros Hint. split; [|split].
  - intros names dflt. apply _env_int_first, Hint.
  - intros names dflt. apply _env_flag_first.
  - intros H1 H2 H3.
    assert (@RA_NOTIFY_CHAT_ID (config_of_environ getenv) = 0) as Hra
      by (cbn [RA_NOTIFY_CHAT_ID config_of_environ _env_int]; rewrite H1, H2; reflexivity).
    assert (@DISPATCH_ALERT_CHAT_ID (config_of_environ getenv) = 0) as Hda
      by (cbn [DISPATCH_ALERT_CHAT_ID config_of_environ _env_int]; rewrite H3; reflexivity).
    split; [exact Hra|]. split; [exact Hda|]. split.
    + intros link. unfold notify_help_chat. rewrite Hra. reflexivity.
    + intros upd env d t Hp Ht.
      rewrite (@on_callback_dispatch _ (config_of_environ getenv) _ _ _ _ t Hp Ht).
      unfold on_dispatch. rewrite split_dispatch, eqs_refl. cbn [negb].
      rewrite Hda. reflexivity.
Qed.

Lemma environment_defaults_witness :
  @_env_int latin_cyrillic ascii_int
    (λ name, if bool_decide (name = u "DISPATCH_CHAT_ID") then Some (u " -100123 ")
             else if bool_decide (name = u "RA_NOTIFY_CHAT_ID") then Some (u "n/a")
             else None)
    [u "RA_NOTIFY_CHAT_ID"; u "DISPATCH_CHAT_ID"] 0
  = -100123.
Proof.
  rewrite (proj1 (@environment_defaults latin_cyrillic ascii_int _
                    ltac:(intros s Hs ->; apply Hs; reflexivity))).
  vm_compute. reflexivity.
Defined.

(** ** The description of the tracker issue *)

Section Lines.

Lemma splitlines_from_plain cur line rest :
  Forall (λ c, is_line_boundary c = false) line →
  splitlines_from cur (line ++ rest) = splitlines_from (rev line ++ cur) rest.
Proof.
  intros Hl. revert cur. induction Hl as [|c line Hc _ IH]; intros cur; [reflexivity|].
  cbn [app splitlines_from]. rewrite Hc, IH. cbn [rev]. rewrite <- (assoc_L (++)). reflexivity.
Qed.

Lemma splitlines_from_newline cur rest :
  splitlines_from cur (nl ++ rest) = rev cur :: splitlines_from [] rest.
Proof. reflexivity. Qed.

Lemma splitlines_join (lines : list pystr) :
  Forall (Forall (λ c, is_line_boundary c = false)) lines →
  last lines ≠ Some [] →
  splitlines (join nl lines) = lines.
Proof.
  unfold splitlines. induction 1 as [|x lines Hx Hall IH]; intros Hlast; [reflexivity|].
  destruct lines as [|y lines].
  - cbn [join]. rewrite <- (app_nil_r x) at 1.
    rewrite (splitlines_from_plain [] x [] Hx). rewrite app_nil_r. cbn [splitlines_from].
    destruct (rev x) as [|c r] eqn:Hr.
    + exfalso. apply Hlast. cbn [last]. f_equal.
      apply (f_equal (@rev N)) in Hr. rewrite rev_involutive in Hr. exact Hr.
    + rewrite <- Hr, rev_involutive. reflexivity.
  - change (join nl (x :: y :: lines)) with (x ++ nl ++ join nl (y :: lines)).
    rewrite (splitlines_from_plain [] x _ Hx), app_nil_r, splitlines_from_newline.
    rewrite rev_involutive. f_equal. apply IH. exact Hlast.
Qed.

(** Splitting loses none but the boundary characters, and a line holds
    no boundary. *)
Lemma splitlines_from_concat cur s :
  concat (splitlines_from cur s)
  = rev cur ++ List.filter (λ c, negb (is_line_boundary c)) s.
Proof.
  revert cur. induction s as [s IH] using (induction_ltof1 _ (@length N)); intros cur.
  destruct s as [|c s].
  - destruct cur; [reflexivity|]. cbn [splitlines_from concat List.filter].
    rewrite !app_nil_r. reflexivity.
  - unfold ltof in IH. cbn [splitlines_from List.filter].
    destruct (is_line_boundary c) eqn:Hc; cbn [negb].
    + cbn [concat]. f_equal.
      destruct (c =? 13)%N.
      * destruct s as [|c' s']; [apply (IH []); simpl; lia|].
        destruct (c' =? 10)%N eqn:Hc'.
        -- apply N.eqb_eq in Hc'. subst c'. rewrite (IH s') by (simpl; lia).
           reflexivity.
        -- apply (IH (c' :: s')). simpl. lia.
      * apply (IH s). simpl. lia.
    + rewrite (IH s) by (simpl; lia). cbn [rev]. rewrite <- (assoc_L (++)). reflexivity.
Qed.

Lemma splitlines_from_lines cur s :
  Forall (λ c, is_line_boundary c = false) cur →
  Forall (Forall (λ c, is_line_boundary c = false)) (splitlines_from cur s).
Proof.
  revert cur. induction s as [s IH] using (induction_ltof1 _ (@length N)); intros cur Hcur.
  destruct s as [|c s].
  - destruct cur; [constructor|]. cbn [splitlines_from]. constructor; [|constructor].
    apply Forall_rev. exact Hcur.
  - unfold ltof in IH. cbn [splitlines_from].
    destruct (is_line_boundary c) eqn:Hc.
    + constructor; [apply Forall_rev; exact Hcur|].
      destruct (c =? 13)%N.
      * destruct s as [|c' s']; [apply (IH []); [simpl; lia | constructor]|].
        destruct (c' =? 10)%N;
          [apply (IH s') | apply (IH (c' :: s'))]; first [simpl; lia | constructor].
      * apply (IH s); [simpl; lia | constructor].
    + apply (IH s); [simpl; lia|]. constructor; assumption.
Qed.

Lemma splitlines_from_nonempty cur s :
  cur ≠ [] ∨ s ≠ [] → splitlines_from cur s ≠ [].
Proof.
  revert cur. induction s as [|c s IH]; intros cur Hne.
  - destruct cur; [destruct Hne as [Hne|Hne]; destruct Hne; reflexivity|]. discriminate.
  - cbn [splitlines_from]. destruct (is_line_boundary c); [discriminate|].
    apply IH. left. discriminate.
Qed.

End Lines.

Section Description.
Context `{PyUnicode}.

Lemma join_first_line (label value : pystr) rest :
  label ≠ [] → join nl (block_line label value true ++ rest) ≠ [].
Proof.
  intros Hl. unfold block_line. cbn [app].
  destruct label as [|c label]; [destruct Hl; reflexivity|]. cbn [app].
  match goal with |- join nl ((c :: ?x) :: rest) ≠ [] =>
    destruct (join_head nl c x rest) as [tl ->] end.
  discriminate.
Qed.

Lemma render_primary_block_nonempty t : render_primary_block t ≠ [].
Proof.
  unfold render_primary_block, primary_block_lines.
  apply join_first_line. vm_compute. discriminate.
Qed.

End Description.

(** X22. The fields of the tracker issue. The description of an issue is
    always there: a document of version 1 with at least one paragraph,
    each paragraph one text node for one line of the primary block of the
    ticket; no paragraph holds a line boundary, and the paragraphs one
    after the other are the primary block without its line boundaries.
    For every text, lines without line boundaries, the last of them not
    empty, joined by newlines come back as one paragraph each, and a
    missing or empty text has no document. *)
Theorem issue_description `{PyUnicode} `{JiraSettings} (t : Ticket) :
  (∃ doc,
     fields_description (build_fields_main t) = Some doc
     ∧ doc_version doc = 1
     ∧ doc_content doc ≠ []
     ∧ Forall (λ p, ∃ ln, par_content p = [_adf_text_node ln]) (doc_content doc)
     ∧ Forall (Forall (λ c, is_line_boundary c = false)) (doc_lines doc)
     ∧ concat (doc_lines doc)
       = List.filter (λ c, negb (is_line_boundary c)) (compose_primary_block t))
  ∧ (∀ lines,
       lines ≠ [] → Forall (Forall (λ c, is_line_boundary c = false)) lines →
       last lines ≠ Some [] →
       ∃ doc, _adf_doc_from_plain (Some (join nl lines)) = Some doc
              ∧ doc_lines doc = lines)
  ∧ _adf_doc_from_plain None = None ∧ _adf_doc_from_plain (Some []) = None.
Proof.
  assert (Hlines : ∀ ls : list pystr,
            doc_lines (mkAdfDoc 1 (map (λ ln, mkAdfParagraph [_adf_text_node ln]) ls)) = ls).
  { intros ls. unfold doc_lines. cbn [doc_content].
    induction ls as [|l ls IH]; [reflexivity|]. cbn [map flat_map par_content app adf_text _adf_text_node].
    rewrite IH. reflexivity. }
  split; [|split; [|split; reflexivity]].
  - unfold build_fields_main. cbn [fields_description]. unfold compose_primary_block.
    pose proof (render_primary_block_nonempty t) as Hne.
    destruct (render_primary_block t) as [|c s] eqn:Hblock; [destruct Hne; reflexivity|].
    unfold _adf_doc_from_plain.
    assert (splitlines (c :: s) ≠ []) as Hsp.
    { unfold splitlines. apply splitlines_from_nonempty. right. discriminate. }
    destruct (splitlines (c :: s)) as [|l ls] eqn:Hsplit; [destruct Hsp; reflexivity|].
    eexists. split; [reflexivity|]. split; [reflexivity|]. split; [discriminate|].
    split; [|split].
    + cbn [doc_content]. apply Forall_forall. intros p Hp.
      apply list_elem_of_fmap in Hp as (ln & -> & _). exists ln. reflexivity.
    + rewrite Hlines, <- Hsplit. apply splitlines_from_lines. constructor.
    + rewrite Hlines, <- Hsplit. apply (splitlines_from_concat [] (c :: s)).
  - intros lines Hne Hall Hlast.
    pose proof (splitlines_join lines Hall Hlast) as Hsj.
    unfold _adf_doc_from_plain.
    destruct (join nl lines) as [|c s] eqn:Hj.
    + exfalso. destruct lines as [|l ls]; [destruct Hne; reflexivity|].
      cbn in Hsj. discriminate Hsj.
    + rewrite Hsj. destruct lines as [|l ls]; [destruct Hne; reflexivity|].
      eexists. split; [reflexivity|]. apply Hlines.
Qed.

Lemma issue_description_witness :
  ∃ doc, _adf_doc_from_plain (Some (join nl [u "a: 1"; u ""; u "b: 2"])) = Some doc
         ∧ doc_lines doc = [u "a: 1"; u ""; u "b: 2"].
Proof.
  apply (proj1 (proj2 (@issue_description latin_cyrillic sample_jira sample_ticket))).
  - discriminate.
  - apply (bool_decide_eq_true_1 (Forall _ _)). vm_compute. reflexivity.
  - vm_compute. discriminate.
Defined.

(** ** The answer of the chat factory *)

Section FactoryAnswers.
Context `{PyUnicode} `{PyInt} `{PyDigit}.

Lemma lstrip_keep (a b : pystr) c :
  py_isspace c = false → ∃ a', lstrip (a ++ c :: b) = a' ++ c :: b.
Proof.
  intros Hc. induction a as [|x a IH].
  - exists []. simpl. rewrite Hc. reflexivity.
  - simpl. destruct (py_isspace x); [exact IH|]. exists (x :: a). reflexivity.
Qed.

(** A text that starts with [http] still does after [strip]. *)
Lemma strip_http s :
  py_isspace 104 = false → py_isspace 112 = false →
  startswith (u "http") s = true → startswith (u "http") (strip s) = true.
Proof.
  intros Hh Hp Hs.
  change (u "http") with [104; 116; 116; 112]%N in *.
  destruct s as [|c1 [|c2 [|c3 [|c4 r]]]]; cbn [startswith] in Hs;
    rewrite ?andb_false_r in Hs; try discriminate Hs.
  apply andb_true_iff in Hs as [E1 Hs]. apply andb_true_iff in Hs as [E2 Hs].
  apply andb_true_iff in Hs as [E3 Hs]. apply andb_true_iff in Hs as [E4 _].
  apply N.eqb_eq in E1, E2, E3, E4. subst c1 c2 c3 c4.
  unfold strip. cbn [lstrip]. rewrite Hh.
  change (rev (104 :: 116 :: 116 :: 112 :: r))%N
    with (rev ([104; 116; 116; 112]%N ++ r)).
  rewrite rev_app_distr. change (rev [104; 116; 116; 112]%N) with [112; 116; 116; 104]%N.
  destruct (lstrip_keep (rev r) [116; 116; 104]%N 112%N Hp) as [a' ->].
  rewrite rev_app_distr. reflexivity.
Qed.

Lemma nested_dict_get (items : list (pystr * Node)) key :
  (fix nested (l : list (pystr * Node)) (key : pystr) : option (option Z) :=
     match l with
     | [] => None
     | (k, v) :: l' => if decide (k = key) then Some (_extract_chat_id v) else nested l' key
     end) items key
  = _extract_chat_id <$> dict_get items key.
Proof.
  induction items as [|[k v] items IH]; [reflexivity|].
  cbn [dict_get]. destruct (decide (k = key)); [reflexivity | exact IH].
Qed.

Lemma extract_dict items :
  _extract_chat_id (NDict items)
  = head (omap (λ key, dict_get items key ≫= _extract_chat_id)
            (chat_id_keys ++ chat_wrapper_keys)).
Proof.
  cbn [_extract_chat_id].
  set (nested := fix nested (l : list (pystr * Node)) (key : pystr) := _).
  set (search := fix search (keys : list pystr) := _).
  assert (Hsearch : ∀ keys,
            search keys = head (omap (λ key, dict_get items key ≫= _extract_chat_id) keys)).
  { induction keys as [|key keys IH]; [reflexivity|].
    rewrite head_omap_cons. cbn [search]. fold search.
    unfold nested. rewrite nested_dict_get.
    destruct (dict_get items key) as [v|]; cbn [fmap option_fmap option_map mbind option_bind];
      [|exact IH].
    destruct (_extract_chat_id v); [reflexivity | exact IH]. }
  rewrite !Hsearch. rewrite omap_app.
  destruct (omap _ chat_id_keys) as [|n l]; reflexivity.
Qed.

End FactoryAnswers.

(** X23. What the engine makes of the answer of the chat factory. A
    number is the chat id. In a dictionary the keys [chat_id], [chatId],
    [chatid], [id] and then [chat], [result], [data] are looked up in
    that order, and the first one whose value, read in the same way,
    gives an id decides; a key whose value gives none does not end the
    search. A text that starts with [http] is passed on as a link and
    never gives a chat id, and without a factory there is the error text
    and no id. When the answer carries no id the completion of the RA
    questions leaves the ticket as it is and makes no invite link.
    Assumed of the runtime: the letters [h] and [p] are no white space. *)
Theorem factory_answer `{PyUnicode} `{Config} `{PyInt} `{PyDigit} :
  py_isspace 104 = false → py_isspace 112 = false →
  (∀ n, try_create_chat_via_userbot (FactoryResult (NInt n)) = (None, None, Some n))
  ∧ (∀ items,
       _extract_chat_id (NDict items)
       = head (omap (λ key, dict_get items key ≫= _extract_chat_id)
                 (chat_id_keys ++ chat_wrapper_keys)))
  ∧ (∀ s, startswith (u "http") s = true →
          try_create_chat_via_userbot (FactoryResult (NStr s)) = (Some s, None, None))
  ∧ try_create_chat_via_userbot NoFactory = (None, Some (u "userbot disabled"), None)
  ∧ (∀ answer env d t d' calls,
       snd (try_create_chat_via_userbot answer) = None →
       env_create_chat env = try_create_chat_via_userbot answer →
       finish_ra_flow_if_needed env d t = Some (d', calls) →
       ticket d' = Some t ∧ ∀ c, CreateChatInviteLink c ∉ calls).
Proof.
  intros Hh Hp. split; [|split; [|split; [|split]]].
  - reflexivity.
  - apply extract_dict.
  - intros s Hs. unfold try_create_chat_via_userbot. rewrite Hs.
    cbn [_extract_chat_id]. unfold chat_id_of_text.
    rewrite (strip_http s Hh Hp Hs). reflexivity.
  - reflexivity.
  - intros answer env d t d' calls Hnone Henv.
    unfold finish_ra_flow_if_needed.
    destruct (negb (is_ra d) || negb (is_last_step d)); [discriminate|].
    rewrite Henv.
    destruct (try_create_chat_via_userbot answer) as [[link err] chat_id].
    cbn [snd] in Hnone. subst chat_id. cbn [truthy_int].
    intros [= <- <-]. split; [reflexivity|].
    intros c Hin. cbn [app] in Hin.
    apply elem_of_cons in Hin as [Hin|Hin]; [discriminate Hin|].
    apply elem_of_app in Hin as [Hin|Hin].
    + unfold notify_help_chat in Hin. destruct (RA_NOTIFY_CHAT_ID =? 0).
      * apply elem_of_nil in Hin. exact Hin.
      * apply list_elem_of_singleton in Hin. discriminate Hin.
    + apply elem_of_cons in Hin as [Hin|Hin]; [discriminate Hin|].
      destruct (DISPATCH_ALERT_CHAT_ID =? 0).
      * apply elem_of_nil in Hin. exact Hin.
      * apply list_elem_of_singleton in Hin. discriminate Hin.
Qed.

Lemma factory_answer_witness :
  @_extract_chat_id latin_cyrillic ascii_int ascii_isdigit
    (NDict [(u "id", NStr (u "https://t.me/+abc"));
            (u "result", NDict [(u "chat_id", NStr (u " -100123 "))])])
  = Some (-100123).
Proof.
  rewrite (proj1 (proj2 (@factory_answer latin_cyrillic sample_config ascii_int ascii_isdigit
                           eq_refl eq_refl))).
  vm_compute. reflexivity.
Defined.

(** ** The incident source in free form *)

Section FreeForm.
Context `{PyUnicode} `{Config}.

Lemma primary_second_step tk : nth 1 (_steps_for_primary tk) [] = u "incident_source".
Proof.
  unfold _steps_for_primary, _maybe_add_plate_ref.
  destruct (is_dtp_opt tk), (is_sitrak_opt tk); reflexivity.
Qed.

Lemma dict_get_None {A} (dct : list (pystr * A)) key :
  key ∉ map fst dct → dict_get dct key = None.
Proof.
  induction dct as [|[k a] dct IH]; [reflexivity|]. cbn [map fst dict_get].
  intros Hn. apply not_elem_of_cons in Hn as [Hk Hn].
  rewrite decide_False by congruence. apply IH, Hn.
Qed.

End FreeForm.

(** X24. The incident source in free form, outside editing with the
    cursor on the incident source. The button for another source changes
    nothing of the ticket: it switches the free-form mode on and asks for
    the text. The text message that follows is stored, without its
    surrounding white space, as the incident source; the free-form mode
    is off again and the cursor is on the next step. In the primary block
    such a text, unless it is one of the codes of the four options, is
    shown as it was typed: it is not passed through the HTML escape. *)
Theorem free_form_incident_source `{PyUnicode} `{Config}
  (upd : Update) (env : Env) (upd2 : Update) (env2 : Env)
  (d : Draft) (t : Ticket) (msg : pystr) (c : N) (s : pystr) :
  upd_private upd = true → upd_private upd2 = true → ticket d = Some t →
  mode d = PRIMARY_MODE → editing d = false → step_idx d = 1 →
  strip msg = c :: s →
  let d1 := _set_incident_source_custom_mode d true in
  let t' := with_incident_source (Some (c :: s)) t in
  on_callback upd env (set_token (u "incident_source") INCIDENT_SOURCE_CUSTOM_VALUE) d
  = Some (d1, [AnswerQuery;
               EditMessage T_messages_incident_source_other_prompt
                 (Some (kb_nav (u "incident_source") true None))])
  ∧ (∃ d2 calls,
       on_text upd2 env2 msg d1 = Some (d2, calls)
       ∧ ticket d2 = Some t' ∧ _incident_source_custom_input d2 = false
       ∧ step_idx d2 = 2 ∧ editing d2 = false ∧ mode d2 = PRIMARY_MODE)
  ∧ (c :: s ∉ map fst T_choices_incident_source →
     lbl "incident_source" ++ u ": <b>" ++ (c :: s) ++ u "</b>" ∈ primary_block_lines t').
Proof.
  intros Hp Hp2 Ht Hm He Hi Hmsg d1 t'. split; [|split].
  - rewrite (on_callback_set_token upd env d t _ _ Hp Ht)
      by (apply (bool_decide_eq_true_1 (_ ∉ _)); vm_compute; reflexivity).
    unfold on_set_field.
    change (negb (bool_decide (u "incident_source" ∈ ALL_KNOWN_KEYS))) with false.
    rewrite !eqs_refl. reflexivity.
  - assert (ticket d1 = Some t ∧ editing d1 = false ∧ mode d1 = PRIMARY_MODE
            ∧ step_idx d1 = 1 ∧ _incident_source_custom_input d1 = true)
      as (Ht1 & He1 & Hm1 & Hi1 & Hf1) by (unfold d1; repeat split; assumption).
    assert (active_steps d1 = _steps_for_primary (Some t)) as Hsteps
      by (unfold active_steps; rewrite Hm1, Ht1; reflexivity).
    pose proof (active_steps_length d1) as Hlen.
    assert (0 ≤ step_idx d1 < len (active_steps d1)) as Hr by (unfold len; lia).
    assert (item (active_steps d1) (step_idx d1) = u "incident_source") as Hkey
      by (unfold item; rewrite Hi1, Hsteps; apply primary_second_step).
    clearbody d1.
    unfold on_text. rewrite Hp2, Ht1. cbn [negb].
    rewrite (current_step_key_in_range d1 Hr), Hkey. rewrite Hmsg.
    unfold _is_incident_source_custom_mode. rewrite Hf1, eqs_refl.
    change (dict_get STEP_INPUT_KIND (u "incident_source")) with (Some KChoice).
    cbn [is_text orb andb].
    destruct (text_stored upd2 d1 t (u "incident_source") (c :: s) true Ht1 He1)
      as (t1 & d2 & calls & Hs & Hrun & Ht2 & He2 & Hm2 & _ & Hf2 & Hcases);
      [lia | apply (bool_decide_eq_true_1 (_ ∈ _)); vm_compute; reflexivity
       | vm_compute; discriminate ..|].
    change (set_field_local t (u "incident_source") (Some (c :: s))) with (Some t') in Hs.
    injection Hs as <-.
    exists d2, calls. split; [exact Hrun|]. split; [exact Ht2|]. split; [exact Hf2|].
    assert (is_last_step d1 = false) as Hl
      by (unfold is_last_step; apply Z.leb_gt; unfold len; lia).
    rewrite Hl in Hcases. destruct Hcases as [Hidx _].
    split; [lia|]. split; [exact He2|]. rewrite Hm2. exact Hm1.
  - intros Hcode. unfold primary_block_lines.
    apply elem_of_app. right. apply elem_of_app. left.
    unfold block_line, human, t'. cbn [incident_source with_incident_source].
    change (default [] (dict_get HUMANIZE_VALUE (u "incident_source")))
      with T_choices_incident_source.
    rewrite (dict_get_None _ _ Hcode). cbn [default from_option id].
    apply list_elem_of_here.
Qed.

Lemma free_form_incident_source_witness :
  lbl "incident_source" ++ u ": <b>" ++ u "<radio>" ++ u "</b>"
  ∈ @primary_block_lines latin_cyrillic (with_incident_source (Some (u "<radio>")) sample_ticket).
Proof.
  apply (proj2 (proj2 (@free_form_incident_source latin_cyrillic sample_config
                         sample_update sample_env sample_update sample_env
                         (mkDraft (Some sample_ticket) 1 false PRIMARY_MODE false)
                         sample_ticket (u " <radio> ") 60%N (u "radio>")
                         eq_refl eq_refl eq_refl eq_refl eq_refl eq_refl
                         ltac:(vm_compute; reflexivity)))).
  apply (bool_decide_eq_true_1 (_ ∉ _)). vm_compute. reflexivity.
Defined.

